(** * Wifi-jammer-prevention-sim: the simulation, detection and mitigation engine

    A shallow embedding of the three simulators of the repository:

    - [Jmch]              is [jmch.py]               (class [JammerWithPreventionSimulator]),
    - [Jammer]            is [jammer.py]             (class [FixedJammerSimulator]),
    - [JammerPrevention]  is [jammer+prevention.py]  (class [AdvancedJammerSimulator]).

    Conventions.  Python [int]s are [Z].  Python floats are idealised as exact
    numbers: rationals [Q] in the two packet-counting simulators, whose
    definitions therefore evaluate, and reals [R] in the waveform simulator,
    which needs [sin] and [PI].  The one exception is the clock of jammer.py,
    a binary64 [float] as in the program, because what is stated of it
    depends on the rounding.  Every draw from [random] or [numpy.random] is an
    explicit argument, so a statement quantified over the draws holds for every
    outcome of the generator.  A Python exception is the [Raise] branch of
    [result].  Widgets, plots and locks are presentation and are left out; the
    text written to the console is kept as a list of messages because it is the
    observable trace of a mitigation. *)

From Stdlib Require Import PrimFloat.
From Stdlib Require Import String.
From Stdlib Require Import ZArith QArith Qminmax Reals Lra Lia Bool List Sorted.
From Stdlib Require Lqa.
Import ListNotations.

Set Implicit Arguments.

(** ** Python exceptions as an error monad *)

Inductive py_exn : Type :=
| ZeroDivisionError
| IndexError
| KeyError
| ValueError.

Inductive result (A : Type) : Type :=
| Ok (a : A)
| Raise (e : py_exn).

Arguments Ok {A} a.
Arguments Raise {A} e.

Definition bind {A B : Type} (m : result A) (k : A -> result B) : result B :=
  match m with
  | Ok a => k a
  | Raise e => Raise e
  end.

Declare Scope py_scope.
Delimit Scope py_scope with py.
Notation "x <- m ;; k" := (bind m (fun x => k))
  (at level 61, m at next level, right associativity) : py_scope.

Definition succeeds {A : Type} (m : result A) : Prop :=
  exists a, m = Ok a.

(** ** The fragment of the Python library that the engine calls *)

Module Py.

(** [a / b] on two ints: true division, [ZeroDivisionError] on a zero
    divisor. *)
Definition truediv (a b : Z) : result Q :=
  if (b =? 0)%Z then Raise ZeroDivisionError
  else Ok (inject_Z a / inject_Z b)%Q.

(** [a % b] on two ints: floor modulo, [ZeroDivisionError] on a zero
    divisor. *)
Definition mod_ (a b : Z) : result Z :=
  if (b =? 0)%Z then Raise ZeroDivisionError
  else Ok (a mod b)%Z.

(** [random.choice(seq)]: [IndexError] on an empty sequence, otherwise the
    element at an index below [len(seq)].  The generator's output [r] is
    reduced modulo the length, so every index below the length is the image
    of some [r]. *)
Definition choice {A : Type} (r : nat) (l : list A) : result A :=
  match l with
  | [] => Raise IndexError
  | x :: _ => Ok (nth (r mod length l) l x)
  end.

(** [x < y] on two rationals, as a boolean. *)
Definition ltb (x y : Q) : bool :=
  match (x ?= y)%Q with
  | Lt => true
  | _ => false
  end.

(** [l.pop(0)]: [IndexError] on an empty list, otherwise the list without
    its first element. *)
Definition pop0 {A : Type} (l : list A) : result (list A) :=
  match l with
  | [] => Raise IndexError
  | _ :: l' => Ok l'
  end.

(** [range(a, b)] for ints. *)
Definition range (a b : Z) : list Z :=
  map (fun k => (a + Z.of_nat k)%Z) (seq 0 (Z.to_nat (b - a))).

End Py.

(** ** jmch.py *)

Module Jmch.

Local Open Scope Q_scope.
Local Open Scope py_scope.

(** Lines written to [output_box]. *)
Inductive message : Type :=
| PacketBlocked (pkt_id : Z) (strength : Q)
| PacketSent (pkt_id : Z)
| FrequencyHopping (channel : Z).

(** Text of [result_label]. *)
Inductive verdict : Type :=
| NoVerdict
| JammingDetected (success_rate : Q)
| NetworkStable (success_rate : Q).

Record state : Type := mkState {
  jammer_active : bool;
  jammer_strength : Q;
  sent : Z;
  blocked : Z;
  channel : Z;
  running : bool;
  success_rate_data : list Q;
  time_data : list Q;
  time_counter : Q;
  output_box : list message;
  result_label : verdict
}.

(** Set once in [__init__] and never assigned again. *)
Definition success_rate_threshold : Z := 70.
Definition check_interval : Z := 10.

(** [__init__] *)
Definition init : state :=
  {| jammer_active := false;
     jammer_strength := 3 # 10;
     sent := 0;
     blocked := 0;
     channel := 1;
     running := true;
     success_rate_data := [];
     time_data := [];
     time_counter := 0;
     output_box := [];
     result_label := NoVerdict |}.

Definition set_counters (sn bl : Z) (s : state) : state :=
  {| jammer_active := jammer_active s;
     jammer_strength := jammer_strength s;
     sent := sn;
     blocked := bl;
     channel := channel s;
     running := running s;
     success_rate_data := success_rate_data s;
     time_data := time_data s;
     time_counter := time_counter s;
     output_box := output_box s;
     result_label := result_label s |}.

Definition set_channel (ch : Z) (s : state) : state :=
  {| jammer_active := jammer_active s;
     jammer_strength := jammer_strength s;
     sent := sent s;
     blocked := blocked s;
     channel := ch;
     running := running s;
     success_rate_data := success_rate_data s;
     time_data := time_data s;
     time_counter := time_counter s;
     output_box := output_box s;
     result_label := result_label s |}.

Definition set_jammer (active : bool) (strength : Q) (s : state) : state :=
  {| jammer_active := active;
     jammer_strength := strength;
     sent := sent s;
     blocked := blocked s;
     channel := channel s;
     running := running s;
     success_rate_data := success_rate_data s;
     time_data := time_data s;
     time_counter := time_counter s;
     output_box := output_box s;
     result_label := result_label s |}.

Definition set_running (b : bool) (s : state) : state :=
  {| jammer_active := jammer_active s;
     jammer_strength := jammer_strength s;
     sent := sent s;
     blocked := blocked s;
     channel := channel s;
     running := b;
     success_rate_data := success_rate_data s;
     time_data := time_data s;
     time_counter := time_counter s;
     output_box := output_box s;
     result_label := result_label s |}.

Definition set_graph (rates times : list Q) (s : state) : state :=
  {| jammer_active := jammer_active s;
     jammer_strength := jammer_strength s;
     sent := sent s;
     blocked := blocked s;
     channel := channel s;
     running := running s;
     success_rate_data := rates;
     time_data := times;
     time_counter := time_counter s;
     output_box := output_box s;
     result_label := result_label s |}.

Definition set_time_counter (t : Q) (s : state) : state :=
  {| jammer_active := jammer_active s;
     jammer_strength := jammer_strength s;
     sent := sent s;
     blocked := blocked s;
     channel := channel s;
     running := running s;
     success_rate_data := success_rate_data s;
     time_data := time_data s;
     time_counter := t;
     output_box := output_box s;
     result_label := result_label s |}.

Definition log (m : message) (s : state) : state :=
  {| jammer_active := jammer_active s;
     jammer_strength := jammer_strength s;
     sent := sent s;
     blocked := blocked s;
     channel := channel s;
     running := running s;
     success_rate_data := success_rate_data s;
     time_data := time_data s;
     time_counter := time_counter s;
     output_box := output_box s ++ [m];
     result_label := result_label s |}.

Definition set_result_label (v : verdict) (s : state) : state :=
  {| jammer_active := jammer_active s;
     jammer_strength := jammer_strength s;
     sent := sent s;
     blocked := blocked s;
     channel := channel s;
     running := running s;
     success_rate_data := success_rate_data s;
     time_data := time_data s;
     time_counter := time_counter s;
     output_box := output_box s;
     result_label := v |}.

(** [toggle_jammer] *)
Definition toggle_jammer (s : state) : state :=
  set_jammer (negb (jammer_active s)) (jammer_strength s) s.

(** The slider's callback: [setattr(self, 'jammer_strength', float(v))]. *)
Definition set_strength (v : Q) (s : state) : state :=
  set_jammer (jammer_active s) v s.

(** [on_closing] *)
Definition on_closing (s : state) : state :=
  set_running false s.

(** Line 109: [self.jammer_active and random.random() < self.jammer_strength],
    with [u] the value of [random.random()]. *)
Definition is_blocked (u : Q) (s : state) : bool :=
  jammer_active s && Py.ltb u (jammer_strength s).

(** Lines 111-117: the counter update under the lock. *)
Definition record_packet (pkt_id : Z) (is_blocked : bool) (s : state) : state :=
  if is_blocked
  then log (PacketBlocked pkt_id (jammer_strength s))
           (set_counters (sent s) (blocked s + 1) s)
  else log (PacketSent pkt_id)
           (set_counters (sent s + 1) (blocked s) s).

(** [update_graph] *)
Definition update_graph (s : state) : result state :=
  let total := (sent s + blocked s)%Z in
  if (total >? 0)%Z then
    success_rate <- Py.truediv (100 * sent s) total ;;
    Ok (set_graph (success_rate_data s ++ [success_rate])
                  (time_data s ++ [time_counter s]) s)
  else Ok s.

(** [prevention_action]; [r] is the generator's output for
    [random.choice]. *)
Definition available_channels : list Z :=
  [1; 2; 3; 4; 5; 6; 7; 8; 9; 10; 11]%Z.

Definition candidates (current : Z) : list Z :=
  filter (fun ch => negb (ch =? current)%Z) available_channels.

Definition prevention_action (r : nat) (s : state) : result state :=
  new_channel <- Py.choice r (candidates (channel s)) ;;
  Ok (log (FrequencyHopping new_channel) (set_channel new_channel s)).

(** Line 146: [100 * self.sent / total if total > 0 else 100]. *)
Definition evaluated_success_rate (s : state) : result Q :=
  let total := (sent s + blocked s)%Z in
  if (total >? 0)%Z then Py.truediv (100 * sent s) total else Ok 100.

(** [check_for_jamming] *)
Definition check_for_jamming (r : nat) (s : state) : result state :=
  success_rate <- evaluated_success_rate s ;;
  s1 <- (if Py.ltb success_rate (inject_Z success_rate_threshold)
         then prevention_action r
                (set_result_label (JammingDetected success_rate) s)
         else Ok (set_result_label (NetworkStable success_rate) s)) ;;
  Ok (set_counters 0 0 s1).

(** What one pass through the body of [simulate_packets] draws. *)
Record draws : Type := mkDraws {
  pkt_id : Z;      (* random.randint(1000, 9999) *)
  delay : Q;       (* random.uniform(0.2, 0.5)   *)
  uniform : Q;     (* random.random()            *)
  pick : nat       (* random.choice              *)
}.

(** Lines 105-125 of [simulate_packets]: one packet is decided, counted and
    plotted. *)
Definition transmit_packet (d : draws) (s : state) : result state :=
  let s1 := record_packet (pkt_id d) (is_blocked (uniform d) s) s in
  let s2 := set_time_counter (time_counter s1 + delay d) s1 in
  update_graph s2.

(** The body of the [while self.running] loop of [simulate_packets]: the
    packet, then lines 128-129. *)
Definition simulate_packets_body (d : draws) (s : state) : result state :=
  s3 <- transmit_packet d s ;;
  m <- Py.mod_ (sent s3 + blocked s3) check_interval ;;
  if (m =? 0)%Z then check_for_jamming (pick d) s3 else Ok s3.

(** What the window can do to the simulator while the thread runs. *)
Inductive command : Type :=
| ToggleJammer
| MoveSlider (v : Q)
| CloseWindow.

Definition execute (c : command) (s : state) : state :=
  match c with
  | ToggleJammer => toggle_jammer s
  | MoveSlider v => set_strength v s
  | CloseWindow => on_closing s
  end.

End Jmch.


(** ** jammer.py *)

Module Jammer.

Local Open Scope string_scope.
Local Open Scope list_scope.
Local Open Scope Q_scope.
Local Open Scope py_scope.

(** The bound methods stored under ["spectrum_func"]; their waveforms feed
    the frequency plot only. *)
Inductive spectrum : Type :=
| clean_spectrum
| noise_spectrum
| repeater_spectrum
| tone_spectrum
| pulsed_spectrum.

Record params : Type := mkParams {
  block_prob : Q;
  spectrum_func : spectrum
}.

(** [self.simulation_params], in the order of the dict literal. *)
Definition simulation_params : list (string * params) :=
  [ ("None",     mkParams 0        clean_spectrum);
    ("Noise",    mkParams (6 # 10) noise_spectrum);
    ("Repeater", mkParams (4 # 10) repeater_spectrum);
    ("Tone",     mkParams (7 # 10) tone_spectrum);
    ("Pulsed",   mkParams (5 # 10) pulsed_spectrum) ].

(** [d[key]]: [KeyError] on a missing key. *)
Fixpoint getitem (d : list (string * params)) (key : string) : result params :=
  match d with
  | [] => Raise KeyError
  | (k, v) :: d' => if String.eqb k key then Ok v else getitem d' key
  end.

Inductive message : Type :=
| PacketBlocked (pkt_id : Z) (mode : string)
| PacketSent (pkt_id : Z).

(** [success_data] and [time_data] are created on first use
    ([hasattr]); the empty list stands for the missing attribute.  The clock
    [time_counter] is the program's binary64 float: it is the one number of
    this file whose value depends on the rounding. *)
Record state : Type := mkState {
  jamming_mode : string;
  sent : Z;
  blocked : Z;
  time_counter : float;
  running : bool;
  success_data : list Q;
  time_data : list float;
  output_box : list message
}.

(** [__init__] *)
Definition init : state :=
  {| jamming_mode := "None";
     sent := 0;
     blocked := 0;
     time_counter := 0%float;
     running := true;
     success_data := [];
     time_data := [];
     output_box := [] |}.

(** Line 146: [random.random() < params["block_prob"]]. *)
Definition decide_blocked (u : Q) (p : params) : bool :=
  Py.ltb u (block_prob p).

(** Lines 149-155 *)
Definition record_packet (pkt_id : Z) (is_blocked : bool) (s : state) : state :=
  if is_blocked
  then {| jamming_mode := jamming_mode s;
          sent := sent s;
          blocked := blocked s + 1;
          time_counter := time_counter s;
          running := running s;
          success_data := success_data s;
          time_data := time_data s;
          output_box := output_box s ++ [PacketBlocked pkt_id (jamming_mode s)] |}
  else {| jamming_mode := jamming_mode s;
          sent := sent s + 1;
          blocked := blocked s;
          time_counter := time_counter s;
          running := running s;
          success_data := success_data s;
          time_data := time_data s;
          output_box := output_box s ++ [PacketSent pkt_id] |}.

(** The float [0.4]. *)
Definition tick_period : float := 0x1.999999999999ap-2%float.

(** Lines 166-178; line 166 is a binary64 addition. *)
Definition update_success_plot (s : state) : result state :=
  let now := PrimFloat.add (time_counter s) tick_period in
  let total := (sent s + blocked s)%Z in
  if (total >? 0)%Z then
    success_rate <- Py.truediv (100 * sent s) total ;;
    Ok {| jamming_mode := jamming_mode s;
          sent := sent s;
          blocked := blocked s;
          time_counter := now;
          running := running s;
          success_data := success_data s ++ [success_rate];
          time_data := time_data s ++ [now];
          output_box := output_box s |}
  else
    Ok {| jamming_mode := jamming_mode s;
          sent := sent s;
          blocked := blocked s;
          time_counter := now;
          running := running s;
          success_data := success_data s;
          time_data := time_data s;
          output_box := output_box s |}.

(** The body of the [while self.running] loop of [simulate]; [u] is the
    value of [random.random()]. *)
Definition simulate_body (pkt_id : Z) (u : Q) (s : state) : result state :=
  p <- getitem simulation_params (jamming_mode s) ;;
  update_success_plot (record_packet pkt_id (decide_blocked u p) s).

(** What one pass through the body draws. *)
Record draws : Type := mkDraws {
  pkt_id : Z;    (* random.randint(1000, 9999) *)
  uniform : Q    (* random.random()            *)
}.

Definition simulate_tick (d : draws) (s : state) : result state :=
  simulate_body (pkt_id d) (uniform d) s.

(** [on_closing] *)
Definition on_closing (s : state) : state :=
  {| jamming_mode := jamming_mode s;
     sent := sent s;
     blocked := blocked s;
     time_counter := time_counter s;
     running := false;
     success_data := success_data s;
     time_data := time_data s;
     output_box := output_box s |}.

(** The combobox writes [jamming_mode]. *)
Definition select_mode (mode : string) (s : state) : state :=
  {| jamming_mode := mode;
     sent := sent s;
     blocked := blocked s;
     time_counter := time_counter s;
     running := running s;
     success_data := success_data s;
     time_data := time_data s;
     output_box := output_box s |}.

(** What the window can do to the simulator while the thread runs. *)
Inductive command : Type :=
| SelectMode (mode : string)
| CloseWindow.

Definition execute (c : command) (s : state) : state :=
  match c with
  | SelectMode mode => select_mode mode s
  | CloseWindow => on_closing s
  end.

End Jammer.


(** ** jammer+prevention.py *)

Module JammerPrevention.

Local Open Scope string_scope.
Local Open Scope list_scope.
Local Open Scope R_scope.
Local Open Scope py_scope.

(** Lines written to [console] by [_log]. *)
Inductive message : Type :=
| ChannelHopping (channel : Z)
| SpreadSpectrum (fc : Z)
| AdaptiveFilter (strength : R)
| Metrics (snr success_rate : R) (channel : Z).

Record state : Type := mkState {
  jammer_strength : R;
  fc : Z;
  channel : Z;
  running : bool;
  jammer_type_var : string;
  prev_method_var : string;
  success_times : list R;
  success_rates : list R;
  start_time : R;
  console : list message
}.

(** Set once in [__init__] and never assigned again. *)
Definition fs : Z := 1000.
Definition duration : R := 1.

(** [int(self.fs * self.duration)], the number of samples of the time grid. *)
Definition n_samples : nat := 1000.

(** The range of [strength_slider]: [from_=0, to=10]. *)
Definition slider_from : R := 0.
Definition slider_to : R := 10.

(** The bound of line 181 on the two history lists. *)
Definition capacity : nat := 100.

(** [__init__] *)
Definition init : state :=
  {| jammer_strength := 5;
     fc := 50;
     channel := 6;
     running := false;
     jammer_type_var := "Noise";
     prev_method_var := "Channel Hopping";
     success_times := [];
     success_rates := [];
     start_time := 0;
     console := [] |}.

Definition set_strength (v : R) (s : state) : state :=
  {| jammer_strength := v;
     fc := fc s;
     channel := channel s;
     running := running s;
     jammer_type_var := jammer_type_var s;
     prev_method_var := prev_method_var s;
     success_times := success_times s;
     success_rates := success_rates s;
     start_time := start_time s;
     console := console s |}.

Definition set_fc (f : Z) (s : state) : state :=
  {| jammer_strength := jammer_strength s;
     fc := f;
     channel := channel s;
     running := running s;
     jammer_type_var := jammer_type_var s;
     prev_method_var := prev_method_var s;
     success_times := success_times s;
     success_rates := success_rates s;
     start_time := start_time s;
     console := console s |}.

Definition set_channel (ch : Z) (s : state) : state :=
  {| jammer_strength := jammer_strength s;
     fc := fc s;
     channel := ch;
     running := running s;
     jammer_type_var := jammer_type_var s;
     prev_method_var := prev_method_var s;
     success_times := success_times s;
     success_rates := success_rates s;
     start_time := start_time s;
     console := console s |}.

Definition set_running (b : bool) (s : state) : state :=
  {| jammer_strength := jammer_strength s;
     fc := fc s;
     channel := channel s;
     running := b;
     jammer_type_var := jammer_type_var s;
     prev_method_var := prev_method_var s;
     success_times := success_times s;
     success_rates := success_rates s;
     start_time := start_time s;
     console := console s |}.

Definition set_selection (jammer_type method : string) (s : state) : state :=
  {| jammer_strength := jammer_strength s;
     fc := fc s;
     channel := channel s;
     running := running s;
     jammer_type_var := jammer_type;
     prev_method_var := method;
     success_times := success_times s;
     success_rates := success_rates s;
     start_time := start_time s;
     console := console s |}.

Definition set_history (times rates : list R) (t0 : R) (s : state) : state :=
  {| jammer_strength := jammer_strength s;
     fc := fc s;
     channel := channel s;
     running := running s;
     jammer_type_var := jammer_type_var s;
     prev_method_var := prev_method_var s;
     success_times := times;
     success_rates := rates;
     start_time := t0;
     console := console s |}.

(** [_log] *)
Definition log (m : message) (s : state) : state :=
  {| jammer_strength := jammer_strength s;
     fc := fc s;
     channel := channel s;
     running := running s;
     jammer_type_var := jammer_type_var s;
     prev_method_var := prev_method_var s;
     success_times := success_times s;
     success_rates := success_rates s;
     start_time := start_time s;
     console := console s ++ [m] |}.

(** *** numpy *)

(** [np.linspace(start, stop, num)] with the end point included. *)
Definition linspace (start stop : R) (num : nat) : list R :=
  map (fun k => start + INR k * ((stop - start) / INR (num - 1))) (seq 0 num).

(** [np.mean] *)
Definition total (l : list R) : R := fold_right Rplus 0 l.
Definition mean (l : list R) : R := total l / INR (length l).

(** [a ** 2], element by element *)
Definition square (l : list R) : list R := map (fun x => x * x) l.

(** [np.clip(x, lo, hi)] *)
Definition clip (x lo hi : R) : R := Rmin (Rmax x lo) hi.

(** *** The simulator *)

(** [_generate_signal]; [randn k] is the [k]-th sample of
    [np.random.randn(len(t))]. *)
Definition generate_signal (s : state) (randn : nat -> R) (t : list R)
  : list R * list R :=
  let signal := map (fun x => sin (2 * PI * IZR (fc s) * x)) t in
  let jammer :=
    if String.eqb (jammer_type_var s) "Noise" then
      map (fun k => jammer_strength s * randn k) (seq 0 (length t))
    else if String.eqb (jammer_type_var s) "Tone" then
      map (fun x => jammer_strength s * sin (2 * PI * IZR (fc s) * x)) t
    else if String.eqb (jammer_type_var s) "Pulsed" then
      map (fun k => if (k mod 50 =? 0)%nat then jammer_strength s * 2 else 0)
          (seq 0 (length t))
    else
      map (fun x => jammer_strength s * sin (2 * PI * (50 + 30 * x) * x)) t
  in (signal, jammer).

(** Line 171 *)
Definition snr_of (signal jammer : list R) : R :=
  mean (square signal) / (mean (square jammer) + 1 / 1000000).

(** Line 172 *)
Definition success_rate_of (snr : R) : R :=
  100 * clip (snr / 10) 0 1.

(** Lines 177-183: append to both lists, then drop the oldest entry of both
    once [success_times] is longer than [capacity]. *)
Definition record_sample (current_time success_rate : R) (s : state)
  : result state :=
  let times := success_times s ++ [current_time] in
  let rates := success_rates s ++ [success_rate] in
  if (capacity <? length times)%nat then
    times' <- Py.pop0 times ;;
    rates' <- Py.pop0 rates ;;
    Ok (set_history times' rates' (start_time s) s)
  else Ok (set_history times rates (start_time s) s).

(** The time grid computed on entry to [_run_simulation]. *)
Definition time_grid : list R := linspace 0 duration n_samples.

(** [_update_plots]: each line of the figure is given its two lists and the
    axes are re-limited, which raises [ValueError] when the two lists of a
    line differ in length.  The waveforms and the spectrum come in pairs of
    equal length by construction; the two history lists need not.  What is
    drawn is presentation, and failures of the window toolkit itself are
    outside this model. *)
Definition update_plots (s : state) : result unit :=
  if (length (success_times s) =? length (success_rates s))%nat
  then Ok tt
  else Raise ValueError.

(** The body of the [while self.running] loop of [_run_simulation], as far
    as the [try] reaches; [now] is the value of [time.time()]. *)
Definition run_simulation_body (randn : nat -> R) (now : R) (s : state)
  : result state :=
  let (signal, jammer) := generate_signal s randn time_grid in
  let snr := snr_of signal jammer in
  let success_rate := success_rate_of snr in
  let current_time := now - start_time s in
  s1 <- record_sample current_time success_rate s ;;
  _ <- update_plots s1 ;;
  Ok (log (Metrics snr success_rate (channel s1)) s1).

(** [start_simulation]; the thread it starts is the caller's business. *)
Definition start_simulation (now : R) (s : state) : state :=
  if running s then s
  else set_history [] [] now (set_running true s).

(** [stop_simulation] *)
Definition stop_simulation (s : state) : state :=
  set_running false s.

(** [apply_prevention]; [r] is the generator's output for
    [random.choice].  Line 238 then moves the slider, whose range is
    [slider_from] to [slider_to], to the new strength. *)
Definition apply_prevention (r : nat) (s : state) : result state :=
  let method := prev_method_var s in
  if String.eqb method "Channel Hopping" then
    new_channel <- Py.choice r
      (filter (fun ch => negb (ch =? channel s)%Z) (Py.range 1 12)) ;;
    Ok (log (ChannelHopping new_channel) (set_channel new_channel s))
  else if String.eqb method "Spread Spectrum" then
    f <- Py.choice r [40; 45; 50; 55; 60]%Z ;;
    Ok (log (SpreadSpectrum f) (set_fc f s))
  else if String.eqb method "Adaptive Filter" then
    let strength := jammer_strength s * (7 / 10) in
    Ok (log (AdaptiveFilter strength) (set_strength strength s))
  else Ok s.

(** What one pass through the body of [_run_simulation] reads from
    outside. *)
Record draws : Type := mkDraws {
  randn : nat -> R;   (* np.random.randn *)
  now : R             (* time.time()     *)
}.

Definition run_simulation_tick (d : draws) (s : state) : result state :=
  run_simulation_body (randn d) (now d) s.

(** What the window can do to the simulator while the thread runs.  An
    exception in a button callback leaves the simulator as it was. *)
Inductive command : Type :=
| MoveSlider (v : R)
| Select (jammer_type method : string)
| StartSimulation (now : R)
| ApplyPrevention (r : nat)
| StopSimulation.

Definition execute (c : command) (s : state) : state :=
  match c with
  | MoveSlider v => set_strength v s
  | Select jammer_type method => set_selection jammer_type method s
  | StartSimulation now => start_simulation now s
  | ApplyPrevention r =>
      match apply_prevention r s with
      | Ok s' => s'
      | Raise _ => s
      end
  | StopSimulation => stop_simulation s
  end.

(** [start_simulation] starts a thread exactly when it finds [running]
    false. *)
Definition starts_thread (c : command) (s : state) : bool :=
  match c with
  | StartSimulation _ => negb (running s)
  | _ => false
  end.

End JammerPrevention.


(** ** The worker threads and the window, interleaved

    Each simulator runs [while self.running: body] in a daemon thread while the
    window's callbacks run in the main thread.  A thread is at the loop test,
    inside the body, or has left the loop; an event is one thread taking its
    next step or one callback running. *)

Module Worker.

Inductive pc : Type :=
| AtLoopTest
| InBody
| Exited.

Section Loop.

Variables (S D C : Type).
Variable running : S -> bool.
Variable body : D -> S -> result S.
Variable execute : C -> S -> S.
Variable starts_thread : C -> S -> bool.

Record system : Type := mkSystem {
  shared : S;
  threads : list pc
}.

Inductive event : Type :=
| Work (i : nat) (d : D)
| Gui (c : C).

(** One step of one thread.  An exception in the body ends the loop (the
    [except: break] of two of the simulators, the death of the thread in the
    third) and leaves the shared state as it was before the body: the only
    body that raises in a state its program reaches is the one of jammer.py,
    on a mode missing from the table, and it does so before it writes
    anything.  The body of jammer+prevention.py raises only when its two
    history lists differ in length, which no run from [__init__] brings
    about. *)
Definition work (d : D) (p : pc) (s : S) : pc * S :=
  match p with
  | AtLoopTest => if running s then (InBody, s) else (Exited, s)
  | InBody =>
      match body d s with
      | Ok s' => (AtLoopTest, s')
      | Raise _ => (Exited, s)
      end
  | Exited => (Exited, s)
  end.

Fixpoint set_pc (i : nat) (p : pc) (l : list pc) : list pc :=
  match l, i with
  | [], _ => []
  | _ :: l', O => p :: l'
  | q :: l', Datatypes.S i' => q :: set_pc i' p l'
  end.

Definition step (e : event) (sys : system) : system :=
  match e with
  | Work i d =>
      match nth_error (threads sys) i with
      | Some p =>
          let (p', s') := work d p (shared sys) in
          {| shared := s'; threads := set_pc i p' (threads sys) |}
      | None => sys
      end
  | Gui c =>
      {| shared := execute c (shared sys);
         threads := if starts_thread c (shared sys)
                    then threads sys ++ [AtLoopTest]
                    else threads sys |}
  end.

Fixpoint run (es : list event) (sys : system) : system :=
  match es with
  | [] => sys
  | e :: es' => run es' (step e sys)
  end.

(** Event [e] makes thread [i] enter the body. *)
Definition begins_tick (i : nat) (e : event) (sys : system) : bool :=
  match e, nth_error (threads sys) i with
  | Work j _, Some AtLoopTest => (j =? i)%nat && running (shared sys)
  | _, _ => false
  end.

(** Event [e] makes thread [i] run the body. *)
Definition runs_body (i : nat) (e : event) (sys : system) : bool :=
  match e, nth_error (threads sys) i with
  | Work j _, Some InBody => (j =? i)%nat
  | _, _ => false
  end.

(** How often [i] does what [counts] recognises along [es]. *)
Fixpoint occurrences (counts : nat -> event -> system -> bool)
    (i : nat) (es : list event) (sys : system) : nat :=
  match es with
  | [] => 0
  | e :: es' =>
      (if counts i e sys then 1 else 0) + occurrences counts i es' (step e sys)
  end.

Definition ticks_begun := occurrences begins_tick.
Definition bodies_run := occurrences runs_body.

(** How often thread [i] is scheduled in [es]. *)
Fixpoint scheduled (i : nat) (es : list event) : nat :=
  match es with
  | [] => 0
  | Work j _ :: es' => (if (j =? i)%nat then 1 else 0) + scheduled i es'
  | Gui _ :: es' => scheduled i es'
  end.

(** No callback of [es] is recognised by [p]. *)
Fixpoint no_command (p : C -> bool) (es : list event) : bool :=
  match es with
  | [] => true
  | Work _ _ :: es' => no_command p es'
  | Gui c :: es' => negb (p c) && no_command p es'
  end.

(** Where thread [i] is, if it exists. *)
Definition pc_of (i : nat) (sys : system) : option pc :=
  nth_error (threads sys) i.

End Loop.

(** Steps a thread still takes once [running] is false: out of the body, then
    out of the loop. *)
Definition remaining (p : option pc) : nat :=
  match p with
  | Some InBody => 2
  | Some AtLoopTest => 1
  | _ => 0
  end.

Definition in_body (p : option pc) : nat :=
  match p with
  | Some InBody => 1
  | _ => 0
  end.

End Worker.

(** The three programs as such systems. *)

Module Threads.

(** jmch.py: [__init__] starts the only thread. *)
Definition jmch_step :=
  Worker.step Jmch.running Jmch.simulate_packets_body Jmch.execute
              (fun _ _ => false).

Definition jmch_init : Worker.system Jmch.state :=
  Worker.mkSystem Jmch.init [Worker.AtLoopTest].

(** jammer.py: [__init__] starts the only thread. *)
Definition jammer_init : Worker.system Jammer.state :=
  Worker.mkSystem Jammer.init [Worker.AtLoopTest].

(** jammer+prevention.py: every [start_simulation] that finds [running]
    false starts a thread. *)
Definition prevention_step :=
  Worker.step JammerPrevention.running JammerPrevention.run_simulation_tick
              JammerPrevention.execute JammerPrevention.starts_thread.

Definition prevention_init : Worker.system JammerPrevention.state :=
  Worker.mkSystem JammerPrevention.init [].

Definition is_start (c : JammerPrevention.command) : bool :=
  match c with
  | JammerPrevention.StartSimulation _ => true
  | _ => false
  end.

Definition jmch_run :=
  Worker.run Jmch.running Jmch.simulate_packets_body Jmch.execute
             (fun _ _ => false).

Definition jammer_run :=
  Worker.run Jammer.running Jammer.simulate_tick Jammer.execute
             (fun _ _ => false).

Definition prevention_run :=
  Worker.run JammerPrevention.running JammerPrevention.run_simulation_tick
             JammerPrevention.execute JammerPrevention.starts_thread.

Definition jmch_ticks_begun :=
  Worker.ticks_begun Jmch.running Jmch.simulate_packets_body Jmch.execute
                     (fun _ _ => false).

Definition jmch_bodies_run :=
  Worker.bodies_run Jmch.running Jmch.simulate_packets_body Jmch.execute
                    (fun _ _ => false).

Definition prevention_ticks_begun :=
  Worker.ticks_begun JammerPrevention.running
                     JammerPrevention.run_simulation_tick
                     JammerPrevention.execute JammerPrevention.starts_thread.

Definition prevention_bodies_run :=
  Worker.bodies_run JammerPrevention.running
                    JammerPrevention.run_simulation_tick
                    JammerPrevention.execute JammerPrevention.starts_thread.

(** The window is closed (jmch.py), the Stop button is pressed
    (jammer+prevention.py). *)
Definition jmch_stop : Worker.event Jmch.draws Jmch.command :=
  Worker.Gui Jmch.draws Jmch.CloseWindow.

Definition prevention_stop
  : Worker.event JammerPrevention.draws JammerPrevention.command :=
  Worker.Gui JammerPrevention.draws JammerPrevention.StopSimulation.

End Threads.

(** ** Vocabulary of the statements *)

(** A percentage. *)
Definition percentage (q : Q) : Prop := (0 <= q <= 100)%Q.
Definition percentage_R (x : R) : Prop := (0 <= x <= 100)%R.

(** The carrier frequencies the program uses lie between 40 and 60 Hz. *)
Definition carrier_in_range (s : JammerPrevention.state) : Prop :=
  (40 <= JammerPrevention.fc s <= 60)%Z.

(** The last [n] elements of a list, in order. *)
Definition last_n {A : Type} (n : nat) (l : list A) : list A :=
  skipn (length l - n) l.

(** Recording a run of samples [(time, rate)], oldest first. *)
Fixpoint record_all (samples : list (R * R)) (s : JammerPrevention.state)
  : result JammerPrevention.state :=
  match samples with
  | [] => Ok s
  | (t, x) :: rest =>
      bind (JammerPrevention.record_sample t x s) (record_all rest)
  end.

(** [apply_prevention] once for each element of [rs], in order. *)
Fixpoint apply_prevention_all (rs : list nat) (s : JammerPrevention.state)
  : result JammerPrevention.state :=
  match rs with
  | [] => Ok s
  | r :: rs' =>
      bind (JammerPrevention.apply_prevention r s) (apply_prevention_all rs')
  end.

(** One pass of the thread of jmch.py through the loop test and the body,
    with the same draws every time, and [n] such passes. *)
Definition jmch_pass : list (Worker.event Jmch.draws Jmch.command) :=
  let d := Jmch.mkDraws 1000%Z (1 # 4)%Q (1 # 2)%Q 0%nat in
  [@Worker.Work Jmch.draws Jmch.command 0%nat d;
   @Worker.Work Jmch.draws Jmch.command 0%nat d].

Definition jmch_passes (n : nat)
  : list (Worker.event Jmch.draws Jmch.command) :=
  concat (repeat jmch_pass n).

(** The graph of jmch.py never holds more than [JammerPrevention.capacity]
    samples. *)
Definition jmch_graph_bounded : Prop :=
  forall es : list (Worker.event Jmch.draws Jmch.command),
    (length (Jmch.success_rate_data
               (Worker.shared (Threads.jmch_run es Threads.jmch_init)))
     <= JammerPrevention.capacity)%nat.

(** What holds of jmch.py whenever its thread is at the loop test. *)
Record jmch_invariant (s : Jmch.state) : Prop := mkJmchInvariant {
  jmch_sent_nonneg : (0 <= Jmch.sent s)%Z;
  jmch_blocked_nonneg : (0 <= Jmch.blocked s)%Z;
  jmch_window : (Jmch.sent s + Jmch.blocked s < Jmch.check_interval)%Z;
  jmch_graph : Forall percentage (Jmch.success_rate_data s)
}.

(** What holds of jammer.py in every state. *)
Record jammer_invariant (s : Jammer.state) : Prop := mkJammerInvariant {
  jammer_sent_nonneg : (0 <= Jammer.sent s)%Z;
  jammer_blocked_nonneg : (0 <= Jammer.blocked s)%Z;
  jammer_graph : Forall percentage (Jammer.success_data s)
}.

(** What holds of jammer+prevention.py in every state. *)
Record prevention_invariant (s : JammerPrevention.state) : Prop :=
  mkPreventionInvariant {
  prevention_same_length :
    length (JammerPrevention.success_rates s)
    = length (JammerPrevention.success_times s);
  prevention_bounded :
    (length (JammerPrevention.success_rates s)
     <= JammerPrevention.capacity)%nat;
  prevention_graph : Forall percentage_R (JammerPrevention.success_rates s)
}.

(** ** Vocabulary of the further properties *)

(** Every draw of [es] satisfies [okd] and every callback [okc]. *)
Definition event_ok {D C : Type} (okd : D -> Prop) (okc : C -> Prop)
    (e : Worker.event D C) : Prop :=
  match e with
  | @Worker.Work _ _ _ d => okd d
  | @Worker.Gui _ _ c => okc c
  end.

Definition alive (p : Worker.pc) : Prop := p <> Worker.Exited.

Definition is_hop (m : Jmch.message) : bool :=
  match m with
  | Jmch.FrequencyHopping _ => true
  | _ => false
  end.

(** jmch.py while the jammer has never been switched on. *)
Record jmch_quiet (s : Jmch.state) : Prop := mkJmchQuiet {
  quiet_inactive : Jmch.jammer_active s = false;
  quiet_blocked : Jmch.blocked s = 0%Z;
  quiet_channel : Jmch.channel s = 1%Z;
  quiet_graph : Forall (fun q => (q == 100)%Q) (Jmch.success_rate_data s);
  quiet_console : Forall (fun m => is_hop m = false) (Jmch.output_box s);
  quiet_label : forall rate, Jmch.result_label s <> Jmch.JammingDetected rate
}.

(** The two lists behind the graph of jmch.py. *)
Record jmch_graph_axes (s : Jmch.state) : Prop := mkJmchGraphAxes {
  axes_same_length :
    length (Jmch.time_data s) = length (Jmch.success_rate_data s);
  axes_past : Forall (fun t => (t <= Jmch.time_counter s)%Q) (Jmch.time_data s);
  axes_increasing : StronglySorted Qlt (Jmch.time_data s)
}.

(** The keys of the table of jammer.py. *)
Definition known_modes : list string := map fst Jammer.simulation_params.

Definition jammer_step :=
  Worker.step Jammer.running Jammer.simulate_tick Jammer.execute
              (fun _ _ => false).

(** The clock of jammer.py after [n] packets: the float 0.4 added [n] times
    to the float 0, each sum rounded to binary64. *)
Definition clock_after (n : nat) : float :=
  Nat.iter n (fun t => PrimFloat.add t Jammer.tick_period) 0%float.

(** The bookkeeping of jammer.py. *)
Record jammer_books (s : Jammer.state) : Prop := mkJammerBooks {
  books_samples :
    Z.of_nat (length (Jammer.success_data s))
    = (Jammer.sent s + Jammer.blocked s)%Z;
  books_times : length (Jammer.time_data s) = length (Jammer.success_data s);
  books_clock :
    Jammer.time_counter s
    = clock_after (Z.to_nat (Jammer.sent s + Jammer.blocked s))
}.

(** jammer.py while the mode is "None". *)
Record jammer_clean (s : Jammer.state) : Prop := mkJammerClean {
  clean_mode : Jammer.jamming_mode s = "None"%string;
  clean_blocked : Jammer.blocked s = 0%Z;
  clean_graph : Forall (fun q => (q == 100)%Q) (Jammer.success_data s)
}.

(** Callbacks that leave the mode at "None". *)
Definition keeps_none (c : Jammer.command) : Prop :=
  match c with
  | Jammer.SelectMode mode => mode = "None"%string
  | Jammer.CloseWindow => True
  end.

(** The centre frequencies that "Spread Spectrum" chooses from. *)
Definition spread_frequencies : list Z := [40; 45; 50; 55; 60]%Z.

Definition not_stop (c : JammerPrevention.command) : Prop :=
  c <> JammerPrevention.StopSimulation.

(** The method of [apply_prevention] is none of its three. *)
Definition no_method (m : string) : Prop :=
  m <> "Channel Hopping"%string /\ m <> "Spread Spectrum"%string
  /\ m <> "Adaptive Filter"%string.

(** Two states of jammer+prevention.py that differ at most in the channel,
    the centre frequency, the jammer strength and the console. *)
Definition same_session (s s' : JammerPrevention.state) : Prop :=
  JammerPrevention.running s' = JammerPrevention.running s
  /\ JammerPrevention.jammer_type_var s' = JammerPrevention.jammer_type_var s
  /\ JammerPrevention.prev_method_var s' = JammerPrevention.prev_method_var s
  /\ JammerPrevention.success_times s' = JammerPrevention.success_times s
  /\ JammerPrevention.success_rates s' = JammerPrevention.success_rates s
  /\ JammerPrevention.start_time s' = JammerPrevention.start_time s.

(** Stop, then Start at time [now]. *)
Definition restart (now : R)
  : list (Worker.event JammerPrevention.draws JammerPrevention.command) :=
  [Threads.prevention_stop;
   Worker.Gui JammerPrevention.draws (JammerPrevention.StartSimulation now)].

(** The success rate that one pass of the loop of jammer+prevention.py
    computes in state [s] from the noise samples [randn]. *)
Definition tick_success_rate (s : JammerPrevention.state) (randn : nat -> R)
  : R :=
  JammerPrevention.success_rate_of
    (JammerPrevention.snr_of
       (fst (JammerPrevention.generate_signal s randn
               JammerPrevention.time_grid))
       (snd (JammerPrevention.generate_signal s randn
               JammerPrevention.time_grid))).

(** The newest sample on the graph of jammer.py is the success rate over all
    packets counted since the start. *)
Definition jammer_newest (s : Jammer.state) : Prop :=
  (Jammer.success_data s = []
   /\ (Jammer.sent s + Jammer.blocked s = 0)%Z)
  \/ ((0 < Jammer.sent s + Jammer.blocked s)%Z
      /\ last (Jammer.success_data s) 0%Q
         = (inject_Z (100 * Jammer.sent s)
            / inject_Z (Jammer.sent s + Jammer.blocked s))%Q).

(** C9 as stated, for jammer+prevention.py: once Stop has been pressed no
    thread enters the loop body any more and none runs it more than once,
    whatever follows. *)
Definition stop_ends_every_loop : Prop :=
  forall (i : nat)
         (es : list (Worker.event JammerPrevention.draws
                       JammerPrevention.command))
         (sys : Worker.system JammerPrevention.state),
    let stopped := Threads.prevention_step Threads.prevention_stop sys in
    Threads.prevention_ticks_begun i es stopped = 0%nat
    /\ (Threads.prevention_bodies_run i es stopped <= 1)%nat.

Definition still_draws : JammerPrevention.draws :=
  JammerPrevention.mkDraws (fun _ => 0%R) 1.

(** jammer+prevention.py after Start and the thread's first step: the thread
    is inside the body. *)
Definition in_first_tick : Worker.system JammerPrevention.state :=
  Threads.prevention_run
    [Worker.Gui JammerPrevention.draws (JammerPrevention.StartSimulation 0);
     Worker.Work JammerPrevention.command 0 still_draws]
    Threads.prevention_init.

(** Start is pressed again, then the first thread takes three steps. *)
Definition start_again
  : list (Worker.event JammerPrevention.draws JammerPrevention.command) :=
  [Worker.Gui JammerPrevention.draws (JammerPrevention.StartSimulation 2);
   Worker.Work JammerPrevention.command 0 still_draws;
   Worker.Work JammerPrevention.command 0 still_draws;
   Worker.Work JammerPrevention.command 0 still_draws].

(** * Properties *)

(** ** The Python fragment *)

Lemma bind_ok (A B : Type) (m : result A) (k : A -> result B) (b : B) :
  bind m k = Ok b -> exists a, m = Ok a /\ k a = Ok b.
Proof.
  destruct m as [a | e]; simpl; intros H; [ | discriminate H ].
  exists a. split; [ reflexivity | exact H ].
Qed.

Lemma ltb_true (x y : Q) : Py.ltb x y = true <-> (x < y)%Q.
Proof.
  unfold Py.ltb. rewrite Qlt_alt.
  destruct (x ?= y)%Q; split; intros H; congruence.
Qed.

Lemma ltb_false (x y : Q) : Py.ltb x y = false <-> (y <= x)%Q.
Proof.
  split; intros H.
  - apply Qnot_lt_le. intros L. apply ltb_true in L. congruence.
  - destruct (Py.ltb x y) eqn:E; [ | reflexivity ].
    apply ltb_true in E. exfalso. exact (Qlt_not_le _ _ E H).
Qed.

Lemma choice_nonempty (A : Type) (r : nat) (l : list A) :
  l <> [] -> exists x, Py.choice r l = Ok x /\ In x l.
Proof.
  destruct l as [ | a l]; intros H; [ congruence | ].
  exists (nth (r mod length (a :: l)) (a :: l) a). split; [ reflexivity | ].
  apply nth_In. apply Nat.mod_upper_bound. discriminate.
Qed.

Lemma choice_In (A : Type) (r : nat) (l : list A) (x : A) :
  Py.choice r l = Ok x -> In x l.
Proof.
  intros H. destruct l as [ | a l]; [ discriminate H | ].
  destruct (@choice_nonempty A r (a :: l)) as [y [E I]]; [ discriminate | ].
  rewrite E in H. injection H as <-. exact I.
Qed.

Lemma truediv_nonzero (a b : Z) :
  b <> 0%Z -> Py.truediv a b = Ok (inject_Z a / inject_Z b)%Q.
Proof.
  intros H. unfold Py.truediv.
  destruct (Z.eqb_spec b 0); [ contradiction | reflexivity ].
Qed.

Lemma range_1_12 : Py.range 1 12 = Jmch.available_channels.
Proof. reflexivity. Qed.

(** ** Channel hopping *)

Lemma filter_all (A : Type) (f : A -> bool) (l : list A) :
  (forall x, In x l -> f x = true) -> filter f l = l.
Proof.
  induction l as [ | a l IH]; simpl; intros H; [ reflexivity | ].
  rewrite (H a (or_introl eq_refl)), IH; [ reflexivity | ].
  intros x I. apply H. right. exact I.
Qed.

(** Removing the current channel leaves at least ten of the eleven. *)
Lemma candidates_length (c : Z) : (10 <= length (Jmch.candidates c))%nat.
Proof.
  destruct (in_dec Z.eq_dec c Jmch.available_channels) as [I | N].
  - unfold Jmch.available_channels in I. simpl in I.
    repeat (destruct I as [<- | I]; [ vm_compute; lia | ]).
    contradiction.
  - unfold Jmch.candidates. rewrite filter_all; [ simpl; lia | ].
    intros x I. destruct (Z.eqb_spec x c) as [-> | _]; [ contradiction | reflexivity ].
Qed.

Lemma candidates_nonempty (c : Z) : Jmch.candidates c <> [].
Proof.
  intros E. pose proof (candidates_length c) as L. rewrite E in L.
  simpl in L. lia.
Qed.

Lemma candidates_spec (c x : Z) :
  In x (Jmch.candidates c) <-> In x Jmch.available_channels /\ x <> c.
Proof.
  unfold Jmch.candidates. rewrite filter_In.
  destruct (Z.eqb_spec x c); simpl; intuition congruence.
Qed.

Lemma available_channels_bounds (x : Z) :
  In x Jmch.available_channels <-> (1 <= x <= 11)%Z.
Proof.
  unfold Jmch.available_channels. simpl. lia.
Qed.

Lemma prevention_action_spec (r : nat) (s : Jmch.state) :
  exists ch,
    Jmch.prevention_action r s
      = Ok (Jmch.log (Jmch.FrequencyHopping ch) (Jmch.set_channel ch s))
    /\ In ch Jmch.available_channels /\ ch <> Jmch.channel s.
Proof.
  destruct (choice_nonempty r (candidates_nonempty (Jmch.channel s)))
    as [ch [E I]].
  exists ch. unfold Jmch.prevention_action. rewrite E. simpl.
  split; [ reflexivity | ]. apply candidates_spec. exact I.
Qed.

(** C2.  Whatever the current channel and whatever the generator returns,
    channel hopping succeeds, and the new channel is one of 1..11 and differs
    from the current one; this holds for [prevention_action] of jmch.py and for
    the "Channel Hopping" branch of [apply_prevention] of
    jammer+prevention.py.  The list the choice is made from has at least ten
    elements. *)
Theorem C2_channel_hopping
    (r : nat) (s1 : Jmch.state) (s2 : JammerPrevention.state)
    (H : JammerPrevention.prev_method_var s2 = "Channel Hopping"%string) :
  (exists s1',
      Jmch.prevention_action r s1 = Ok s1'
      /\ In (Jmch.channel s1') Jmch.available_channels
      /\ (1 <= Jmch.channel s1' <= 11)%Z
      /\ Jmch.channel s1' <> Jmch.channel s1)
  /\ (exists s2',
      JammerPrevention.apply_prevention r s2 = Ok s2'
      /\ In (JammerPrevention.channel s2') (Py.range 1 12)
      /\ (1 <= JammerPrevention.channel s2' <= 11)%Z
      /\ JammerPrevention.channel s2' <> JammerPrevention.channel s2)
  /\ (10 <= length (Jmch.candidates (Jmch.channel s1)))%nat
  /\ (10 <= length (filter (fun ch => negb (ch =? JammerPrevention.channel s2)%Z)
                           (Py.range 1 12)))%nat.
Proof.
  split; [ | split; [ | split ] ].
  - destruct (prevention_action_spec r s1) as [ch [E [I N]]].
    eexists. split; [ exact E | ]. simpl.
    split; [ exact I | ]. split; [ | exact N ].
    apply available_channels_bounds. exact I.
  - unfold JammerPrevention.apply_prevention. cbv zeta.
    rewrite H, String.eqb_refl, range_1_12.
    destruct (choice_nonempty r
                (candidates_nonempty (JammerPrevention.channel s2)))
      as [ch [E I]].
    unfold Jmch.candidates in E. rewrite E. cbn [bind].
    apply candidates_spec in I. destruct I as [I N].
    eexists. split; [ reflexivity | ]. simpl.
    split; [ exact I | ]. split; [ | exact N ].
    apply available_channels_bounds. exact I.
  - apply candidates_length.
  - rewrite range_1_12. apply (candidates_length (JammerPrevention.channel s2)).
Qed.

Lemma C2_channel_hopping_witness :
  JammerPrevention.prev_method_var JammerPrevention.init
    = "Channel Hopping"%string
  /\ exists s1',
      Jmch.prevention_action 7 Jmch.init = Ok s1'
      /\ Jmch.channel s1' <> Jmch.channel Jmch.init.
Proof.
  split; [ reflexivity | ].
  destruct (@C2_channel_hopping 7 Jmch.init JammerPrevention.init eq_refl)
    as [[s1' [E [_ [_ N]]]] _].
  exists s1'. split; [ exact E | exact N ].
Defined.

(** ** The success rate at evaluation time and on the graph *)

Lemma evaluated_success_rate_cases (s : Jmch.state) :
  let total := (Jmch.sent s + Jmch.blocked s)%Z in
  ((0 < total)%Z
   /\ Jmch.evaluated_success_rate s
      = Ok (inject_Z (100 * Jmch.sent s) / inject_Z total)%Q)
  \/ ((total <= 0)%Z /\ Jmch.evaluated_success_rate s = Ok 100%Q).
Proof.
  unfold Jmch.evaluated_success_rate. cbv zeta.
  destruct (Z.gtb_spec (Jmch.sent s + Jmch.blocked s) 0) as [G | L].
  - left. split; [ lia | ]. apply truediv_nonzero. lia.
  - right. split; [ lia | reflexivity ].
Qed.

Lemma evaluated_success_rate_succeeds (s : Jmch.state) :
  succeeds (Jmch.evaluated_success_rate s).
Proof.
  destruct (evaluated_success_rate_cases s) as [[_ E] | [_ E]];
    rewrite E; eexists; reflexivity.
Qed.

Lemma update_graph_cases (s : Jmch.state) :
  let total := (Jmch.sent s + Jmch.blocked s)%Z in
  ((0 < total)%Z
   /\ Jmch.update_graph s
      = Ok (Jmch.set_graph
              (Jmch.success_rate_data s
                 ++ [(inject_Z (100 * Jmch.sent s) / inject_Z total)%Q])
              (Jmch.time_data s ++ [Jmch.time_counter s]) s))
  \/ ((total <= 0)%Z /\ Jmch.update_graph s = Ok s).
Proof.
  unfold Jmch.update_graph. cbv zeta.
  destruct (Z.gtb_spec (Jmch.sent s + Jmch.blocked s) 0) as [G | L].
  - left. split; [ lia | ]. rewrite truediv_nonzero by lia. reflexivity.
  - right. split; [ lia | reflexivity ].
Qed.

(** What [check_for_jamming] does, by the side of the threshold the
    evaluated rate falls on. *)
Lemma check_for_jamming_cases (r : nat) (s : Jmch.state) :
  exists rate,
    Jmch.evaluated_success_rate s = Ok rate
    /\ (((rate < inject_Z Jmch.success_rate_threshold)%Q
         /\ exists ch,
             In ch Jmch.available_channels /\ ch <> Jmch.channel s
             /\ Jmch.prevention_action r
                  (Jmch.set_result_label (Jmch.JammingDetected rate) s)
                = Ok (Jmch.log (Jmch.FrequencyHopping ch)
                        (Jmch.set_channel ch
                           (Jmch.set_result_label (Jmch.JammingDetected rate) s)))
             /\ Jmch.check_for_jamming r s
                = Ok (Jmch.set_counters 0 0
                        (Jmch.log (Jmch.FrequencyHopping ch)
                           (Jmch.set_channel ch
                              (Jmch.set_result_label
                                 (Jmch.JammingDetected rate) s)))))
        \/ ((inject_Z Jmch.success_rate_threshold <= rate)%Q
            /\ Jmch.check_for_jamming r s
               = Ok (Jmch.set_counters 0 0
                       (Jmch.set_result_label (Jmch.NetworkStable rate) s)))).
Proof.
  destruct (evaluated_success_rate_succeeds s) as [rate E].
  exists rate. split; [ exact E | ].
  unfold Jmch.check_for_jamming. rewrite E. cbn [bind].
  destruct (Py.ltb rate (inject_Z Jmch.success_rate_threshold)) eqn:B.
  - left. split; [ apply ltb_true; exact B | ].
    destruct (prevention_action_spec r
                (Jmch.set_result_label (Jmch.JammingDetected rate) s))
      as [ch [P [I N]]].
    exists ch. split; [ exact I | ]. split; [ exact N | ].
    split; [ exact P | ]. rewrite P. reflexivity.
  - right. split; [ apply ltb_false; exact B | reflexivity ].
Qed.

Lemma check_for_jamming_succeeds (r : nat) (s : Jmch.state) :
  succeeds (Jmch.check_for_jamming r s).
Proof.
  destruct (check_for_jamming_cases r s)
    as [rate [_ [[_ [ch [_ [_ [_ E]]]]] | [_ E]]]];
    rewrite E; eexists; reflexivity.
Qed.

Lemma update_graph_succeeds (s : Jmch.state) : succeeds (Jmch.update_graph s).
Proof.
  destruct (update_graph_cases s) as [[_ E] | [_ E]];
    rewrite E; eexists; reflexivity.
Qed.

Lemma update_graph_counters (s s' : Jmch.state) :
  Jmch.update_graph s = Ok s' ->
  Jmch.sent s' = Jmch.sent s /\ Jmch.blocked s' = Jmch.blocked s
  /\ Jmch.channel s' = Jmch.channel s /\ Jmch.running s' = Jmch.running s
  /\ Jmch.output_box s' = Jmch.output_box s.
Proof.
  destruct (update_graph_cases s) as [[_ E] | [_ E]]; rewrite E;
    intros H; injection H as <-; repeat split; reflexivity.
Qed.

Lemma transmit_packet_succeeds (d : Jmch.draws) (s : Jmch.state) :
  succeeds (Jmch.transmit_packet d s).
Proof.
  unfold Jmch.transmit_packet. cbv zeta. apply update_graph_succeeds.
Qed.

Lemma simulate_packets_body_cases (d : Jmch.draws) (s : Jmch.state) :
  exists s3,
    Jmch.transmit_packet d s = Ok s3
    /\ ((((Jmch.sent s3 + Jmch.blocked s3) mod Jmch.check_interval = 0)%Z
         /\ Jmch.simulate_packets_body d s
            = Jmch.check_for_jamming (Jmch.pick d) s3)
        \/ (((Jmch.sent s3 + Jmch.blocked s3) mod Jmch.check_interval <> 0)%Z
            /\ Jmch.simulate_packets_body d s = Ok s3)).
Proof.
  unfold Jmch.simulate_packets_body.
  destruct (transmit_packet_succeeds d s) as [s3 E]. rewrite E.
  exists s3. split; [ reflexivity | ]. cbn [bind].
  unfold Py.mod_. change (Jmch.check_interval =? 0)%Z with false.
  cbn [bind].
  destruct (Z.eqb_spec ((Jmch.sent s3 + Jmch.blocked s3)
                          mod Jmch.check_interval) 0) as [M | M].
  - left. split; [ exact M | reflexivity ].
  - right. split; [ exact M | reflexivity ].
Qed.

Lemma simulate_packets_body_succeeds (d : Jmch.draws) (s : Jmch.state) :
  succeeds (Jmch.simulate_packets_body d s).
Proof.
  destruct (simulate_packets_body_cases d s) as [s3 [_ [[_ E] | [_ E]]]];
    rewrite E.
  - apply check_for_jamming_succeeds.
  - eexists; reflexivity.
Qed.

Lemma update_success_plot_succeeds (j : Jammer.state) :
  succeeds (Jammer.update_success_plot j).
Proof.
  unfold Jammer.update_success_plot. cbv zeta.
  destruct (Z.gtb_spec (Jammer.sent j + Jammer.blocked j) 0) as [G | L].
  - rewrite truediv_nonzero by lia. eexists; reflexivity.
  - eexists; reflexivity.
Qed.

(** C7.  With no packet counted since the last reset the evaluated rate is
    100 and the graph is left alone; and no tracker operation raises: the
    evaluation, the graph update and the evaluation with mitigation of jmch.py,
    the whole loop body of jmch.py (which also divides by [check_interval]),
    and the plot update of jammer.py all return normally in every state. *)
Theorem C7_no_division_by_zero
    (r : nat) (d : Jmch.draws) (s : Jmch.state) (j : Jammer.state) :
  ((Jmch.sent s + Jmch.blocked s = 0)%Z ->
     Jmch.evaluated_success_rate s = Ok 100%Q /\ Jmch.update_graph s = Ok s)
  /\ succeeds (Jmch.evaluated_success_rate s)
  /\ succeeds (Jmch.update_graph s)
  /\ succeeds (Jmch.check_for_jamming r s)
  /\ succeeds (Jmch.simulate_packets_body d s)
  /\ succeeds (Jammer.update_success_plot j).
Proof.
  split.
  - intros Z0. split.
    + destruct (evaluated_success_rate_cases s) as [[G _] | [_ E]];
        [ cbv zeta in G; lia | exact E ].
    + destruct (update_graph_cases s) as [[G _] | [_ E]];
        [ cbv zeta in G; lia | exact E ].
  - split; [ apply evaluated_success_rate_succeeds | ].
    split; [ apply update_graph_succeeds | ].
    split; [ apply check_for_jamming_succeeds | ].
    split; [ apply simulate_packets_body_succeeds
           | apply update_success_plot_succeeds ].
Qed.

Lemma C7_no_division_by_zero_witness :
  (Jmch.sent Jmch.init + Jmch.blocked Jmch.init = 0)%Z
  /\ Jmch.evaluated_success_rate Jmch.init = Ok 100%Q.
Proof.
  split; [ reflexivity | ].
  apply (C7_no_division_by_zero 0 (Jmch.mkDraws 1000 0 0 0) Jmch.init
                                Jammer.init).
  reflexivity.
Defined.

(** ** The periodic evaluation *)

(** C4.  The rate an evaluation computes is 100 * sent / (sent + blocked) of
    the counters of its window, or 100 when the window is empty; and the
    evaluation invokes [prevention_action] exactly when that rate is strictly
    below the threshold: in that case the state returned is the one
    [prevention_action] produced, with the counters cleared, the channel has
    changed and one hop line was written; otherwise (rate at or above the
    threshold) the channel and the console are as before. *)
Theorem C4_mitigation_iff_below_threshold (r : nat) (s : Jmch.state) :
  exists rate s',
    Jmch.evaluated_success_rate s = Ok rate
    /\ (((0 < Jmch.sent s + Jmch.blocked s)%Z
         /\ rate = (inject_Z (100 * Jmch.sent s)
                    / inject_Z (Jmch.sent s + Jmch.blocked s))%Q)
        \/ ((Jmch.sent s + Jmch.blocked s <= 0)%Z /\ rate = 100%Q))
    /\ Jmch.check_for_jamming r s = Ok s'
    /\ (((rate < inject_Z Jmch.success_rate_threshold)%Q
         /\ (exists s1,
               Jmch.prevention_action r
                 (Jmch.set_result_label (Jmch.JammingDetected rate) s) = Ok s1
               /\ s' = Jmch.set_counters 0 0 s1)
         /\ Jmch.channel s' <> Jmch.channel s
         /\ Jmch.output_box s'
            = Jmch.output_box s ++ [Jmch.FrequencyHopping (Jmch.channel s')]
         /\ Jmch.result_label s' = Jmch.JammingDetected rate)
        \/ (~ (rate < inject_Z Jmch.success_rate_threshold)%Q
            /\ Jmch.channel s' = Jmch.channel s
            /\ Jmch.output_box s' = Jmch.output_box s
            /\ Jmch.result_label s' = Jmch.NetworkStable rate)).
Proof.
  destruct (check_for_jamming_cases r s)
    as [rate [E [[L [ch [I [N [P C]]]]] | [G C]]]].
  - exists rate. eexists. split; [ exact E | ].
    split.
    { destruct (evaluated_success_rate_cases s) as [[T E'] | [T E']];
        cbv zeta in *; [ left | right ]; (split; [ exact T | congruence ]). }
    split; [ exact C | ].
    left. split; [ exact L | ].
    split; [ eexists; split; [ exact P | reflexivity ] | ].
    simpl. repeat split. exact N.
  - exists rate. eexists. split; [ exact E | ].
    split.
    { destruct (evaluated_success_rate_cases s) as [[T E'] | [T E']];
        cbv zeta in *; [ left | right ]; (split; [ exact T | congruence ]). }
    split; [ exact C | ].
    right. split; [ apply Qle_not_lt; exact G | ].
    simpl. repeat split.
Qed.

(** ** Threads: invariants and the stop flag *)

Section WorkerFacts.

Variables (S D C : Type).
Variable running : S -> bool.
Variable body : D -> S -> result S.
Variable execute : C -> S -> S.
Variable starts_thread : C -> S -> bool.

Local Abbreviation step := (Worker.step running body execute starts_thread).
Local Abbreviation run := (Worker.run running body execute starts_thread).
Local Abbreviation ticks_begun :=
  (Worker.ticks_begun running body execute starts_thread).
Local Abbreviation bodies_run :=
  (Worker.bodies_run running body execute starts_thread).
Local Abbreviation pc_of := (@Worker.pc_of S).
Local Abbreviation remaining := Worker.remaining.
Local Abbreviation in_body := Worker.in_body.

Section Invariant.

Variable Inv : S -> Prop.
Hypothesis body_inv : forall d s s', Inv s -> body d s = Ok s' -> Inv s'.
Hypothesis execute_inv : forall c s, Inv s -> Inv (execute c s).

Lemma step_invariant (e : Worker.event D C) (sys : Worker.system S) :
  Inv (Worker.shared sys) -> Inv (Worker.shared (step e sys)).
Proof.
  intros I. destruct e as [i d | c]; simpl.
  - destruct (nth_error (Worker.threads sys) i) as [p | ]; [ | exact I ].
    destruct p; simpl.
    + destruct (running (Worker.shared sys)); exact I.
    + destruct (body d (Worker.shared sys)) as [s' | e] eqn:B; simpl;
        [ eapply body_inv; eassumption | exact I ].
    + exact I.
  - apply execute_inv. exact I.
Qed.

Lemma run_invariant (es : list (Worker.event D C)) (sys : Worker.system S) :
  Inv (Worker.shared sys) -> Inv (Worker.shared (run es sys)).
Proof.
  revert sys. induction es as [ | e es IH]; intros sys I; simpl;
    [ exact I | ].
  apply IH. apply step_invariant. exact I.
Qed.

End Invariant.

Section Stop.

Variable restarts : C -> bool.
Hypothesis body_keeps_running :
  forall d s s', body d s = Ok s' -> running s' = running s.
Hypothesis execute_keeps_stopped :
  forall c s, restarts c = false -> running s = false ->
              running (execute c s) = false.
Hypothesis starts_only_on_restart :
  forall c s, restarts c = false -> starts_thread c s = false.

Lemma nth_error_set_pc (l : list Worker.pc) (i j : nat) (p : Worker.pc) :
  nth_error (Worker.set_pc j p l) i
  = if (j =? i)%nat
    then match nth_error l i with Some _ => Some p | None => None end
    else nth_error l i.
Proof.
  revert i j. induction l as [ | q l IH]; intros i j;
    destruct j as [ | j]; destruct i as [ | i]; simpl; try reflexivity.
  - destruct (j =? i)%nat; reflexivity.
  - apply IH.
Qed.

(** One event with the flag down: the flag stays down, and thread [i] moves
    only towards the exit. *)
Lemma stopped_step (i : nat) (e : Worker.event D C) (sys : Worker.system S) :
  running (Worker.shared sys) = false ->
  Worker.no_command restarts [e] = true ->
  running (Worker.shared (step e sys)) = false
  /\ Worker.begins_tick running i e sys = false
  /\ ((if Worker.runs_body i e sys then 1 else 0)
      + in_body (pc_of i (step e sys)) <= in_body (pc_of i sys))%nat
  /\ (Worker.scheduled i [e] + remaining (pc_of i (step e sys))
      <= Nat.max (Worker.scheduled i [e]) (remaining (pc_of i sys)))%nat
  /\ (pc_of i sys <> None -> pc_of i (step e sys) <> None).
Proof.
  intros R N.
  unfold Worker.pc_of, Worker.begins_tick, Worker.runs_body.
  destruct e as [j d | c]; simpl in *.
  - destruct (nth_error (Worker.threads sys) j) as [p | ] eqn:Pj.
    + destruct (Worker.work running body d p (Worker.shared sys))
        as [p' s'] eqn:W.
      assert (R' : running s' = false).
      { destruct p; simpl in W.
        - rewrite R in W. injection W as _ <-. exact R.
        - destruct (body d (Worker.shared sys)) as [s1 | ex] eqn:B;
            injection W as _ <-; [ rewrite (body_keeps_running B) | ];
            exact R.
        - injection W as _ <-. exact R. }
      simpl. rewrite nth_error_set_pc, R, andb_false_r.
      destruct (Nat.eqb_spec j i) as [-> | NE].
      * rewrite Pj.
        assert (P' : p = Worker.InBody \/ p' = Worker.Exited).
        { destruct p; simpl in W.
          - rewrite R in W. injection W as <- _. right; reflexivity.
          - left; reflexivity.
          - injection W as <- _. right; reflexivity. }
        assert (P'' : p' <> Worker.InBody).
        { destruct p; simpl in W.
          - rewrite R in W. injection W as <- _. discriminate.
          - destruct (body d (Worker.shared sys));
              injection W as <- _; discriminate.
          - injection W as <- _. discriminate. }
        split; [ exact R' | ].
        destruct p, p'; simpl;
          try (destruct P' as [P' | P']; discriminate P');
          try (exfalso; apply P''; reflexivity);
          (split; [ reflexivity | ]); (split; [ lia | ]);
          (split; [ lia | ]); discriminate.
      * split; [ exact R' | ].
        destruct (nth_error (Worker.threads sys) i) as [[ | | ] | ]; simpl;
          (split; [ reflexivity | ]); (split; [ lia | ]);
          (split; [ lia | ]); tauto.
    + split; [ exact R | ]. rewrite R, andb_false_r.
      destruct (Nat.eqb_spec j i) as [-> | NE].
      * rewrite Pj. simpl. repeat split; try lia. tauto.
      * destruct (nth_error (Worker.threads sys) i) as [[ | | ] | ]; simpl;
          (split; [ reflexivity | ]); (split; [ lia | ]);
          (split; [ lia | ]); tauto.
  - rewrite andb_true_r in N. apply negb_true_iff in N.
    rewrite starts_only_on_restart by exact N.
    rewrite execute_keeps_stopped by assumption.
    split; [ reflexivity | ].
    destruct (nth_error (Worker.threads sys) i) as [[ | | ] | ]; simpl;
      (split; [ reflexivity | ]); (split; [ lia | ]);
      (split; [ lia | ]); tauto.
Qed.

Lemma no_command_cons (e : Worker.event D C) (es : list (Worker.event D C)) :
  Worker.no_command restarts (e :: es) = true ->
  Worker.no_command restarts [e] = true
  /\ Worker.no_command restarts es = true.
Proof.
  destruct e as [j d | c]; simpl; intros H; [ tauto | ].
  apply andb_true_iff in H. destruct H as [H1 H2].
  rewrite H1, H2. tauto.
Qed.

(** With the flag down and never raised again, no thread enters the body,
    a thread runs the body at most once more (and only if it was inside it),
    and a thread that is scheduled twice has left the loop. *)
Lemma stopped_run (i : nat) (es : list (Worker.event D C))
    (sys : Worker.system S) :
  running (Worker.shared sys) = false ->
  Worker.no_command restarts es = true ->
  running (Worker.shared (run es sys)) = false
  /\ ticks_begun i es sys = 0%nat
  /\ (bodies_run i es sys + in_body (pc_of i (run es sys))
      <= in_body (pc_of i sys))%nat
  /\ (Worker.scheduled i es + remaining (pc_of i (run es sys))
      <= Nat.max (Worker.scheduled i es) (remaining (pc_of i sys)))%nat
  /\ (pc_of i sys <> None -> pc_of i (run es sys) <> None).
Proof.
  revert sys. induction es as [ | e es IH]; intros sys R N.
  - simpl. repeat split; try lia; try assumption; tauto.
  - apply no_command_cons in N. destruct N as [N1 N2].
    destruct (stopped_step i e sys R N1) as [R' [B [Hb [Hs Hn]]]].
    destruct (IH (step e sys) R' N2) as [R'' [B' [Hb' [Hs' Hn']]]].
    unfold Worker.ticks_begun, Worker.bodies_run in *.
    cbn [Worker.run Worker.occurrences].
    rewrite B, B'.
    split; [ exact R'' | ]. split; [ reflexivity | ].
    split; [ lia | ]. split; [ | tauto ].
    assert (E : Worker.scheduled i (e :: es)
                = (Worker.scheduled i [e] + Worker.scheduled i es)%nat).
    { destruct e as [j d | c]; simpl; lia. }
    rewrite E. lia.
Qed.

Lemma stopped_thread_exits (i : nat) (es : list (Worker.event D C))
    (sys : Worker.system S) :
  running (Worker.shared sys) = false ->
  Worker.no_command restarts es = true ->
  pc_of i sys <> None ->
  (2 <= Worker.scheduled i es)%nat ->
  pc_of i (run es sys) = Some Worker.Exited.
Proof.
  intros R N P L.
  destruct (stopped_run i es sys R N) as [_ [_ [_ [Hs Hn]]]].
  specialize (Hn P).
  assert (Q2 : (remaining (pc_of i sys) <= 2)%nat).
  { unfold remaining. destruct (pc_of i sys) as [[ | | ] | ]; lia. }
  destruct (pc_of i (run es sys)) as [[ | | ] | ]; simpl in Hs;
    try lia; try reflexivity. contradiction.
Qed.

End Stop.

End WorkerFacts.

(** ** Invariants of jmch.py *)

Lemma rate_is_percentage (sent blocked : Z) :
  (0 <= sent)%Z -> (0 <= blocked)%Z -> (0 < sent + blocked)%Z ->
  percentage (inject_Z (100 * sent) / inject_Z (sent + blocked)).
Proof.
  intros Hs Hb Ht. unfold percentage.
  assert (P : (0 < inject_Z (sent + blocked))%Q).
  { change 0%Q with (inject_Z 0). rewrite <- Zlt_Qlt. exact Ht. }
  split.
  - apply Qle_shift_div_l; [ exact P | ].
    rewrite Qmult_0_l. change 0%Q with (inject_Z 0).
    rewrite <- Zle_Qle. lia.
  - apply Qle_shift_div_r; [ exact P | ].
    change 100%Q with (inject_Z 100). rewrite <- inject_Z_mult.
    rewrite <- Zle_Qle. lia.
Qed.

Lemma record_packet_counters (pkt : Z) (b : bool) (s : Jmch.state) :
  Jmch.sent (Jmch.record_packet pkt b s)
  = (Jmch.sent s + if b then 0 else 1)%Z
  /\ Jmch.blocked (Jmch.record_packet pkt b s)
     = (Jmch.blocked s + if b then 1 else 0)%Z
  /\ Jmch.success_rate_data (Jmch.record_packet pkt b s)
     = Jmch.success_rate_data s
  /\ Jmch.running (Jmch.record_packet pkt b s) = Jmch.running s.
Proof.
  destruct b; simpl; repeat split; lia.
Qed.

Lemma check_for_jamming_effect (r : nat) (s s' : Jmch.state) :
  Jmch.check_for_jamming r s = Ok s' ->
  Jmch.sent s' = 0%Z /\ Jmch.blocked s' = 0%Z
  /\ Jmch.success_rate_data s' = Jmch.success_rate_data s
  /\ Jmch.running s' = Jmch.running s.
Proof.
  destruct (check_for_jamming_cases r s)
    as [rate [_ [[_ [ch [_ [_ [_ E]]]]] | [_ E]]]];
    rewrite E; intros H; injection H as <-; repeat split; reflexivity.
Qed.

Lemma update_graph_data (s s' : Jmch.state) :
  Jmch.update_graph s = Ok s' ->
  Jmch.success_rate_data s' = Jmch.success_rate_data s
  \/ ((0 < Jmch.sent s + Jmch.blocked s)%Z
      /\ Jmch.success_rate_data s'
         = Jmch.success_rate_data s
             ++ [(inject_Z (100 * Jmch.sent s)
                  / inject_Z (Jmch.sent s + Jmch.blocked s))%Q]).
Proof.
  destruct (update_graph_cases s) as [[G E] | [_ E]]; rewrite E;
    intros H; injection H as <-.
  - right. split; [ exact G | reflexivity ].
  - left. reflexivity.
Qed.

(** The state in which line 128 tests the packet count. *)
Lemma transmit_packet_effect (d : Jmch.draws) (s s3 : Jmch.state) :
  jmch_invariant s -> Jmch.transmit_packet d s = Ok s3 ->
  (0 <= Jmch.sent s3)%Z /\ (0 <= Jmch.blocked s3)%Z
  /\ (0 < Jmch.sent s3 + Jmch.blocked s3 <= Jmch.check_interval)%Z
  /\ Forall percentage (Jmch.success_rate_data s3).
Proof.
  intros [Hs Hb Hw Hg] U.
  unfold Jmch.transmit_packet in U. cbv zeta in U.
  destruct (record_packet_counters (Jmch.pkt_id d)
              (Jmch.is_blocked (Jmch.uniform d) s) s) as [Cs [Cb [Cg _]]].
  set (b := Jmch.is_blocked (Jmch.uniform d) s) in *.
  set (s1 := Jmch.record_packet (Jmch.pkt_id d) b s) in *.
  set (s2 := Jmch.set_time_counter
               (Jmch.time_counter s1 + Jmch.delay d)%Q s1) in *.
  assert (Es : Jmch.sent s2 = Jmch.sent s1) by reflexivity.
  assert (Eb : Jmch.blocked s2 = Jmch.blocked s1) by reflexivity.
  assert (Eg : Jmch.success_rate_data s2 = Jmch.success_rate_data s1)
    by reflexivity.
  destruct (update_graph_counters _ U) as [Us [Ub _]].
  unfold Jmch.check_interval in *.
  split; [ destruct b; lia | ]. split; [ destruct b; lia | ].
  split; [ destruct b; lia | ].
  destruct (update_graph_data _ U) as [E | [_ E]]; rewrite E, Eg, Cg.
  - exact Hg.
  - apply Forall_app. split; [ exact Hg | ].
    constructor; [ | constructor ].
    rewrite <- Us, <- Ub. apply rate_is_percentage; destruct b; lia.
Qed.

Lemma evaluated_success_rate_percentage (s : Jmch.state) :
  (0 <= Jmch.sent s)%Z -> (0 <= Jmch.blocked s)%Z ->
  exists rate, Jmch.evaluated_success_rate s = Ok rate /\ percentage rate.
Proof.
  intros Hs Hb.
  destruct (evaluated_success_rate_cases s) as [[G E] | [_ E]];
    cbv zeta in *; rewrite E; eexists; (split; [ reflexivity | ]).
  - apply rate_is_percentage; assumption.
  - unfold percentage. split; discriminate.
Qed.

Lemma simulate_packets_body_invariant (d : Jmch.draws) (s s' : Jmch.state) :
  jmch_invariant s -> Jmch.simulate_packets_body d s = Ok s' ->
  jmch_invariant s'.
Proof.
  intros I B.
  destruct (simulate_packets_body_cases d s) as [s3 [U K]].
  destruct (transmit_packet_effect d I U) as [Ps [Pb [Pt G3]]].
  unfold Jmch.check_interval in *.
  destruct K as [[M K] | [M K]]; rewrite K in B.
  - destruct (check_for_jamming_effect _ _ B) as [Z1 [Z2 [Z3 _]]].
    constructor; rewrite ?Z1, ?Z2, ?Z3; unfold Jmch.check_interval;
      try lia; exact G3.
  - injection B as <-.
    constructor; try assumption.
    unfold Jmch.check_interval.
    assert (Jmch.sent s3 + Jmch.blocked s3 <> 10)%Z
      by (intros E; apply M; rewrite E; reflexivity).
    lia.
Qed.

Lemma execute_jmch_invariant (c : Jmch.command) (s : Jmch.state) :
  jmch_invariant s -> jmch_invariant (Jmch.execute c s).
Proof.
  intros [Hs Hb Hw Hg]. destruct c; constructor; simpl; assumption.
Qed.

Lemma jmch_init_invariant : jmch_invariant Jmch.init.
Proof.
  constructor; simpl; unfold Jmch.check_interval; try lia. constructor.
Qed.

Lemma jmch_run_invariant
    (es : list (Worker.event Jmch.draws Jmch.command)) :
  jmch_invariant (Worker.shared (Threads.jmch_run es Threads.jmch_init)).
Proof.
  unfold Threads.jmch_run.
  apply run_invariant with (Inv := jmch_invariant).
  - intros d s s'. apply simulate_packets_body_invariant.
  - apply execute_jmch_invariant.
  - apply jmch_init_invariant.
Qed.

(** C5.  Every evaluation returns with both counters at zero, whether or not
    it hopped; and in every state the program reaches, at whatever point of an
    interleaving with the window's callbacks, the counters are non-negative
    and count fewer than [check_interval] packets: what an evaluation sees is
    the packets since the previous evaluation only. *)
Theorem C5_counters_reset_after_evaluation
    (r : nat) (s : Jmch.state)
    (es : list (Worker.event Jmch.draws Jmch.command)) :
  (exists s',
      Jmch.check_for_jamming r s = Ok s'
      /\ Jmch.sent s' = 0%Z /\ Jmch.blocked s' = 0%Z)
  /\ (let reached := Worker.shared (Threads.jmch_run es Threads.jmch_init) in
      (0 <= Jmch.sent reached)%Z /\ (0 <= Jmch.blocked reached)%Z
      /\ (Jmch.sent reached + Jmch.blocked reached < Jmch.check_interval)%Z).
Proof.
  split.
  - destruct (check_for_jamming_succeeds r s) as [s' E].
    exists s'. split; [ exact E | ].
    destruct (check_for_jamming_effect _ _ E) as [Z1 [Z2 _]].
    split; assumption.
  - cbv zeta. destruct (jmch_run_invariant es) as [Hs Hb Hw _].
    repeat split; assumption.
Qed.

(** ** Invariants of jammer.py *)

Lemma simulate_tick_invariant (d : Jammer.draws) (s s' : Jammer.state) :
  jammer_invariant s -> Jammer.simulate_tick d s = Ok s' ->
  jammer_invariant s'.
Proof.
  intros [Hs Hb Hg] B.
  unfold Jammer.simulate_tick, Jammer.simulate_body in B.
  apply bind_ok in B. destruct B as [p [_ B]].
  set (b := Jammer.decide_blocked (Jammer.uniform d) p) in *.
  set (s1 := Jammer.record_packet (Jammer.pkt_id d) b s) in *.
  assert (C1 : Jammer.sent s1 = (Jammer.sent s + if b then 0 else 1)%Z)
    by (unfold s1, Jammer.record_packet; destruct b; simpl; lia).
  assert (C2 : Jammer.blocked s1 = (Jammer.blocked s + if b then 1 else 0)%Z)
    by (unfold s1, Jammer.record_packet; destruct b; simpl; lia).
  assert (C3 : Jammer.success_data s1 = Jammer.success_data s)
    by (unfold s1, Jammer.record_packet; destruct b; reflexivity).
  unfold Jammer.update_success_plot in B. cbv zeta in B.
  destruct (Z.gtb_spec (Jammer.sent s1 + Jammer.blocked s1) 0) as [G | L].
  - rewrite truediv_nonzero in B by lia. cbn [bind] in B.
    injection B as <-.
    constructor; cbn [Jammer.sent Jammer.blocked Jammer.success_data].
    + destruct b; lia.
    + destruct b; lia.
    + apply Forall_app. split; [ rewrite C3; exact Hg | ].
      constructor; [ | constructor ].
      apply rate_is_percentage; destruct b; lia.
  - injection B as <-.
    constructor; cbn [Jammer.sent Jammer.blocked Jammer.success_data].
    + destruct b; lia.
    + destruct b; lia.
    + rewrite C3. exact Hg.
Qed.

Lemma jammer_run_invariant
    (es : list (Worker.event Jammer.draws Jammer.command)) :
  jammer_invariant (Worker.shared (Threads.jammer_run es Threads.jammer_init)).
Proof.
  unfold Threads.jammer_run.
  apply run_invariant with (Inv := jammer_invariant).
  - intros d s s'. apply simulate_tick_invariant.
  - intros c s [Hs Hb Hg]. destruct c; constructor; simpl; assumption.
  - constructor; simpl; try lia. constructor.
Qed.

(** ** Invariants of jammer+prevention.py *)

Lemma clip_bounds (x lo hi : R) :
  (lo <= hi)%R ->
  (lo <= JammerPrevention.clip x lo hi <= hi)%R.
Proof.
  intros H. unfold JammerPrevention.clip. split.
  - apply Rmin_glb; [ apply Rmax_r | exact H ].
  - apply Rmin_r.
Qed.

Lemma success_rate_of_percentage (snr : R) :
  percentage_R (JammerPrevention.success_rate_of snr).
Proof.
  unfold percentage_R, JammerPrevention.success_rate_of.
  pose proof (@clip_bounds (snr / 10) 0 1 ltac:(lra)) as B. lra.
Qed.

(** Appending to a list and dropping its head once it is longer than
    [capacity]: what [record_sample] does to each of its two lists. *)
Lemma record_sample_cases (t x : R) (s : JammerPrevention.state) :
  length (JammerPrevention.success_rates s)
  = length (JammerPrevention.success_times s) ->
  let times := JammerPrevention.success_times s ++ [t] in
  let rates := JammerPrevention.success_rates s ++ [x] in
  JammerPrevention.record_sample t x s
  = Ok (if (JammerPrevention.capacity <? length times)%nat
        then JammerPrevention.set_history (tl times) (tl rates)
               (JammerPrevention.start_time s) s
        else JammerPrevention.set_history times rates
               (JammerPrevention.start_time s) s).
Proof.
  intros L. cbv zeta. unfold JammerPrevention.record_sample. cbv zeta.
  destruct (JammerPrevention.capacity
              <? length (JammerPrevention.success_times s ++ [t]))%nat;
    [ | reflexivity ].
  destruct (JammerPrevention.success_times s) as [ | t0 ts];
    destruct (JammerPrevention.success_rates s) as [ | x0 xs];
    try discriminate L; reflexivity.
Qed.

Lemma update_plots_in_step (s : JammerPrevention.state) :
  length (JammerPrevention.success_rates s)
  = length (JammerPrevention.success_times s) ->
  JammerPrevention.update_plots s = Ok tt.
Proof.
  intros L. unfold JammerPrevention.update_plots.
  rewrite L, Nat.eqb_refl. reflexivity.
Qed.

Lemma record_sample_invariant (t x : R) (s s' : JammerPrevention.state) :
  percentage_R x ->
  prevention_invariant s -> JammerPrevention.record_sample t x s = Ok s' ->
  prevention_invariant s'.
Proof.
  intros Px [L B G] E.
  rewrite (record_sample_cases t x s L) in E. cbv zeta in E.
  injection E as <-.
  assert (G' : Forall percentage_R (JammerPrevention.success_rates s ++ [x])).
  { apply Forall_app. split; [ exact G | ].
    constructor; [ exact Px | constructor ]. }
  assert (L' : length (JammerPrevention.success_rates s ++ [x])
               = length (JammerPrevention.success_times s ++ [t])).
  { rewrite !length_app, L. reflexivity. }
  destruct (Nat.ltb_spec JammerPrevention.capacity
              (length (JammerPrevention.success_times s ++ [t]))) as [H | H].
  - constructor; cbn [JammerPrevention.set_history
                        JammerPrevention.success_rates
                        JammerPrevention.success_times].
    + destruct (JammerPrevention.success_rates s ++ [x]);
        destruct (JammerPrevention.success_times s ++ [t]);
        simpl in *; lia.
    + rewrite length_app in *. simpl length in *.
      destruct (JammerPrevention.success_rates s ++ [x]) eqn:Q;
        simpl; [ lia | ].
      apply (f_equal (@length R)) in Q. rewrite length_app in Q.
      simpl in Q. lia.
    + destruct (JammerPrevention.success_rates s ++ [x]);
        [ constructor | ].
      simpl. inversion G'. assumption.
  - constructor; cbn [JammerPrevention.set_history
                        JammerPrevention.success_rates
                        JammerPrevention.success_times].
    + exact L'.
    + rewrite L'. exact H.
    + exact G'.
Qed.

Lemma run_simulation_tick_invariant
    (d : JammerPrevention.draws) (s s' : JammerPrevention.state) :
  prevention_invariant s -> JammerPrevention.run_simulation_tick d s = Ok s' ->
  prevention_invariant s'.
Proof.
  intros I E.
  unfold JammerPrevention.run_simulation_tick,
    JammerPrevention.run_simulation_body in E.
  destruct (JammerPrevention.generate_signal s (JammerPrevention.randn d)
              JammerPrevention.time_grid) as [signal jammer].
  cbv zeta in E. apply bind_ok in E. destruct E as [s1 [E1 E2]].
  apply bind_ok in E2. destruct E2 as [u [_ E2]].
  injection E2 as <-.
  assert (I1 : prevention_invariant s1).
  { eapply record_sample_invariant;
      [ apply success_rate_of_percentage | exact I | exact E1 ]. }
  destruct I1 as [L B G]. constructor; assumption.
Qed.

Lemma apply_prevention_history (r : nat) (s s' : JammerPrevention.state) :
  JammerPrevention.apply_prevention r s = Ok s' ->
  JammerPrevention.success_rates s' = JammerPrevention.success_rates s
  /\ JammerPrevention.success_times s' = JammerPrevention.success_times s
  /\ JammerPrevention.running s' = JammerPrevention.running s.
Proof.
  unfold JammerPrevention.apply_prevention. cbv zeta.
  destruct (String.eqb _ "Channel Hopping").
  { intros E. apply bind_ok in E. destruct E as [c [_ E]].
    injection E as <-. repeat split; reflexivity. }
  destruct (String.eqb _ "Spread Spectrum").
  { intros E. apply bind_ok in E. destruct E as [c [_ E]].
    injection E as <-. repeat split; reflexivity. }
  destruct (String.eqb _ "Adaptive Filter");
    intros E; injection E as <-; repeat split; reflexivity.
Qed.

Lemma execute_prevention_invariant
    (c : JammerPrevention.command) (s : JammerPrevention.state) :
  prevention_invariant s -> prevention_invariant (JammerPrevention.execute c s).
Proof.
  intros [L B G]. destruct c; simpl.
  - constructor; assumption.
  - constructor; assumption.
  - unfold JammerPrevention.start_simulation.
    destruct (JammerPrevention.running s).
    + constructor; assumption.
    + constructor; simpl; try lia. constructor.
  - destruct (JammerPrevention.apply_prevention r s) as [s' | e] eqn:E.
    + destruct (apply_prevention_history _ _ E) as [E1 [E2 _]].
      constructor; rewrite ?E1, ?E2; assumption.
    + constructor; assumption.
  - constructor; assumption.
Qed.

Lemma prevention_run_invariant
    (es : list (Worker.event JammerPrevention.draws JammerPrevention.command)) :
  prevention_invariant
    (Worker.shared (Threads.prevention_run es Threads.prevention_init)).
Proof.
  unfold Threads.prevention_run.
  apply run_invariant with (Inv := prevention_invariant).
  - intros d s s'. apply run_simulation_tick_invariant.
  - apply execute_prevention_invariant.
  - constructor; simpl; try lia. constructor.
Qed.

(** C1.  In every state the three programs reach, under any interleaving of
    loop steps and window callbacks, every success rate the tracker has
    computed is a percentage: all samples on the graph of jmch.py, the rate an
    evaluation would compute there, the samples and the evaluated rate after
    the next packet (the state in which line 128 decides to evaluate), all
    samples of jammer.py, and all samples of jammer+prevention.py, whose rate
    [100 * clip(snr / 10, 0, 1)] is a percentage for every [snr]. *)
Theorem C1_success_rate_is_a_percentage
    (es1 : list (Worker.event Jmch.draws Jmch.command))
    (es2 : list (Worker.event Jammer.draws Jammer.command))
    (es3 : list (Worker.event JammerPrevention.draws JammerPrevention.command))
    (d : Jmch.draws) (snr : R) :
  let s1 := Worker.shared (Threads.jmch_run es1 Threads.jmch_init) in
  let s2 := Worker.shared (Threads.jammer_run es2 Threads.jammer_init) in
  let s3 := Worker.shared
              (Threads.prevention_run es3 Threads.prevention_init) in
  Forall percentage (Jmch.success_rate_data s1)
  /\ (exists rate,
        Jmch.evaluated_success_rate s1 = Ok rate /\ percentage rate)
  /\ (exists s1' rate,
        Jmch.transmit_packet d s1 = Ok s1'
        /\ Forall percentage (Jmch.success_rate_data s1')
        /\ Jmch.evaluated_success_rate s1' = Ok rate /\ percentage rate)
  /\ Forall percentage (Jammer.success_data s2)
  /\ percentage_R (JammerPrevention.success_rate_of snr)
  /\ Forall percentage_R (JammerPrevention.success_rates s3).
Proof.
  cbv zeta.
  pose proof (jmch_run_invariant es1) as I1.
  split; [ apply (jmch_graph I1) | ].
  split.
  { apply evaluated_success_rate_percentage;
      [ apply (jmch_sent_nonneg I1) | apply (jmch_blocked_nonneg I1) ]. }
  split.
  { destruct (transmit_packet_succeeds d
                (Worker.shared (Threads.jmch_run es1 Threads.jmch_init)))
      as [s1' T].
    destruct (transmit_packet_effect d I1 T) as [Ps [Pb [_ G]]].
    destruct (evaluated_success_rate_percentage s1' Ps Pb) as [rate [E P]].
    exists s1', rate. repeat split; try assumption; apply P. }
  split; [ apply (jammer_graph (jammer_run_invariant es2)) | ].
  split; [ apply success_rate_of_percentage | ].
  apply (prevention_graph (prevention_run_invariant es3)).
Qed.

(** ** The block decision *)

(** C6.  In jammer.py a packet is blocked exactly when the draw is strictly
    below the block probability that the table gives for the current mode; in
    jmch.py exactly when the jammer is active and the draw is strictly below
    the jammer strength.  So an inactive jammer blocks nothing, and neither
    does mode "None", whose probability is 0: no draw of [0,1) is below it. *)
Theorem C6_block_decision
    (u : Q) (mode : string) (p : Jammer.params) (s : Jmch.state)
    (Hu : (0 <= u < 1)%Q)
    (Hm : Jammer.getitem Jammer.simulation_params mode = Ok p) :
  (Jammer.decide_blocked u p = true <-> (u < Jammer.block_prob p)%Q)
  /\ (Jmch.is_blocked u s = true
      <-> Jmch.jammer_active s = true /\ (u < Jmch.jammer_strength s)%Q)
  /\ (Jmch.jammer_active s = false -> Jmch.is_blocked u s = false)
  /\ (mode = "None"%string ->
      Jammer.block_prob p = 0%Q /\ Jammer.decide_blocked u p = false).
Proof.
  split; [ apply ltb_true | ].
  split.
  { unfold Jmch.is_blocked. rewrite andb_true_iff, ltb_true. tauto. }
  split.
  { intros A. unfold Jmch.is_blocked. rewrite A. reflexivity. }
  intros ->. cbn in Hm. injection Hm as <-.
  split; [ reflexivity | ].
  apply ltb_false. simpl. apply Hu.
Qed.

Lemma C6_block_decision_witness :
  (0 <= 1 # 2 < 1)%Q
  /\ Jammer.getitem Jammer.simulation_params "Tone"
     = Ok (Jammer.mkParams (7 # 10) Jammer.tone_spectrum)
  /\ (Jammer.decide_blocked (1 # 2)
        (Jammer.mkParams (7 # 10) Jammer.tone_spectrum) = true
      <-> (1 # 2 < 7 # 10)%Q).
Proof.
  assert (Hu : (0 <= 1 # 2 < 1)%Q) by (split; [ discriminate | reflexivity ]).
  split; [ exact Hu | ]. split; [ reflexivity | ].
  apply (@C6_block_decision (1 # 2) "Tone"
           (Jammer.mkParams (7 # 10) Jammer.tone_spectrum) Jmch.init
           Hu eq_refl).
Defined.

(** ** The history *)

Section LastN.

Variable A : Type.

Lemma tl_skipn (k : nat) (l : list A) : tl (skipn k l) = skipn (S k) l.
Proof.
  revert l. induction k as [ | k IH]; intros [ | a l]; try reflexivity.
  apply (IH l).
Qed.

Lemma last_n_length (n : nat) (l : list A) :
  length (last_n n l) = Nat.min n (length l).
Proof.
  unfold last_n. rewrite length_skipn. lia.
Qed.

(** Appending to the last [n] and dropping the head when that makes more than
    [n] gives the last [n] of the longer list. *)
Lemma last_n_push (n : nat) (l : list A) (x : A) :
  (0 < n)%nat ->
  (if (n <? length (last_n n l ++ [x]))%nat
   then tl (last_n n l ++ [x])
   else last_n n l ++ [x])
  = last_n n (l ++ [x]).
Proof.
  intros Pn.
  rewrite length_app, last_n_length. simpl length.
  unfold last_n. rewrite length_app. simpl length.
  destruct (Nat.ltb_spec n (Nat.min n (length l) + 1)) as [H | H].
  - assert (K : (length l - n < length l)%nat) by lia.
    replace (length l + 1 - n)%nat with (S (length l - n)) by lia.
    rewrite skipn_app.
    replace (S (length l - n) - length l)%nat with 0%nat by lia.
    rewrite <- tl_skipn. simpl skipn.
    destruct (skipn (length l - n) l) as [ | a l'] eqn:E; [ | reflexivity ].
    apply (f_equal (@length A)) in E. rewrite length_skipn in E.
    simpl in E. lia.
  - replace (length l - n)%nat with 0%nat by lia.
    replace (length l + 1 - n)%nat with 0%nat by lia.
    reflexivity.
Qed.

End LastN.

Lemma record_all_spec (samples : list (R * R)) :
  forall (s : JammerPrevention.state) (all_t all_x : list R),
    length all_x = length all_t ->
    JammerPrevention.success_times s
    = last_n JammerPrevention.capacity all_t ->
    JammerPrevention.success_rates s
    = last_n JammerPrevention.capacity all_x ->
    exists s',
      record_all samples s = Ok s'
      /\ JammerPrevention.success_times s'
         = last_n JammerPrevention.capacity (all_t ++ map fst samples)
      /\ JammerPrevention.success_rates s'
         = last_n JammerPrevention.capacity (all_x ++ map snd samples).
Proof.
  induction samples as [ | [t x] rest IH]; intros s all_t all_x L Ht Hx.
  - exists s. simpl. rewrite !app_nil_r. auto.
  - assert (Ls : length (JammerPrevention.success_rates s)
                 = length (JammerPrevention.success_times s)).
    { rewrite Ht, Hx, !last_n_length, L. reflexivity. }
    cbn [record_all]. rewrite (record_sample_cases t x s Ls). cbv zeta.
    cbn [bind].
    assert (Lp : length (JammerPrevention.success_times s ++ [t])
                 = length (JammerPrevention.success_rates s ++ [x])).
    { rewrite !length_app, Ls. reflexivity. }
    assert (P : (0 < JammerPrevention.capacity)%nat)
      by (unfold JammerPrevention.capacity; lia).
    pose proof (last_n_push all_t t P) as Qt.
    pose proof (last_n_push all_x x P) as Qx.
    rewrite <- Ht in Qt. rewrite <- Hx in Qx. rewrite <- Lp in Qx.
    cbn [map fst snd].
    replace (all_t ++ t :: map fst rest)
      with ((all_t ++ [t]) ++ map fst rest)
      by (rewrite <- app_assoc; reflexivity).
    replace (all_x ++ x :: map snd rest)
      with ((all_x ++ [x]) ++ map snd rest)
      by (rewrite <- app_assoc; reflexivity).
    apply IH.
    + rewrite !length_app, L. reflexivity.
    + rewrite <- Qt.
      destruct (_ <? _)%nat; reflexivity.
    + rewrite <- Qx.
      destruct (_ <? _)%nat; reflexivity.
Qed.

(** C8 as stated fails on jmch.py: after 101 passes through its loop, one
    packet each, the graph holds 101 samples, more than the capacity of
    100. *)
Lemma C8_jmch_graph_unbounded :
  length (Jmch.success_rate_data
            (Worker.shared
               (Threads.jmch_run (jmch_passes 101) Threads.jmch_init)))
  = 101%nat
  /\ ~ jmch_graph_bounded.
Proof.
  assert (E : length (Jmch.success_rate_data
                        (Worker.shared
                           (Threads.jmch_run (jmch_passes 101)
                              Threads.jmch_init))) = 101%nat)
    by (vm_compute; reflexivity).
  split; [ exact E | ].
  intros H. specialize (H (jmch_passes 101)). rewrite E in H.
  unfold JammerPrevention.capacity in H. lia.
Qed.

(** C8, amended.  In jammer+prevention.py the two history lists have the same
    length, at most 100, in every state the program reaches; and recording
    any run of samples into the empty history that [start_simulation] leaves
    succeeds and retains exactly the last 100 of them (all of them if fewer),
    in the order they were recorded.  In jmch.py a graph update only ever
    appends: the history it returns is the old one followed by at most one
    sample, so it has no capacity. *)
Theorem C8_bounded_history_of_prevention
    (es : list (Worker.event JammerPrevention.draws JammerPrevention.command))
    (samples : list (R * R)) (t0 : R) (s : JammerPrevention.state)
    (g : Jmch.state) :
  (let reached := Worker.shared
                    (Threads.prevention_run es Threads.prevention_init) in
   length (JammerPrevention.success_rates reached)
   = length (JammerPrevention.success_times reached)
   /\ (length (JammerPrevention.success_times reached)
       <= JammerPrevention.capacity)%nat)
  /\ (exists s',
        record_all samples (JammerPrevention.set_history [] [] t0 s) = Ok s'
        /\ JammerPrevention.success_times s'
           = last_n JammerPrevention.capacity (map fst samples)
        /\ JammerPrevention.success_rates s'
           = last_n JammerPrevention.capacity (map snd samples)
        /\ (length (JammerPrevention.success_rates s')
            <= JammerPrevention.capacity)%nat)
  /\ (exists g' new,
        Jmch.update_graph g = Ok g'
        /\ Jmch.success_rate_data g' = Jmch.success_rate_data g ++ new
        /\ (length new <= 1)%nat).
Proof.
  split; [ | split ].
  - cbv zeta. destruct (prevention_run_invariant es) as [L B _].
    split; [ exact L | ]. rewrite <- L. exact B.
  - destruct (@record_all_spec samples
                (JammerPrevention.set_history [] [] t0 s) [] [])
      as [s' [E [Ht Hx]]]; try reflexivity.
    exists s'. split; [ exact E | ]. split; [ exact Ht | ].
    split; [ exact Hx | ].
    simpl app in Hx. rewrite Hx, last_n_length. lia.
  - destruct (update_graph_succeeds g) as [g' E].
    destruct (update_graph_data _ E) as [D | [_ D]].
    + exists g', []. rewrite app_nil_r. simpl. auto.
    + exists g'. eexists. split; [ exact E | ]. split; [ exact D | ].
      simpl. lia.
Qed.

(** ** The adaptive filter *)

Lemma adaptive_filter_step (r : nat) (s : JammerPrevention.state) :
  JammerPrevention.prev_method_var s = "Adaptive Filter"%string ->
  JammerPrevention.apply_prevention r s
  = Ok (JammerPrevention.log
          (JammerPrevention.AdaptiveFilter
             (JammerPrevention.jammer_strength s * (7 / 10)))
          (JammerPrevention.set_strength
             (JammerPrevention.jammer_strength s * (7 / 10)) s)).
Proof.
  intros H. unfold JammerPrevention.apply_prevention. cbv zeta.
  rewrite H. reflexivity.
Qed.

Lemma apply_prevention_all_app (rs1 rs2 : list nat)
    (s : JammerPrevention.state) :
  apply_prevention_all (rs1 ++ rs2) s
  = bind (apply_prevention_all rs1 s) (apply_prevention_all rs2).
Proof.
  revert s. induction rs1 as [ | r rs1 IH]; intros s; [ reflexivity | ].
  cbn [app apply_prevention_all].
  destruct (JammerPrevention.apply_prevention r s) as [s' | e];
    [ apply IH | reflexivity ].
Qed.

Lemma adaptive_filter_all (rs : list nat) :
  forall s : JammerPrevention.state,
    JammerPrevention.prev_method_var s = "Adaptive Filter"%string ->
    exists s',
      apply_prevention_all rs s = Ok s'
      /\ JammerPrevention.prev_method_var s' = "Adaptive Filter"%string
      /\ JammerPrevention.jammer_strength s'
         = (JammerPrevention.jammer_strength s * (7 / 10) ^ length rs)%R.
Proof.
  induction rs as [ | r rs IH]; intros s H.
  - exists s. simpl. repeat split; try assumption. lra.
  - cbn [apply_prevention_all]. rewrite (adaptive_filter_step r s H).
    cbn [bind].
    destruct (IH (JammerPrevention.log
                    (JammerPrevention.AdaptiveFilter
                       (JammerPrevention.jammer_strength s * (7 / 10)))
                    (JammerPrevention.set_strength
                       (JammerPrevention.jammer_strength s * (7 / 10)) s)))
      as [s' [E [M V]]]; [ exact H | ].
    exists s'. split; [ exact E | ]. split; [ exact M | ].
    rewrite V. simpl. lra.
Qed.

Lemma decay_factor_power (n : nat) : (0 < (7 / 10) ^ n <= 1)%R.
Proof.
  induction n as [ | n IH]; simpl; [ lra | nra ].
Qed.

(** C3.  With the adaptive filter selected and the strength within the range
    [0, 10] of its slider, any number of mitigation actions succeeds; each one
    multiplies the strength by 0.7, which is also the product clamped to the
    slider's range; so after [rs1] and then [rs2] further actions the strength
    is the earlier one times 0.7 to the number of further actions, it never
    increases, and it never drops below the lower end of the range. *)
Theorem C3_adaptive_filter_decay
    (rs1 rs2 : list nat) (r : nat) (s : JammerPrevention.state)
    (Hm : JammerPrevention.prev_method_var s = "Adaptive Filter"%string)
    (Hs : (JammerPrevention.slider_from <= JammerPrevention.jammer_strength s
           <= JammerPrevention.slider_to)%R) :
  exists s1 s2 s3,
    apply_prevention_all rs1 s = Ok s1
    /\ apply_prevention_all (rs1 ++ rs2) s = Ok s2
    /\ JammerPrevention.apply_prevention r s2 = Ok s3
    /\ JammerPrevention.jammer_strength s2
       = (JammerPrevention.jammer_strength s1 * (7 / 10) ^ length rs2)%R
    /\ JammerPrevention.jammer_strength s3
       = (JammerPrevention.jammer_strength s2 * (7 / 10))%R
    /\ JammerPrevention.jammer_strength s3
       = JammerPrevention.clip
           (JammerPrevention.jammer_strength s2 * (7 / 10))
           JammerPrevention.slider_from JammerPrevention.slider_to
    /\ (JammerPrevention.slider_from
        <= JammerPrevention.jammer_strength s3
        <= JammerPrevention.jammer_strength s2)%R
    /\ (JammerPrevention.jammer_strength s2
        <= JammerPrevention.jammer_strength s1
        <= JammerPrevention.jammer_strength s)%R
    /\ (JammerPrevention.jammer_strength s
        <= JammerPrevention.slider_to)%R.
Proof.
  unfold JammerPrevention.slider_from, JammerPrevention.slider_to in *.
  destruct (adaptive_filter_all rs1 s Hm) as [s1 [E1 [M1 V1]]].
  destruct (adaptive_filter_all rs2 s1 M1) as [s2 [E2 [M2 V2]]].
  pose proof (adaptive_filter_step r s2 M2) as E3.
  eexists s1, s2, _.
  split; [ exact E1 | ].
  split; [ rewrite apply_prevention_all_app, E1; exact E2 | ].
  split; [ exact E3 | ].
  split; [ exact V2 | ].
  cbn [JammerPrevention.jammer_strength JammerPrevention.log
         JammerPrevention.set_strength].
  split; [ reflexivity | ].
  pose proof (decay_factor_power (length rs1)) as P1.
  pose proof (decay_factor_power (length rs2)) as P2.
  set (x := JammerPrevention.jammer_strength s) in *.
  set (x1 := JammerPrevention.jammer_strength s1) in *.
  set (x2 := JammerPrevention.jammer_strength s2) in *.
  assert (B1 : (0 <= x1 <= x)%R) by (rewrite V1; nra).
  assert (B2 : (0 <= x2 <= x1)%R) by (rewrite V2; nra).
  split.
  - unfold JammerPrevention.clip.
    rewrite Rmax_left by lra. rewrite Rmin_left by lra. reflexivity.
  - lra.
Qed.

Lemma C3_adaptive_filter_decay_witness :
  exists s1 s2 s3,
    apply_prevention_all [0%nat]
      (JammerPrevention.set_selection "Noise" "Adaptive Filter"
         JammerPrevention.init) = Ok s1
    /\ apply_prevention_all ([0%nat] ++ [0%nat; 0%nat])
         (JammerPrevention.set_selection "Noise" "Adaptive Filter"
            JammerPrevention.init) = Ok s2
    /\ JammerPrevention.apply_prevention 0
         s2 = Ok s3
    /\ (0 <= JammerPrevention.jammer_strength s3
        <= JammerPrevention.jammer_strength s2)%R.
Proof.
  assert (Hs : (JammerPrevention.slider_from
                <= JammerPrevention.jammer_strength
                     (JammerPrevention.set_selection "Noise" "Adaptive Filter"
                        JammerPrevention.init)
                <= JammerPrevention.slider_to)%R).
  { unfold JammerPrevention.slider_from, JammerPrevention.slider_to.
    simpl. lra. }
  destruct (@C3_adaptive_filter_decay [0%nat] [0%nat; 0%nat] 0%nat
              (JammerPrevention.set_selection "Noise" "Adaptive Filter"
                 JammerPrevention.init) eq_refl Hs)
    as [s1 [s2 [s3 [E1 [E2 [E3 [_ [_ [_ [B _]]]]]]]]]].
  exists s1, s2, s3.
  unfold JammerPrevention.slider_from in B.
  repeat split; try assumption; lra.
Defined.

(** ** A silent jammer *)

Lemma map_all_zero (A : Type) (f : A -> R) (l : list A) :
  (forall a, f a = 0%R) -> map f l = repeat 0%R (length l).
Proof.
  intros H. induction l as [ | a l IH]; simpl; [ reflexivity | ].
  rewrite H, IH. reflexivity.
Qed.

Lemma square_length (l : list R) :
  length (JammerPrevention.square l) = length l.
Proof. apply length_map. Qed.

Lemma total_square_cons (a : R) (l : list R) :
  JammerPrevention.total (JammerPrevention.square (a :: l))
  = (a * a + JammerPrevention.total (JammerPrevention.square l))%R.
Proof. reflexivity. Qed.

Lemma total_square_zero (n : nat) :
  JammerPrevention.total (JammerPrevention.square (repeat 0%R n)) = 0%R.
Proof.
  induction n as [ | n IH]; [ reflexivity | ].
  cbn [repeat]. rewrite total_square_cons, IH. lra.
Qed.

Lemma total_square_nonneg (l : list R) :
  (0 <= JammerPrevention.total (JammerPrevention.square l))%R.
Proof.
  induction l as [ | a l IH]; [ simpl; lra | ].
  rewrite total_square_cons. nra.
Qed.

(** The energy of a waveform is at least that of any one of its samples. *)
Lemma total_square_sample (l : list R) (k : nat) :
  (k < length l)%nat ->
  (nth k l 0 * nth k l 0
   <= JammerPrevention.total (JammerPrevention.square l))%R.
Proof.
  revert k. induction l as [ | a l IH]; intros k H; simpl in H; [ lia | ].
  rewrite total_square_cons.
  destruct k as [ | k]; cbn [nth].
  - pose proof (total_square_nonneg l) as P. nra.
  - specialize (IH k ltac:(lia)). nra.
Qed.

Lemma nth_map_seq (f : nat -> R) (n k : nat) :
  (k < n)%nat -> nth k (map f (seq 0 n)) 0%R = f k.
Proof.
  intros H.
  rewrite (nth_indep _ 0%R (f 0%nat)) by (rewrite length_map, length_seq; lia).
  rewrite map_nth, seq_nth by lia. reflexivity.
Qed.

Lemma time_grid_length :
  length JammerPrevention.time_grid = JammerPrevention.n_samples.
Proof.
  unfold JammerPrevention.time_grid, JammerPrevention.linspace.
  rewrite length_map, length_seq. reflexivity.
Qed.

(** The fourth instant of the grid is 3/999. *)
Lemma time_grid_3 : nth 3 JammerPrevention.time_grid 0%R = (3 / 999)%R.
Proof.
  unfold JammerPrevention.time_grid, JammerPrevention.linspace.
  rewrite nth_map_seq by (unfold JammerPrevention.n_samples; lia).
  unfold JammerPrevention.duration.
  replace (INR (JammerPrevention.n_samples - 1)) with 999%R.
  - replace (INR 3) with 3%R by (simpl; lra). lra.
  - change (JammerPrevention.n_samples - 1)%nat with 999%nat.
    rewrite INR_IZR_INZ. reflexivity.
Qed.

(** For a carrier between 40 and 60 Hz the clean signal at that instant is at
    least 1/2. *)
Lemma carrier_sample (f : Z) :
  (40 <= f <= 60)%Z ->
  (1 / 2 <= sin (2 * PI * IZR f * (3 / 999)))%R.
Proof.
  intros [Lo Hi]. apply IZR_le in Lo, Hi.
  pose proof PI_RGT_0 as P.
  rewrite <- sin_PI6.
  apply sin_incr_1; nra.
Qed.

Lemma silent_jammer (s : JammerPrevention.state) (randn : nat -> R) :
  JammerPrevention.jammer_strength s = 0%R ->
  snd (JammerPrevention.generate_signal s randn JammerPrevention.time_grid)
  = repeat 0%R JammerPrevention.n_samples.
Proof.
  intros H. unfold JammerPrevention.generate_signal. cbv zeta.
  cbn [snd]. rewrite H.
  repeat match goal with
         | |- context [if ?b then _ else _] => destruct b
         end;
    rewrite map_all_zero;
    rewrite ?length_seq, ?time_grid_length; try reflexivity;
    intros a; try lra.
  all: destruct (_ =? _)%nat; lra.
Qed.

Lemma clean_signal_power (s : JammerPrevention.state) (randn : nat -> R) :
  carrier_in_range s ->
  (1 / 4000
   <= JammerPrevention.mean
        (JammerPrevention.square
           (fst (JammerPrevention.generate_signal s randn
                   JammerPrevention.time_grid))))%R.
Proof.
  intros F. unfold JammerPrevention.generate_signal. cbv zeta. cbn [fst].
  set (signal := map _ JammerPrevention.time_grid).
  assert (L : length signal = JammerPrevention.n_samples)
    by (unfold signal; rewrite length_map; apply time_grid_length).
  assert (K : nth 3 signal 0%R
              = sin (2 * PI * IZR (JammerPrevention.fc s) * (3 / 999))).
  { unfold signal.
    rewrite (nth_indep _ 0%R
               (sin (2 * PI * IZR (JammerPrevention.fc s) * 0)))
      by (rewrite length_map, time_grid_length;
          unfold JammerPrevention.n_samples; lia).
    rewrite (map_nth (fun x => sin (2 * PI * IZR (JammerPrevention.fc s) * x))).
    rewrite time_grid_3. reflexivity. }
  pose proof (@total_square_sample signal 3
                ltac:(rewrite L; unfold JammerPrevention.n_samples; lia)) as E.
  rewrite K in E. pose proof (@carrier_sample _ F) as C.
  unfold JammerPrevention.mean. rewrite square_length, L.
  replace (INR JammerPrevention.n_samples) with 1000%R
    by (unfold JammerPrevention.n_samples; rewrite INR_IZR_INZ; reflexivity).
  set (e := JammerPrevention.total (JammerPrevention.square signal)) in *.
  assert (Q4 : (1 / 4 <= e)%R) by nra.
  lra.
Qed.

Lemma silent_jammer_full_success
    (s : JammerPrevention.state) (randn : nat -> R) :
  JammerPrevention.jammer_strength s = 0%R ->
  carrier_in_range s ->
  let signal := fst (JammerPrevention.generate_signal s randn
                       JammerPrevention.time_grid) in
  let jammer := snd (JammerPrevention.generate_signal s randn
                       JammerPrevention.time_grid) in
  jammer = repeat 0%R JammerPrevention.n_samples
  /\ (10 < JammerPrevention.snr_of signal jammer)%R
  /\ JammerPrevention.success_rate_of (JammerPrevention.snr_of signal jammer)
     = 100%R.
Proof.
  intros Hs Hf. cbv zeta.
  pose proof (silent_jammer s randn Hs) as J.
  pose proof (@clean_signal_power s randn Hf) as P.
  split; [ exact J | ].
  assert (S10 : (10 < JammerPrevention.snr_of
                        (fst (JammerPrevention.generate_signal s randn
                                JammerPrevention.time_grid))
                        (snd (JammerPrevention.generate_signal s randn
                                JammerPrevention.time_grid)))%R).
  { unfold JammerPrevention.snr_of. rewrite J.
    unfold JammerPrevention.mean at 2. rewrite total_square_zero.
    set (m := JammerPrevention.mean _) in *.
    replace (0 / INR (length (JammerPrevention.square
                                (repeat 0 JammerPrevention.n_samples)))
             + 1 / 1000000)%R with (1 / 1000000)%R by lra.
    lra. }
  split; [ exact S10 | ].
  unfold JammerPrevention.success_rate_of, JammerPrevention.clip.
  set (x := JammerPrevention.snr_of _ _) in *.
  rewrite Rmax_left by lra. rewrite Rmin_right by lra. lra.
Qed.

Lemma apply_prevention_carrier (r : nat) (s s' : JammerPrevention.state) :
  carrier_in_range s -> JammerPrevention.apply_prevention r s = Ok s' ->
  carrier_in_range s'.
Proof.
  unfold carrier_in_range, JammerPrevention.apply_prevention. cbv zeta.
  intros F.
  destruct (String.eqb _ "Channel Hopping").
  { intros E. apply bind_ok in E. destruct E as [c [_ E]].
    injection E as <-. exact F. }
  destruct (String.eqb _ "Spread Spectrum").
  { intros E. apply bind_ok in E. destruct E as [f [C E]].
    injection E as <-. apply choice_In in C.
    cbn [JammerPrevention.fc JammerPrevention.log JammerPrevention.set_fc].
    simpl in C. lia. }
  destruct (String.eqb _ "Adaptive Filter");
    intros E; injection E as <-; exact F.
Qed.

Lemma run_simulation_tick_carrier
    (d : JammerPrevention.draws) (s s' : JammerPrevention.state) :
  JammerPrevention.run_simulation_tick d s = Ok s' ->
  JammerPrevention.fc s' = JammerPrevention.fc s.
Proof.
  intros E.
  unfold JammerPrevention.run_simulation_tick,
    JammerPrevention.run_simulation_body in E.
  destruct (JammerPrevention.generate_signal s (JammerPrevention.randn d)
              JammerPrevention.time_grid) as [signal jammer].
  cbv zeta in E. apply bind_ok in E. destruct E as [s1 [E1 E2]].
  apply bind_ok in E2. destruct E2 as [u [_ E2]].
  injection E2 as <-. cbn [JammerPrevention.fc JammerPrevention.log].
  unfold JammerPrevention.record_sample in E1. cbv zeta in E1.
  destruct (_ <? _)%nat.
  - apply bind_ok in E1. destruct E1 as [ts [_ E1]].
    apply bind_ok in E1. destruct E1 as [xs [_ E1]].
    injection E1 as <-. reflexivity.
  - injection E1 as <-. reflexivity.
Qed.

Lemma prevention_run_carrier
    (es : list (Worker.event JammerPrevention.draws JammerPrevention.command)) :
  carrier_in_range
    (Worker.shared (Threads.prevention_run es Threads.prevention_init)).
Proof.
  unfold Threads.prevention_run.
  apply run_invariant with (Inv := carrier_in_range).
  - intros d s s' F E. unfold carrier_in_range.
    rewrite (run_simulation_tick_carrier _ _ E). exact F.
  - intros c s F.
    destruct c as [v | jt m | t | r | ]; cbn [JammerPrevention.execute];
      try exact F.
    + unfold JammerPrevention.start_simulation.
      destruct (JammerPrevention.running s); exact F.
    + destruct (JammerPrevention.apply_prevention r s) as [s' | e] eqn:E;
        [ | exact F ].
      exact (apply_prevention_carrier r F E).
  - unfold carrier_in_range. simpl. lia.
Qed.

(** The newest sample stays the last one when the oldest is dropped. *)
Lemma last_tl_app (l : list R) (x : R) :
  (1 <= length l)%nat -> last (tl (l ++ [x])) 0%R = x.
Proof.
  destruct l as [ | a l]; simpl length; intros H; [ lia | ].
  cbn [app tl]. apply last_last.
Qed.

(** C10.  In every state jammer+prevention.py reaches with the jammer
    strength at 0, whatever the selected jamming type and whatever the noise
    samples: the interference waveform is zero at every one of the 1000
    instants, the signal-to-noise ratio exceeds 10, the success rate computed
    from it is exactly 100, and the loop body returns with 100 as the newest
    sample of the history. *)
Theorem C10_silent_jammer_full_success
    (es : list (Worker.event JammerPrevention.draws JammerPrevention.command))
    (d : JammerPrevention.draws)
    (Hs : JammerPrevention.jammer_strength
            (Worker.shared
               (Threads.prevention_run es Threads.prevention_init)) = 0%R) :
  let s := Worker.shared
             (Threads.prevention_run es Threads.prevention_init) in
  let signal := fst (JammerPrevention.generate_signal s
                       (JammerPrevention.randn d)
                       JammerPrevention.time_grid) in
  let jammer := snd (JammerPrevention.generate_signal s
                       (JammerPrevention.randn d)
                       JammerPrevention.time_grid) in
  jammer = repeat 0%R JammerPrevention.n_samples
  /\ (10 < JammerPrevention.snr_of signal jammer)%R
  /\ JammerPrevention.success_rate_of (JammerPrevention.snr_of signal jammer)
     = 100%R
  /\ exists s',
       JammerPrevention.run_simulation_tick d s = Ok s'
       /\ last (JammerPrevention.success_rates s') 0%R = 100%R.
Proof.
  cbv zeta.
  set (s := Worker.shared
              (Threads.prevention_run es Threads.prevention_init)) in *.
  destruct (@silent_jammer_full_success s (JammerPrevention.randn d) Hs
              (prevention_run_carrier es)) as [J [S10 V]].
  split; [ exact J | ]. split; [ exact S10 | ]. split; [ exact V | ].
  pose proof (prevention_run_invariant es) as I0. fold s in I0.
  pose proof (prevention_same_length I0) as L.
  unfold JammerPrevention.run_simulation_tick,
    JammerPrevention.run_simulation_body.
  destruct (JammerPrevention.generate_signal s (JammerPrevention.randn d)
              JammerPrevention.time_grid) as [signal jammer] eqn:G.
  cbn [fst snd] in V. cbv zeta.
  pose proof (record_sample_cases
                (JammerPrevention.now d - JammerPrevention.start_time s)
                (JammerPrevention.success_rate_of
                   (JammerPrevention.snr_of signal jammer)) s L) as RS.
  cbv zeta in RS.
  match type of RS with
  | _ = Ok ?x =>
      assert (I1 : prevention_invariant x)
        by (eapply record_sample_invariant;
            [ apply success_rate_of_percentage | exact I0 | exact RS ])
  end.
  rewrite RS. cbn [bind].
  rewrite (update_plots_in_step _ (prevention_same_length I1)). cbn [bind].
  eexists. split; [ reflexivity | ].
  cbn [JammerPrevention.success_rates JammerPrevention.log].
  rewrite V.
  destruct (Nat.ltb_spec JammerPrevention.capacity
              (length (JammerPrevention.success_times s
                         ++ [(JammerPrevention.now d
                              - JammerPrevention.start_time s)%R])))
    as [H | H];
    cbn [JammerPrevention.success_rates JammerPrevention.set_history].
  - apply last_tl_app. rewrite length_app in H. simpl length in H.
    unfold JammerPrevention.capacity in H. lia.
  - apply last_last.
Qed.

Lemma C10_silent_jammer_full_success_witness :
  JammerPrevention.jammer_strength
    (Worker.shared
       (Threads.prevention_run
          [Worker.Gui JammerPrevention.draws (JammerPrevention.MoveSlider 0)]
          Threads.prevention_init)) = 0%R
  /\ exists s',
       JammerPrevention.run_simulation_tick
         (JammerPrevention.mkDraws (fun _ => 1%R) 2)
         (Worker.shared
            (Threads.prevention_run
               [Worker.Gui JammerPrevention.draws
                  (JammerPrevention.MoveSlider 0)]
               Threads.prevention_init)) = Ok s'
       /\ last (JammerPrevention.success_rates s') 0%R = 100%R.
Proof.
  split; [ reflexivity | ].
  apply (@C10_silent_jammer_full_success
           [Worker.Gui JammerPrevention.draws (JammerPrevention.MoveSlider 0)]
           (JammerPrevention.mkDraws (fun _ => 1%R) 2) eq_refl).
Defined.

(** ** Stopping *)

Lemma simulate_packets_body_running (d : Jmch.draws) (s s' : Jmch.state) :
  Jmch.simulate_packets_body d s = Ok s' -> Jmch.running s' = Jmch.running s.
Proof.
  intros B.
  destruct (simulate_packets_body_cases d s) as [s3 [U K]].
  assert (R3 : Jmch.running s3 = Jmch.running s).
  { unfold Jmch.transmit_packet in U. cbv zeta in U.
    destruct (update_graph_counters _ U) as [_ [_ [_ [R _]]]].
    rewrite R. cbn [Jmch.running Jmch.set_time_counter].
    apply record_packet_counters. }
  destruct K as [[_ K] | [_ K]]; rewrite K in B.
  - destruct (check_for_jamming_effect _ _ B) as [_ [_ [_ R]]].
    rewrite R. exact R3.
  - injection B as <-. exact R3.
Qed.

Lemma run_simulation_tick_running
    (d : JammerPrevention.draws) (s s' : JammerPrevention.state) :
  JammerPrevention.run_simulation_tick d s = Ok s' ->
  JammerPrevention.running s' = JammerPrevention.running s.
Proof.
  intros E.
  unfold JammerPrevention.run_simulation_tick,
    JammerPrevention.run_simulation_body in E.
  destruct (JammerPrevention.generate_signal s (JammerPrevention.randn d)
              JammerPrevention.time_grid) as [signal jammer].
  cbv zeta in E. apply bind_ok in E. destruct E as [s1 [E1 E2]].
  apply bind_ok in E2. destruct E2 as [u [_ E2]].
  injection E2 as <-. cbn [JammerPrevention.running JammerPrevention.log].
  unfold JammerPrevention.record_sample in E1. cbv zeta in E1.
  destruct (_ <? _)%nat.
  - apply bind_ok in E1. destruct E1 as [ts [_ E1]].
    apply bind_ok in E1. destruct E1 as [xs [_ E1]].
    injection E1 as <-. reflexivity.
  - injection E1 as <-. reflexivity.
Qed.

Lemma execute_prevention_stopped
    (c : JammerPrevention.command) (s : JammerPrevention.state) :
  Threads.is_start c = false -> JammerPrevention.running s = false ->
  JammerPrevention.running (JammerPrevention.execute c s) = false.
Proof.
  intros N R.
  destruct c as [v | jt m | t | r | ]; cbn [JammerPrevention.execute];
    try exact R; try discriminate N; try reflexivity.
  destruct (JammerPrevention.apply_prevention r s) as [s' | e] eqn:E;
    [ | exact R ].
  destruct (apply_prevention_history _ _ E) as [_ [_ R']].
  rewrite R'. exact R.
Qed.



(** * Further properties *)

(** ** Threads under a condition on the events *)

Section WorkerOn.

Variables (S D C : Type).
Variable running : S -> bool.
Variable body : D -> S -> result S.
Variable execute : C -> S -> S.
Variable starts_thread : C -> S -> bool.
Variable Inv : S -> Prop.
Variable okd : D -> Prop.
Variable okc : C -> Prop.

Hypothesis body_inv :
  forall d s s', Inv s -> okd d -> body d s = Ok s' -> Inv s'.
Hypothesis execute_inv : forall c s, Inv s -> okc c -> Inv (execute c s).

Lemma step_invariant_on (e : Worker.event D C) (sys : Worker.system S) :
  event_ok okd okc e -> Inv (Worker.shared sys) ->
  Inv (Worker.shared (Worker.step running body execute starts_thread e sys)).
Proof.
  intros K I. destruct e as [i d | c]; simpl in *.
  - destruct (nth_error (Worker.threads sys) i) as [p | ]; [ | exact I ].
    destruct p; simpl.
    + destruct (running (Worker.shared sys)); exact I.
    + destruct (body d (Worker.shared sys)) as [s' | e] eqn:B; simpl;
        [ eapply body_inv; eassumption | exact I ].
    + exact I.
  - apply execute_inv; assumption.
Qed.

Lemma run_invariant_on (es : list (Worker.event D C))
    (sys : Worker.system S) :
  Forall (event_ok okd okc) es -> Inv (Worker.shared sys) ->
  Inv (Worker.shared (Worker.run running body execute starts_thread es sys)).
Proof.
  revert sys. induction es as [ | e es IH]; intros sys K I; simpl;
    [ exact I | ].
  inversion K as [ | e' es' Ke Kes ]; subst.
  apply IH; [ exact Kes | ]. apply step_invariant_on; assumption.
Qed.

Hypothesis body_total : forall d s, Inv s -> okd d -> succeeds (body d s).
Hypothesis inv_running : forall s, Inv s -> running s = true.

Lemma set_pc_alive (i : nat) (p : Worker.pc) (l : list Worker.pc) :
  alive p -> Forall alive l -> Forall alive (Worker.set_pc i p l).
Proof.
  intros P. revert i. induction l as [ | q l IH]; intros i F;
    destruct i as [ | i]; simpl; try constructor;
    inversion F; subst; auto.
Qed.

(** While the invariant keeps the flag up and the body returns normally, no
    thread leaves the loop. *)
Lemma run_alive (es : list (Worker.event D C)) (sys : Worker.system S) :
  Forall (event_ok okd okc) es -> Inv (Worker.shared sys) ->
  Forall alive (Worker.threads sys) ->
  Forall alive
    (Worker.threads (Worker.run running body execute starts_thread es sys)).
Proof.
  revert sys. induction es as [ | e es IH]; intros sys K I F; simpl;
    [ exact F | ].
  inversion K as [ | e' es' Ke Kes ]; subst.
  apply IH; [ exact Kes | apply step_invariant_on; assumption | ].
  destruct e as [i d | c]; simpl in *.
  - destruct (nth_error (Worker.threads sys) i) as [p | ] eqn:P;
      [ | exact F ].
    destruct p; simpl.
    + rewrite (inv_running I). simpl.
      apply set_pc_alive; [ discriminate | exact F ].
    + destruct (body_total I Ke) as [s' B]. rewrite B. simpl.
      apply set_pc_alive; [ discriminate | exact F ].
    + exfalso. apply nth_error_In in P.
      rewrite Forall_forall in F. apply (F _ P). reflexivity.
  - destruct (starts_thread c (Worker.shared sys)); [ | exact F ].
    apply Forall_app. split; [ exact F | ].
    constructor; [ discriminate | constructor ].
Qed.

End WorkerOn.

(** ** jmch.py: one pass through the loop, spelled out *)

Ltac jmch_fields :=
  cbn [Jmch.jammer_active Jmch.jammer_strength Jmch.sent Jmch.blocked
       Jmch.channel Jmch.running Jmch.success_rate_data Jmch.time_data
       Jmch.time_counter Jmch.output_box Jmch.result_label
       Jmch.set_counters Jmch.set_channel Jmch.set_jammer Jmch.set_running
       Jmch.set_graph Jmch.set_time_counter Jmch.log Jmch.set_result_label]
    in *.

(** The state in which line 128 tests the packet count, when the counters
    were non-negative before. *)
Lemma transmit_packet_exact (d : Jmch.draws) (s : Jmch.state) :
  (0 <= Jmch.sent s)%Z -> (0 <= Jmch.blocked s)%Z ->
  let b := Jmch.is_blocked (Jmch.uniform d) s in
  let sn := if b then Jmch.sent s else (Jmch.sent s + 1)%Z in
  let bl := if b then (Jmch.blocked s + 1)%Z else Jmch.blocked s in
  let line := if b then Jmch.PacketBlocked (Jmch.pkt_id d)
                          (Jmch.jammer_strength s)
              else Jmch.PacketSent (Jmch.pkt_id d) in
  let now := (Jmch.time_counter s + Jmch.delay d)%Q in
  Jmch.transmit_packet d s
  = Ok (Jmch.set_graph
          (Jmch.success_rate_data s
             ++ [(inject_Z (100 * sn) / inject_Z (sn + bl))%Q])
          (Jmch.time_data s ++ [now])
          (Jmch.set_time_counter now
             (Jmch.log line (Jmch.set_counters sn bl s)))).
Proof.
  intros Hs Hb. cbv zeta.
  unfold Jmch.transmit_packet, Jmch.record_packet. cbv zeta.
  destruct (Jmch.is_blocked (Jmch.uniform d) s);
    unfold Jmch.update_graph; cbv zeta; jmch_fields.
  - destruct (Z.gtb_spec (Jmch.sent s + (Jmch.blocked s + 1)) 0); [ | lia ].
    rewrite truediv_nonzero by lia. reflexivity.
  - destruct (Z.gtb_spec (Jmch.sent s + 1 + Jmch.blocked s) 0); [ | lia ].
    rewrite truediv_nonzero by lia. reflexivity.
Qed.

Lemma rate_below (a b c : Z) :
  (0 < b)%Z ->
  (inject_Z a / inject_Z b < inject_Z c)%Q <-> (a < c * b)%Z.
Proof.
  intros Pb.
  assert (P : (0 < inject_Z b)%Q).
  { change 0%Q with (inject_Z 0). rewrite <- Zlt_Qlt. exact Pb. }
  split; intros H.
  - destruct (Z.lt_ge_cases a (c * b)) as [L | G]; [ exact L | exfalso ].
    apply (Qlt_not_le _ _ H).
    apply Qle_shift_div_l; [ exact P | ].
    rewrite <- inject_Z_mult, <- Zle_Qle. exact G.
  - apply Qlt_shift_div_r; [ exact P | ].
    rewrite <- inject_Z_mult, <- Zlt_Qlt. exact H.
Qed.

Lemma rate_all_sent (n : Z) :
  (0 < n)%Z -> (inject_Z (100 * n) / inject_Z (n + 0) == 100)%Q.
Proof.
  intros P. rewrite Z.add_0_r, inject_Z_mult.
  apply Qdiv_mult_l.
  change 0%Q with (inject_Z 0). rewrite inject_Z_injective. lia.
Qed.

(** X1.  In every state jmch.py reaches, a pass through the loop evaluates
    exactly when the packet it counts is the tenth since the last evaluation;
    the evaluation then clears the counters and hops to another channel
    exactly when at least four of those ten packets were blocked.  A pass that
    counts fewer than ten packets ends in the state the packet left. *)
Theorem X1_hop_iff_four_of_ten_blocked
    (es : list (Worker.event Jmch.draws Jmch.command)) (d : Jmch.draws) :
  let s := Worker.shared (Threads.jmch_run es Threads.jmch_init) in
  exists s3 s',
    Jmch.transmit_packet d s = Ok s3
    /\ Jmch.simulate_packets_body d s = Ok s'
    /\ (((Jmch.sent s3 + Jmch.blocked s3 = Jmch.check_interval)%Z
         /\ Jmch.sent s' = 0%Z /\ Jmch.blocked s' = 0%Z
         /\ (Jmch.channel s' <> Jmch.channel s <-> (4 <= Jmch.blocked s3)%Z))
        \/ ((Jmch.sent s3 + Jmch.blocked s3 < Jmch.check_interval)%Z
            /\ s' = s3)).
Proof.
  cbv zeta.
  set (s := Worker.shared (Threads.jmch_run es Threads.jmch_init)).
  pose proof (jmch_run_invariant es) as I. fold s in I.
  destruct (simulate_packets_body_cases d s) as [s3 [U K]].
  destruct (transmit_packet_effect d I U) as [Ps [Pb [Pt _]]].
  assert (Ch : Jmch.channel s3 = Jmch.channel s).
  { rewrite (transmit_packet_exact d s (jmch_sent_nonneg I)
               (jmch_blocked_nonneg I)) in U.
    injection U as <-. reflexivity. }
  unfold Jmch.check_interval in *.
  destruct K as [[M K] | [M K]].
  - assert (T : (Jmch.sent s3 + Jmch.blocked s3 = 10)%Z).
    { destruct (Z.eq_dec (Jmch.sent s3 + Jmch.blocked s3) 10) as [E | N];
        [ exact E | ].
      rewrite Z.mod_small in M by lia. lia. }
    destruct (check_for_jamming_cases (Jmch.pick d) s3)
      as [rate [E [[L [ch [_ [N [_ C]]]]] | [G C]]]].
    + exists s3. eexists. split; [ exact U | ].
      split; [ rewrite K; exact C | ]. left. split; [ exact T | ].
      jmch_fields. split; [ reflexivity | ]. split; [ reflexivity | ].
      rewrite <- Ch. split; [ intros _ | intros _; exact N ].
      destruct (evaluated_success_rate_cases s3) as [[P0 E'] | [Z0 _]];
        cbv zeta in *; [ | lia ].
      assert (Er : rate = (inject_Z (100 * Jmch.sent s3)
                           / inject_Z (Jmch.sent s3 + Jmch.blocked s3))%Q)
        by congruence.
      rewrite Er in L.
      pose proof (proj1 (rate_below (100 * Jmch.sent s3) 70 P0) L) as L'.
      lia.
    + exists s3. eexists. split; [ exact U | ].
      split; [ rewrite K; exact C | ]. left. split; [ exact T | ].
      jmch_fields. split; [ reflexivity | ]. split; [ reflexivity | ].
      rewrite <- Ch. split; [ intros N; exfalso; apply N; reflexivity | ].
      intros B4. exfalso.
      destruct (evaluated_success_rate_cases s3) as [[P0 E'] | [Z0 _]];
        cbv zeta in *; [ | lia ].
      assert (Er : rate = (inject_Z (100 * Jmch.sent s3)
                           / inject_Z (Jmch.sent s3 + Jmch.blocked s3))%Q)
        by congruence.
      rewrite Er in G.
      apply (Qle_not_lt _ _ G).
      apply (proj2 (rate_below (100 * Jmch.sent s3) 70 P0)). lia.
  - exists s3, s3. split; [ exact U | ]. split; [ exact K | ].
    right. split; [ | reflexivity ].
    assert (Jmch.sent s3 + Jmch.blocked s3 <> 10)%Z
      by (intros E; apply M; rewrite E; reflexivity).
    lia.
Qed.

(** The whole pass, when fewer than ten packets were counted before. *)
Lemma simulate_packets_body_exact (d : Jmch.draws) (s s3 : Jmch.state) :
  jmch_invariant s -> Jmch.transmit_packet d s = Ok s3 ->
  Jmch.simulate_packets_body d s
  = if (Jmch.sent s3 + Jmch.blocked s3 =? Jmch.check_interval)%Z
    then Jmch.check_for_jamming (Jmch.pick d) s3
    else Ok s3.
Proof.
  intros I U.
  destruct (transmit_packet_effect d I U) as [_ [_ [Pt _]]].
  unfold Jmch.simulate_packets_body. rewrite U. cbn [bind].
  unfold Py.mod_. change (Jmch.check_interval =? 0)%Z with false.
  cbn [bind]. unfold Jmch.check_interval in *.
  destruct (Z.eqb_spec (Jmch.sent s3 + Jmch.blocked s3) 10) as [E | N].
  - rewrite E. reflexivity.
  - rewrite Z.mod_small by lia.
    destruct (Z.eqb_spec (Jmch.sent s3 + Jmch.blocked s3) 0); [ lia | ].
    reflexivity.
Qed.

(** ** jmch.py: the channel *)

Lemma simulate_packets_body_channel (d : Jmch.draws) (s s' : Jmch.state) :
  jmch_invariant s -> Jmch.simulate_packets_body d s = Ok s' ->
  Jmch.channel s' = Jmch.channel s
  \/ In (Jmch.channel s') Jmch.available_channels.
Proof.
  intros I B.
  pose proof (transmit_packet_exact d s (jmch_sent_nonneg I)
                (jmch_blocked_nonneg I)) as U. cbv zeta in U.
  rewrite (simulate_packets_body_exact d I U) in B.
  destruct (_ =? _)%Z.
  - match type of B with Jmch.check_for_jamming ?r ?x = _ =>
      destruct (check_for_jamming_cases r x)
        as [rate [_ [[_ [ch [A [_ [_ C]]]]] | [_ C]]]] end;
      rewrite C in B; injection B as <-.
    + right. exact A.
    + left. reflexivity.
  - injection B as <-. left. reflexivity.
Qed.

Lemma run_simulation_tick_channel
    (d : JammerPrevention.draws) (s s' : JammerPrevention.state) :
  JammerPrevention.run_simulation_tick d s = Ok s' ->
  JammerPrevention.channel s' = JammerPrevention.channel s.
Proof.
  intros E.
  unfold JammerPrevention.run_simulation_tick,
    JammerPrevention.run_simulation_body in E.
  destruct (JammerPrevention.generate_signal s (JammerPrevention.randn d)
              JammerPrevention.time_grid) as [signal jammer].
  cbv zeta in E. apply bind_ok in E. destruct E as [s1 [E1 E2]].
  apply bind_ok in E2. destruct E2 as [u [_ E2]].
  injection E2 as <-. cbn [JammerPrevention.channel JammerPrevention.log].
  unfold JammerPrevention.record_sample in E1. cbv zeta in E1.
  destruct (_ <? _)%nat.
  - apply bind_ok in E1. destruct E1 as [ts [_ E1]].
    apply bind_ok in E1. destruct E1 as [xs [_ E1]].
    injection E1 as <-. reflexivity.
  - injection E1 as <-. reflexivity.
Qed.

Lemma apply_prevention_channel (r : nat) (s s' : JammerPrevention.state) :
  JammerPrevention.apply_prevention r s = Ok s' ->
  JammerPrevention.channel s' = JammerPrevention.channel s
  \/ (In (JammerPrevention.channel s') Jmch.available_channels
      /\ JammerPrevention.channel s' <> JammerPrevention.channel s).
Proof.
  unfold JammerPrevention.apply_prevention. cbv zeta.
  destruct (String.eqb _ "Channel Hopping").
  { intros E. apply bind_ok in E. destruct E as [c [K E]].
    injection E as <-. right.
    apply choice_In in K. rewrite range_1_12 in K.
    apply (candidates_spec (JammerPrevention.channel s) c). exact K. }
  destruct (String.eqb _ "Spread Spectrum").
  { intros E. apply bind_ok in E. destruct E as [c [_ E]].
    injection E as <-. left. reflexivity. }
  destruct (String.eqb _ "Adaptive Filter");
    intros E; injection E as <-; left; reflexivity.
Qed.

(** X2.  The channel never leaves 1..11: in every state jmch.py reaches
    (it starts on channel 1) and in every state jammer+prevention.py reaches
    (it starts on channel 6), under any interleaving of loop steps and
    callbacks. *)
Theorem X2_channel_stays_in_range
    (es1 : list (Worker.event Jmch.draws Jmch.command))
    (es3 : list (Worker.event JammerPrevention.draws
                   JammerPrevention.command)) :
  (1 <= Jmch.channel
          (Worker.shared (Threads.jmch_run es1 Threads.jmch_init)) <= 11)%Z
  /\ (1 <= JammerPrevention.channel
             (Worker.shared
                (Threads.prevention_run es3 Threads.prevention_init))
      <= 11)%Z.
Proof.
  split.
  - assert (K : jmch_invariant
                  (Worker.shared (Threads.jmch_run es1 Threads.jmch_init))
                /\ (1 <= Jmch.channel
                           (Worker.shared
                              (Threads.jmch_run es1 Threads.jmch_init))
                    <= 11)%Z).
    { unfold Threads.jmch_run.
      apply run_invariant
        with (Inv := fun s => jmch_invariant s
                              /\ (1 <= Jmch.channel s <= 11)%Z).
      - intros d s s' [I C] B.
        split; [ exact (simulate_packets_body_invariant d I B) | ].
        destruct (simulate_packets_body_channel d I B) as [E | A].
        + rewrite E. exact C.
        + apply available_channels_bounds. exact A.
      - intros c s [I C].
        split; [ apply execute_jmch_invariant; exact I | ].
        destruct c; exact C.
      - split; [ apply jmch_init_invariant | simpl; lia ]. }
    apply K.
  - unfold Threads.prevention_run.
    apply run_invariant
      with (Inv := fun s => (1 <= JammerPrevention.channel s <= 11)%Z).
    + intros d s s' C B. rewrite (run_simulation_tick_channel _ _ B). exact C.
    + intros c s C.
      destruct c as [v | jt m | t | r | ]; cbn [JammerPrevention.execute];
        try exact C.
      * unfold JammerPrevention.start_simulation.
        destruct (JammerPrevention.running s); exact C.
      * destruct (JammerPrevention.apply_prevention r s) as [s' | e] eqn:E;
          [ | exact C ].
        destruct (apply_prevention_channel _ _ E) as [K | [A _]].
        -- rewrite K. exact C.
        -- apply available_channels_bounds. exact A.
    + simpl. lia.
Qed.

(** ** jmch.py: while the jammer is off *)

Lemma simulate_packets_body_quiet (d : Jmch.draws) (s s' : Jmch.state) :
  jmch_invariant s /\ jmch_quiet s ->
  Jmch.simulate_packets_body d s = Ok s' ->
  jmch_invariant s' /\ jmch_quiet s'.
Proof.
  intros [I [Qa Qb Qc Qg Qo Ql]] B.
  split; [ exact (simulate_packets_body_invariant d I B) | ].
  pose proof (transmit_packet_exact d s (jmch_sent_nonneg I)
                (jmch_blocked_nonneg I)) as U. cbv zeta in U.
  assert (Bf : Jmch.is_blocked (Jmch.uniform d) s = false)
    by (unfold Jmch.is_blocked; rewrite Qa; reflexivity).
  rewrite Bf in U.
  rewrite (simulate_packets_body_exact d I U) in B. jmch_fields.
  pose proof (jmch_sent_nonneg I) as Ps.
  assert (R100 : (inject_Z (100 * (Jmch.sent s + 1))
                  / inject_Z (Jmch.sent s + 1 + Jmch.blocked s) == 100)%Q)
    by (rewrite Qb; apply rate_all_sent; lia).
  assert (G' : Forall (fun q => (q == 100)%Q)
                 (Jmch.success_rate_data s
                    ++ [(inject_Z (100 * (Jmch.sent s + 1))
                         / inject_Z (Jmch.sent s + 1 + Jmch.blocked s))%Q])).
  { apply Forall_app. split; [ exact Qg | ].
    constructor; [ exact R100 | constructor ]. }
  assert (O' : Forall (fun m => is_hop m = false)
                 (Jmch.output_box s ++ [Jmch.PacketSent (Jmch.pkt_id d)])).
  { apply Forall_app. split; [ exact Qo | ].
    constructor; [ reflexivity | constructor ]. }
  destruct (_ =? _)%Z.
  - match type of B with Jmch.check_for_jamming ?r ?x = _ =>
      destruct (check_for_jamming_cases r x)
        as [rate [E [[L _] | [_ C]]]];
      destruct (evaluated_success_rate_cases x) as [[_ E'] | [Z0 _]]
    end; cbv zeta in *; jmch_fields; try lia.
    + exfalso.
      assert (Er : rate = (inject_Z (100 * (Jmch.sent s + 1))
                           / inject_Z (Jmch.sent s + 1 + Jmch.blocked s))%Q)
        by congruence.
      rewrite Er, R100 in L. discriminate L.
    + rewrite C in B. injection B as <-.
      constructor; jmch_fields; try assumption; try reflexivity.
      intros r0. discriminate.
  - injection B as <-. constructor; jmch_fields; assumption.
Qed.

(** X3.  As long as the jammer is never toggled on, jmch.py blocks no packet,
    every rate it plots equals 100, no evaluation reports jamming, the
    channel stays 1 and no hop is written to the console, whatever the draws
    and however the slider is moved. *)
Theorem X3_inactive_jammer_never_mitigates
    (es : list (Worker.event Jmch.draws Jmch.command))
    (H : Forall (event_ok (fun _ : Jmch.draws => True)
                   (fun c => c <> Jmch.ToggleJammer)) es) :
  let s := Worker.shared (Threads.jmch_run es Threads.jmch_init) in
  Jmch.jammer_active s = false
  /\ Jmch.blocked s = 0%Z
  /\ Forall (fun q => (q == 100)%Q) (Jmch.success_rate_data s)
  /\ Jmch.channel s = 1%Z
  /\ Forall (fun m => is_hop m = false) (Jmch.output_box s)
  /\ forall rate, Jmch.result_label s <> Jmch.JammingDetected rate.
Proof.
  cbv zeta.
  assert (K : jmch_invariant
                (Worker.shared (Threads.jmch_run es Threads.jmch_init))
              /\ jmch_quiet
                   (Worker.shared (Threads.jmch_run es Threads.jmch_init))).
  { unfold Threads.jmch_run.
    apply run_invariant_on
      with (Inv := fun s => jmch_invariant s /\ jmch_quiet s)
           (okd := fun _ : Jmch.draws => True)
           (okc := fun c => c <> Jmch.ToggleJammer).
    - intros d s s' Q _ B. exact (simulate_packets_body_quiet d Q B).
    - intros c s [I [Qa Qb Qc Qg Qo Ql]] N.
      split; [ apply execute_jmch_invariant; exact I | ].
      destruct c; [ contradiction | | ];
        constructor; jmch_fields; assumption.
    - exact H.
    - split; [ apply jmch_init_invariant | ].
      constructor; simpl; try reflexivity; try constructor. discriminate. }
  destruct K as [_ [Qa Qb Qc Qg Qo Ql]]. repeat split; assumption.
Qed.

Lemma X3_inactive_jammer_never_mitigates_witness :
  Forall (event_ok (fun _ : Jmch.draws => True)
            (fun c => c <> Jmch.ToggleJammer)) (jmch_passes 12)
  /\ Jmch.channel
       (Worker.shared (Threads.jmch_run (jmch_passes 12) Threads.jmch_init))
     = 1%Z.
Proof.
  assert (H : Forall (event_ok (fun _ : Jmch.draws => True)
                        (fun c => c <> Jmch.ToggleJammer)) (jmch_passes 12))
    by (unfold jmch_passes, jmch_pass; simpl; repeat constructor).
  split; [ exact H | ].
  apply (X3_inactive_jammer_never_mitigates H).
Defined.

(** ** jmch.py: the axes of the graph *)

Lemma sorted_snoc (l : list Q) (x : Q) :
  StronglySorted Qlt l -> Forall (fun t => (t < x)%Q) l ->
  StronglySorted Qlt (l ++ [x]).
Proof.
  induction 1 as [ | a l S IH F]; intros B; simpl.
  - constructor; constructor.
  - inversion B as [ | a' l' Ba Bl ]; subst.
    constructor; [ apply IH; exact Bl | ].
    apply Forall_app. split; [ exact F | ].
    constructor; [ exact Ba | constructor ].
Qed.

Lemma simulate_packets_body_graph (d : Jmch.draws) (s s' : Jmch.state) :
  jmch_invariant s -> Jmch.simulate_packets_body d s = Ok s' ->
  exists rate,
    Jmch.success_rate_data s' = Jmch.success_rate_data s ++ [rate]
    /\ Jmch.time_data s'
       = Jmch.time_data s ++ [(Jmch.time_counter s + Jmch.delay d)%Q]
    /\ Jmch.time_counter s' = (Jmch.time_counter s + Jmch.delay d)%Q.
Proof.
  intros I B.
  pose proof (transmit_packet_exact d s (jmch_sent_nonneg I)
                (jmch_blocked_nonneg I)) as U. cbv zeta in U.
  rewrite (simulate_packets_body_exact d I U) in B.
  destruct (_ =? _)%Z.
  - match type of B with Jmch.check_for_jamming ?r ?x = _ =>
      destruct (check_for_jamming_cases r x)
        as [rate [_ [[_ [ch [_ [_ [_ C]]]]] | [_ C]]]] end;
      rewrite C in B; injection B as <-; jmch_fields;
      eexists; repeat split; reflexivity.
  - injection B as <-. jmch_fields. eexists; repeat split; reflexivity.
Qed.

Lemma simulate_packets_body_axes (d : Jmch.draws) (s s' : Jmch.state) :
  jmch_invariant s /\ jmch_graph_axes s ->
  (0 < Jmch.delay d)%Q ->
  Jmch.simulate_packets_body d s = Ok s' ->
  jmch_invariant s' /\ jmch_graph_axes s'.
Proof.
  intros [I [L P S]] Pd B.
  split; [ exact (simulate_packets_body_invariant d I B) | ].
  destruct (simulate_packets_body_graph d I B) as [rate [Eg [Et Ec]]].
  constructor; rewrite ?Eg, ?Et, ?Ec.
  - rewrite !length_app, L. reflexivity.
  - apply Forall_app. split.
    + apply (Forall_impl _ (P := fun t => (t <= Jmch.time_counter s)%Q));
        [ | exact P ].
      intros t Ht. Lqa.lra.
    + constructor; [ apply Qle_refl | constructor ].
  - apply sorted_snoc; [ exact S | ].
    apply (Forall_impl _ (P := fun t => (t <= Jmch.time_counter s)%Q));
      [ | exact P ].
    intros t Ht. Lqa.lra.
Qed.

Lemma execute_jmch_axes (c : Jmch.command) (s : Jmch.state) :
  jmch_graph_axes s -> jmch_graph_axes (Jmch.execute c s).
Proof.
  intros [L P S]. destruct c; constructor; jmch_fields; assumption.
Qed.

Lemma jmch_init_axes : jmch_graph_axes Jmch.init.
Proof.
  constructor; simpl; try reflexivity; constructor.
Qed.

(** X4.  The two lists behind the graph of jmch.py always have the same
    length, one entry per packet plotted; and when every delay drawn is
    positive, as [random.uniform(0.2, 0.5)] makes it, the time axis is strictly
    increasing and no entry lies beyond the current time counter. *)
Theorem X4_graph_axes_in_step
    (es : list (Worker.event Jmch.draws Jmch.command)) :
  let s := Worker.shared (Threads.jmch_run es Threads.jmch_init) in
  length (Jmch.time_data s) = length (Jmch.success_rate_data s)
  /\ (Forall (event_ok (fun d => (0 < Jmch.delay d)%Q)
                (fun _ : Jmch.command => True)) es ->
      StronglySorted Qlt (Jmch.time_data s)
      /\ Forall (fun t => (t <= Jmch.time_counter s)%Q) (Jmch.time_data s)).
Proof.
  cbv zeta. split.
  - assert (K : jmch_invariant
                  (Worker.shared (Threads.jmch_run es Threads.jmch_init))
                /\ length (Jmch.time_data
                             (Worker.shared
                                (Threads.jmch_run es Threads.jmch_init)))
                   = length (Jmch.success_rate_data
                               (Worker.shared
                                  (Threads.jmch_run es Threads.jmch_init)))).
    { unfold Threads.jmch_run.
      apply run_invariant
        with (Inv := fun s => jmch_invariant s
                              /\ length (Jmch.time_data s)
                                 = length (Jmch.success_rate_data s)).
      - intros d s s' [I L] B.
        split; [ exact (simulate_packets_body_invariant d I B) | ].
        destruct (simulate_packets_body_graph d I B) as [rate [Eg [Et _]]].
        rewrite Eg, Et, !length_app, L. reflexivity.
      - intros c s [I L].
        split; [ apply execute_jmch_invariant; exact I | ].
        destruct c; exact L.
      - split; [ apply jmch_init_invariant | reflexivity ]. }
    apply K.
  - intros H.
    assert (K : jmch_invariant
                  (Worker.shared (Threads.jmch_run es Threads.jmch_init))
                /\ jmch_graph_axes
                     (Worker.shared (Threads.jmch_run es Threads.jmch_init))).
    { unfold Threads.jmch_run.
      apply run_invariant_on
        with (Inv := fun s => jmch_invariant s /\ jmch_graph_axes s)
             (okd := fun d => (0 < Jmch.delay d)%Q)
             (okc := fun _ : Jmch.command => True).
      - intros d s s' A Pd B. exact (simulate_packets_body_axes d A Pd B).
      - intros c s [I A] _.
        split; [ apply execute_jmch_invariant; exact I
               | apply execute_jmch_axes; exact A ].
      - exact H.
      - split; [ apply jmch_init_invariant | apply jmch_init_axes ]. }
    destruct K as [_ [_ P S]]. split; assumption.
Qed.

Lemma X4_graph_axes_in_step_witness :
  Forall (event_ok (fun d => (0 < Jmch.delay d)%Q)
            (fun _ : Jmch.command => True)) (jmch_passes 3)
  /\ StronglySorted Qlt
       (Jmch.time_data
          (Worker.shared (Threads.jmch_run (jmch_passes 3) Threads.jmch_init))).
Proof.
  assert (H : Forall (event_ok (fun d => (0 < Jmch.delay d)%Q)
                        (fun _ : Jmch.command => True)) (jmch_passes 3))
    by (unfold jmch_passes, jmch_pass; simpl; repeat constructor).
  split; [ exact H | ].
  apply (X4_graph_axes_in_step (jmch_passes 3)). exact H.
Defined.

(** ** jmch.py: the thread lives until the window closes *)

Section NoSpawn.

Variables (S D C : Type).
Variable running : S -> bool.
Variable body : D -> S -> result S.
Variable execute : C -> S -> S.

Lemma set_pc_length (i : nat) (p : Worker.pc) (l : list Worker.pc) :
  length (Worker.set_pc i p l) = length l.
Proof.
  revert i. induction l as [ | q l IH]; intros [ | i]; simpl;
    try reflexivity. rewrite IH. reflexivity.
Qed.

(** A program whose callbacks start no thread keeps the threads it has. *)
Lemma run_threads_length (es : list (Worker.event D C))
    (sys : Worker.system S) :
  length (Worker.threads
            (Worker.run running body execute (fun _ _ => false) es sys))
  = length (Worker.threads sys).
Proof.
  revert sys. induction es as [ | e es IH]; intros sys; simpl;
    [ reflexivity | ].
  rewrite IH. destruct e as [i d | c]; simpl; [ | reflexivity ].
  destruct (nth_error (Worker.threads sys) i) as [p | ]; [ | reflexivity ].
  destruct (Worker.work running body d p (Worker.shared sys)).
  simpl. apply set_pc_length.
Qed.

End NoSpawn.

(** X5.  Until the window is closed the thread of jmch.py never leaves its
    loop: the flag stays up, no pass through the body raises, and the one
    thread is at the loop test or inside the body, whatever the draws and
    however the jammer is toggled and the slider moved. *)
Theorem X5_thread_lives_until_close
    (es : list (Worker.event Jmch.draws Jmch.command))
    (H : Forall (event_ok (fun _ : Jmch.draws => True)
                   (fun c => c <> Jmch.CloseWindow)) es) :
  let sys := Threads.jmch_run es Threads.jmch_init in
  Jmch.running (Worker.shared sys) = true
  /\ (Worker.pc_of 0 sys = Some Worker.AtLoopTest
      \/ Worker.pc_of 0 sys = Some Worker.InBody)
  /\ length (Worker.threads sys) = 1%nat.
Proof.
  cbv zeta. unfold Threads.jmch_run.
  assert (Bi : forall d s s', Jmch.running s = true -> True ->
                              Jmch.simulate_packets_body d s = Ok s' ->
                              Jmch.running s' = true).
  { intros d s s' R _ B.
    rewrite (simulate_packets_body_running _ _ B). exact R. }
  assert (Ei : forall c s, Jmch.running s = true -> c <> Jmch.CloseWindow ->
                           Jmch.running (Jmch.execute c s) = true).
  { intros c s R N. destruct c; [ exact R | exact R | contradiction ]. }
  pose proof (@run_invariant_on _ _ _ Jmch.running
                Jmch.simulate_packets_body Jmch.execute (fun _ _ => false)
                (fun s => Jmch.running s = true) (fun _ => True)
                (fun c => c <> Jmch.CloseWindow) Bi Ei es Threads.jmch_init
                H eq_refl) as R.
  assert (A : Forall alive
                (Worker.threads
                   (Worker.run Jmch.running Jmch.simulate_packets_body
                      Jmch.execute (fun _ _ => false) es Threads.jmch_init))).
  { apply (@run_alive _ _ _ Jmch.running Jmch.simulate_packets_body
             Jmch.execute (fun _ _ => false)
             (fun s => Jmch.running s = true) (fun _ => True)
             (fun c => c <> Jmch.CloseWindow) Bi Ei).
    - intros d s _ _. apply simulate_packets_body_succeeds.
    - intros s Rs. exact Rs.
    - exact H.
    - reflexivity.
    - constructor; [ discriminate | constructor ]. }
  pose proof (run_threads_length Jmch.running Jmch.simulate_packets_body
                Jmch.execute es Threads.jmch_init) as L.
  split; [ exact R | ]. split; [ | exact L ].
  unfold Worker.pc_of.
  destruct (Worker.threads
              (Worker.run Jmch.running Jmch.simulate_packets_body
                 Jmch.execute (fun _ _ => false) es Threads.jmch_init))
    as [ | p [ | q l]]; simpl in L; try discriminate L.
  inversion A as [ | p' l' Ap _ ]; subst.
  destruct p; [ left | right | exfalso; apply Ap ]; reflexivity.
Qed.

Lemma X5_thread_lives_until_close_witness :
  Forall (event_ok (fun _ : Jmch.draws => True)
            (fun c => c <> Jmch.CloseWindow)) (jmch_passes 2)
  /\ Jmch.running
       (Worker.shared (Threads.jmch_run (jmch_passes 2) Threads.jmch_init))
     = true.
Proof.
  assert (H : Forall (event_ok (fun _ : Jmch.draws => True)
                        (fun c => c <> Jmch.CloseWindow)) (jmch_passes 2))
    by (unfold jmch_passes, jmch_pass; simpl; repeat constructor).
  split; [ exact H | ].
  apply (X5_thread_lives_until_close H).
Defined.

(** ** jammer.py *)

Ltac jammer_fields :=
  cbn [Jammer.jamming_mode Jammer.sent Jammer.blocked Jammer.time_counter
       Jammer.running Jammer.success_data Jammer.time_data Jammer.output_box
       Jammer.select_mode Jammer.on_closing Jammer.execute] in *.

Lemma getitem_known (t : list (string * Jammer.params)) (key : string) :
  (In key (map fst t) -> succeeds (Jammer.getitem t key))
  /\ (~ In key (map fst t) -> Jammer.getitem t key = Raise KeyError).
Proof.
  induction t as [ | [k v] t [IH1 IH2]]; simpl.
  - split; [ contradiction | reflexivity ].
  - destruct (String.eqb_spec k key) as [E | N].
    + split; [ intros _; eexists; reflexivity | ].
      intros H. exfalso. apply H. left. exact E.
    + split.
      * intros [E | I]; [ contradiction | exact (IH1 I) ].
      * intros H. apply IH2. intros I. apply H. right. exact I.
Qed.

(** One pass through the body, for a mode of the table. *)
Lemma simulate_tick_exact (d : Jammer.draws) (s : Jammer.state)
    (p : Jammer.params) :
  Jammer.getitem Jammer.simulation_params (Jammer.jamming_mode s) = Ok p ->
  (0 <= Jammer.sent s)%Z -> (0 <= Jammer.blocked s)%Z ->
  let b := Jammer.decide_blocked (Jammer.uniform d) p in
  let sn := if b then Jammer.sent s else (Jammer.sent s + 1)%Z in
  let bl := if b then (Jammer.blocked s + 1)%Z else Jammer.blocked s in
  let line := if b then Jammer.PacketBlocked (Jammer.pkt_id d)
                          (Jammer.jamming_mode s)
              else Jammer.PacketSent (Jammer.pkt_id d) in
  let now := PrimFloat.add (Jammer.time_counter s) Jammer.tick_period in
  Jammer.simulate_tick d s
  = Ok {| Jammer.jamming_mode := Jammer.jamming_mode s;
          Jammer.sent := sn;
          Jammer.blocked := bl;
          Jammer.time_counter := now;
          Jammer.running := Jammer.running s;
          Jammer.success_data :=
            Jammer.success_data s
              ++ [(inject_Z (100 * sn) / inject_Z (sn + bl))%Q];
          Jammer.time_data := Jammer.time_data s ++ [now];
          Jammer.output_box := Jammer.output_box s ++ [line] |}.
Proof.
  intros G Hs Hb. cbv zeta.
  unfold Jammer.simulate_tick, Jammer.simulate_body. rewrite G. cbn [bind].
  unfold Jammer.record_packet.
  destruct (Jammer.decide_blocked (Jammer.uniform d) p);
    unfold Jammer.update_success_plot; cbv zeta; jammer_fields.
  - destruct (Z.gtb_spec (Jammer.sent s + (Jammer.blocked s + 1)) 0);
      [ | lia ].
    rewrite truediv_nonzero by lia. reflexivity.
  - destruct (Z.gtb_spec (Jammer.sent s + 1 + Jammer.blocked s) 0);
      [ | lia ].
    rewrite truediv_nonzero by lia. reflexivity.
Qed.

(** X6.  A pass through the loop of jammer.py returns normally when the
    selected mode is one of the five keys of the table; for any other mode the
    lookup raises [KeyError] before anything is written, so the thread leaves
    the loop and the simulator's state is what it was. *)
Theorem X6_unknown_mode_ends_the_loop
    (d : Jammer.draws) (i : nat) (sys : Worker.system Jammer.state) :
  let s := Worker.shared sys in
  known_modes = ["None"; "Noise"; "Repeater"; "Tone"; "Pulsed"]%string
  /\ (In (Jammer.jamming_mode s) known_modes ->
      succeeds (Jammer.simulate_tick d s))
  /\ (~ In (Jammer.jamming_mode s) known_modes ->
      Jammer.simulate_tick d s = Raise KeyError
      /\ (Worker.pc_of i sys = Some Worker.InBody ->
          Worker.shared (jammer_step (Worker.Work Jammer.command i d) sys) = s
          /\ Worker.pc_of i
               (jammer_step (Worker.Work Jammer.command i d) sys)
             = Some Worker.Exited)).
Proof.
  cbv zeta. split; [ reflexivity | ].
  destruct (getitem_known Jammer.simulation_params
              (Jammer.jamming_mode (Worker.shared sys))) as [K1 K2].
  fold known_modes in K1, K2.
  split.
  - intros I. destruct (K1 I) as [p G].
    unfold Jammer.simulate_tick, Jammer.simulate_body. rewrite G.
    cbn [bind]. apply update_success_plot_succeeds.
  - intros N.
    assert (R : Jammer.simulate_tick d (Worker.shared sys) = Raise KeyError).
    { unfold Jammer.simulate_tick, Jammer.simulate_body.
      rewrite (K2 N). reflexivity. }
    split; [ exact R | ].
    unfold Worker.pc_of, jammer_step. intros P. simpl. rewrite P. simpl.
    rewrite R. simpl.
    split; [ reflexivity | ].
    rewrite nth_error_set_pc, Nat.eqb_refl, P. reflexivity.
Qed.

Lemma X6_unknown_mode_ends_the_loop_witness :
  ~ In "Sweep"%string known_modes
  /\ Jammer.simulate_tick (Jammer.mkDraws 1000 (1 # 2))
       (Jammer.select_mode "Sweep" Jammer.init) = Raise KeyError.
Proof.
  assert (N : ~ In (Jammer.jamming_mode
                      (Worker.shared
                         (Worker.mkSystem
                            (Jammer.select_mode "Sweep" Jammer.init)
                            [Worker.InBody]))) known_modes).
  { simpl. intros H.
    repeat (destruct H as [H | H]; [ discriminate H | ]). exact H. }
  split; [ exact N | ].
  apply (X6_unknown_mode_ends_the_loop (Jammer.mkDraws 1000 (1 # 2)) 0
           (Worker.mkSystem (Jammer.select_mode "Sweep" Jammer.init)
              [Worker.InBody])).
  exact N.
Defined.

Lemma simulate_tick_books (d : Jammer.draws) (s s' : Jammer.state) :
  jammer_invariant s /\ jammer_books s ->
  Jammer.simulate_tick d s = Ok s' ->
  jammer_invariant s' /\ jammer_books s'.
Proof.
  intros [I [Bs Bt Bc]] B.
  split; [ exact (simulate_tick_invariant d I B) | ].
  destruct I as [Hs Hb _].
  pose proof B as B0.
  unfold Jammer.simulate_tick, Jammer.simulate_body in B0.
  apply bind_ok in B0. destruct B0 as [p [G _]].
  rewrite (simulate_tick_exact d s G Hs Hb) in B. cbv zeta in B.
  injection B as <-.
  constructor; jammer_fields.
  - rewrite length_app. simpl length.
    destruct (Jammer.decide_blocked (Jammer.uniform d) p); lia.
  - rewrite !length_app, Bt. reflexivity.
  - rewrite Bc.
    assert (E : ((if Jammer.decide_blocked (Jammer.uniform d) p
                  then Jammer.sent s else Jammer.sent s + 1)
                 + (if Jammer.decide_blocked (Jammer.uniform d) p
                    then Jammer.blocked s + 1 else Jammer.blocked s))%Z
                = (Jammer.sent s + Jammer.blocked s + 1)%Z)
      by (destruct (Jammer.decide_blocked (Jammer.uniform d) p); lia).
    rewrite E.
    replace (Z.to_nat (Jammer.sent s + Jammer.blocked s + 1))
      with (S (Z.to_nat (Jammer.sent s + Jammer.blocked s))) by lia.
    reflexivity.
Qed.

(** X7.  jammer.py never resets its counters, so in every state it reaches
    the graph holds exactly one sample per packet counted since the start and
    its two lists have the same length; and its clock is the float 0.4 added
    once per packet counted, each sum rounded to binary64, which after ten
    packets is 3.9999999999999996 and not 4. *)
Theorem X7_one_sample_per_packet
    (es : list (Worker.event Jammer.draws Jammer.command)) :
  let s := Worker.shared (Threads.jammer_run es Threads.jammer_init) in
  Z.of_nat (length (Jammer.success_data s))
  = (Jammer.sent s + Jammer.blocked s)%Z
  /\ length (Jammer.time_data s) = length (Jammer.success_data s)
  /\ Jammer.time_counter s
     = clock_after (Z.to_nat (Jammer.sent s + Jammer.blocked s))
  /\ clock_after 10 = 0x1.fffffffffffffp+1%float
  /\ clock_after 10 <> 4%float.
Proof.
  cbv zeta.
  assert (K : jammer_invariant
                (Worker.shared (Threads.jammer_run es Threads.jammer_init))
              /\ jammer_books
                   (Worker.shared
                      (Threads.jammer_run es Threads.jammer_init))).
  { unfold Threads.jammer_run.
    apply run_invariant
      with (Inv := fun s => jammer_invariant s /\ jammer_books s).
    - intros d s s'. apply simulate_tick_books.
    - intros c s [[Hs Hb Hg] [Bs Bt Bc]].
      split; destruct c; constructor; jammer_fields; assumption.
    - split; constructor; simpl; try lia; try reflexivity. constructor. }
  destruct K as [_ [Bs Bt Bc]].
  split; [ exact Bs | ]. split; [ exact Bt | ]. split; [ exact Bc | ].
  split; [ vm_compute; reflexivity | vm_compute; discriminate ].
Qed.

Lemma simulate_tick_clean (d : Jammer.draws) (s s' : Jammer.state) :
  jammer_invariant s /\ jammer_clean s ->
  (0 <= Jammer.uniform d)%Q ->
  Jammer.simulate_tick d s = Ok s' ->
  jammer_invariant s' /\ jammer_clean s'.
Proof.
  intros [I [Cm Cb Cg]] Pu B.
  split; [ exact (simulate_tick_invariant d I B) | ].
  destruct I as [Hs Hb _].
  assert (G : Jammer.getitem Jammer.simulation_params (Jammer.jamming_mode s)
              = Ok (Jammer.mkParams 0 Jammer.clean_spectrum))
    by (rewrite Cm; reflexivity).
  rewrite (simulate_tick_exact d s G Hs Hb) in B. cbv zeta in B.
  assert (F : Jammer.decide_blocked (Jammer.uniform d)
                (Jammer.mkParams 0 Jammer.clean_spectrum) = false)
    by (apply ltb_false; exact Pu).
  rewrite F in B. injection B as <-.
  constructor; jammer_fields; try assumption.
  apply Forall_app. split; [ exact Cg | ].
  constructor; [ | constructor ].
  rewrite Cb. apply rate_all_sent. lia.
Qed.

(** X8.  While the mode of jammer.py stays "None", and whatever draws of
    [0,1) the generator returns, no packet is counted as blocked and every
    sample on the graph equals 100. *)
Theorem X8_mode_none_blocks_nothing
    (es : list (Worker.event Jammer.draws Jammer.command))
    (H : Forall (event_ok (fun d => (0 <= Jammer.uniform d)%Q) keeps_none)
           es) :
  let s := Worker.shared (Threads.jammer_run es Threads.jammer_init) in
  Jammer.blocked s = 0%Z
  /\ Forall (fun q => (q == 100)%Q) (Jammer.success_data s).
Proof.
  cbv zeta.
  assert (K : jammer_invariant
                (Worker.shared (Threads.jammer_run es Threads.jammer_init))
              /\ jammer_clean
                   (Worker.shared
                      (Threads.jammer_run es Threads.jammer_init))).
  { unfold Threads.jammer_run.
    apply run_invariant_on
      with (Inv := fun s => jammer_invariant s /\ jammer_clean s)
           (okd := fun d => (0 <= Jammer.uniform d)%Q)
           (okc := keeps_none).
    - intros d s s' A Pu B. exact (simulate_tick_clean d A Pu B).
    - intros c s [[Hs Hb Hg] [Cm Cb Cg]] Kc.
      split; destruct c; constructor; jammer_fields; assumption.
    - exact H.
    - split; constructor; simpl; try lia; try reflexivity; constructor. }
  destruct K as [_ [_ Cb Cg]]. split; assumption.
Qed.

Lemma X8_mode_none_blocks_nothing_witness :
  Forall (event_ok (fun d => (0 <= Jammer.uniform d)%Q) keeps_none)
    [Worker.Work Jammer.command 0 (Jammer.mkDraws 1000 (1 # 2));
     Worker.Work Jammer.command 0 (Jammer.mkDraws 1000 (1 # 2))]
  /\ Jammer.blocked
       (Worker.shared
          (Threads.jammer_run
             [Worker.Work Jammer.command 0 (Jammer.mkDraws 1000 (1 # 2));
              Worker.Work Jammer.command 0 (Jammer.mkDraws 1000 (1 # 2))]
             Threads.jammer_init)) = 0%Z.
Proof.
  assert (H : Forall (event_ok (fun d => (0 <= Jammer.uniform d)%Q)
                        keeps_none)
                [Worker.Work Jammer.command 0 (Jammer.mkDraws 1000 (1 # 2));
                 Worker.Work Jammer.command 0 (Jammer.mkDraws 1000 (1 # 2))])
    by (repeat constructor; simpl; discriminate).
  split; [ exact H | ].
  apply (X8_mode_none_blocks_nothing H).
Defined.

(** ** jammer+prevention.py: the three mitigations *)

Ltac prevention_fields :=
  cbn [JammerPrevention.jammer_strength JammerPrevention.fc
       JammerPrevention.channel JammerPrevention.running
       JammerPrevention.jammer_type_var JammerPrevention.prev_method_var
       JammerPrevention.success_times JammerPrevention.success_rates
       JammerPrevention.start_time JammerPrevention.console
       JammerPrevention.set_strength JammerPrevention.set_fc
       JammerPrevention.set_channel JammerPrevention.set_running
       JammerPrevention.set_selection JammerPrevention.set_history
       JammerPrevention.log] in *.

Lemma method_cases (m : string) :
  m = "Channel Hopping"%string \/ m = "Spread Spectrum"%string
  \/ m = "Adaptive Filter"%string \/ no_method m.
Proof.
  unfold no_method.
  destruct (string_dec m "Channel Hopping"); [ tauto | ].
  destruct (string_dec m "Spread Spectrum"); [ tauto | ].
  destruct (string_dec m "Adaptive Filter"); tauto.
Qed.

Lemma apply_prevention_no_method (r : nat) (s : JammerPrevention.state) :
  no_method (JammerPrevention.prev_method_var s) ->
  JammerPrevention.apply_prevention r s = Ok s.
Proof.
  intros [N1 [N2 N3]]. unfold JammerPrevention.apply_prevention. cbv zeta.
  apply String.eqb_neq in N1, N2, N3. rewrite N1, N2, N3. reflexivity.
Qed.

Lemma spread_spectrum_step (r : nat) (s : JammerPrevention.state) :
  JammerPrevention.prev_method_var s = "Spread Spectrum"%string ->
  exists f,
    Py.choice r spread_frequencies = Ok f
    /\ In f spread_frequencies
    /\ JammerPrevention.apply_prevention r s
       = Ok (JammerPrevention.log (JammerPrevention.SpreadSpectrum f)
               (JammerPrevention.set_fc f s)).
Proof.
  intros H.
  destruct (@choice_nonempty Z r spread_frequencies ltac:(discriminate))
    as [f [E I]].
  exists f. split; [ exact E | ]. split; [ exact I | ].
  unfold JammerPrevention.apply_prevention. cbv zeta. rewrite H.
  change (String.eqb "Spread Spectrum" "Channel Hopping") with false.
  change (String.eqb "Spread Spectrum" "Spread Spectrum") with true.
  cbv iota. fold spread_frequencies. rewrite E. reflexivity.
Qed.

Lemma channel_hopping_step (r : nat) (s : JammerPrevention.state) :
  JammerPrevention.prev_method_var s = "Channel Hopping"%string ->
  exists ch,
    In ch Jmch.available_channels /\ ch <> JammerPrevention.channel s
    /\ JammerPrevention.apply_prevention r s
       = Ok (JammerPrevention.log (JammerPrevention.ChannelHopping ch)
               (JammerPrevention.set_channel ch s)).
Proof.
  intros H.
  destruct (choice_nonempty r
              (candidates_nonempty (JammerPrevention.channel s)))
    as [ch [E I]].
  apply candidates_spec in I. destruct I as [I N].
  exists ch. split; [ exact I | ]. split; [ exact N | ].
  unfold JammerPrevention.apply_prevention. cbv zeta.
  rewrite H, String.eqb_refl, range_1_12.
  unfold Jmch.candidates in E. rewrite E. reflexivity.
Qed.

(** X9.  [apply_prevention] always returns normally and touches only what its
    method names: "Channel Hopping" changes the channel and leaves the centre
    frequency and the strength, "Spread Spectrum" sets the centre frequency to
    one of 40, 45, 50, 55, 60 and leaves the channel and the strength,
    "Adaptive Filter" changes the strength and leaves the channel and the
    frequency, each writing one console line; any other method changes
    nothing at all.  The flag, the selections and the history are never
    touched. *)
Theorem X9_mitigation_changes_one_parameter
    (r : nat) (s : JammerPrevention.state) :
  exists s',
    JammerPrevention.apply_prevention r s = Ok s'
    /\ same_session s s'
    /\ (JammerPrevention.prev_method_var s = "Channel Hopping"%string ->
        JammerPrevention.fc s' = JammerPrevention.fc s
        /\ JammerPrevention.jammer_strength s'
           = JammerPrevention.jammer_strength s
        /\ JammerPrevention.console s'
           = JammerPrevention.console s
               ++ [JammerPrevention.ChannelHopping
                     (JammerPrevention.channel s')])
    /\ (JammerPrevention.prev_method_var s = "Spread Spectrum"%string ->
        In (JammerPrevention.fc s') spread_frequencies
        /\ JammerPrevention.channel s' = JammerPrevention.channel s
        /\ JammerPrevention.jammer_strength s'
           = JammerPrevention.jammer_strength s
        /\ JammerPrevention.console s'
           = JammerPrevention.console s
               ++ [JammerPrevention.SpreadSpectrum (JammerPrevention.fc s')])
    /\ (JammerPrevention.prev_method_var s = "Adaptive Filter"%string ->
        JammerPrevention.channel s' = JammerPrevention.channel s
        /\ JammerPrevention.fc s' = JammerPrevention.fc s
        /\ JammerPrevention.console s'
           = JammerPrevention.console s
               ++ [JammerPrevention.AdaptiveFilter
                     (JammerPrevention.jammer_strength s')])
    /\ (no_method (JammerPrevention.prev_method_var s) -> s' = s).
Proof.
  destruct (method_cases (JammerPrevention.prev_method_var s))
    as [M | [M | [M | M]]].
  - destruct (channel_hopping_step r s M) as [ch [_ [_ E]]].
    eexists. split; [ exact E | ]. unfold same_session, no_method.
    prevention_fields. rewrite M.
    repeat split; try reflexivity; try discriminate; intros; tauto.
  - destruct (spread_spectrum_step r s M) as [f [_ [I E]]].
    eexists. split; [ exact E | ]. unfold same_session, no_method.
    prevention_fields. rewrite M.
    repeat split; try reflexivity; try discriminate; try assumption;
      intros; tauto.
  - eexists. split; [ exact (adaptive_filter_step r s M) | ].
    unfold same_session, no_method. prevention_fields. rewrite M.
    repeat split; try reflexivity; try discriminate; intros; tauto.
  - exists s. split; [ exact (apply_prevention_no_method r s M) | ].
    destruct M as [N1 [N2 N3]]. unfold same_session.
    repeat split; try reflexivity; intros; contradiction.
Qed.

Lemma X9_mitigation_changes_one_parameter_witness :
  exists s',
    JammerPrevention.apply_prevention 3
      (JammerPrevention.set_selection "Noise" "Spread Spectrum"
         JammerPrevention.init) = Ok s'
    /\ In (JammerPrevention.fc s') spread_frequencies.
Proof.
  destruct (X9_mitigation_changes_one_parameter 3
              (JammerPrevention.set_selection "Noise" "Spread Spectrum"
                 JammerPrevention.init))
    as [s' [E [_ [_ [S _]]]]].
  exists s'. split; [ exact E | ]. apply S. reflexivity.
Defined.

Lemma apply_prevention_frequency (r : nat) (s s' : JammerPrevention.state) :
  JammerPrevention.apply_prevention r s = Ok s' ->
  JammerPrevention.fc s' = JammerPrevention.fc s
  \/ In (JammerPrevention.fc s') spread_frequencies.
Proof.
  intros E.
  destruct (method_cases (JammerPrevention.prev_method_var s))
    as [M | [M | [M | M]]].
  - destruct (channel_hopping_step r s M) as [ch [_ [_ E']]].
    rewrite E' in E. injection E as <-. left. reflexivity.
  - destruct (spread_spectrum_step r s M) as [f [_ [I E']]].
    rewrite E' in E. injection E as <-. right. exact I.
  - rewrite (adaptive_filter_step r s M) in E. injection E as <-.
    left. reflexivity.
  - rewrite (apply_prevention_no_method r s M) in E. injection E as <-.
    left. reflexivity.
Qed.

Lemma prevention_run_frequency
    (es : list (Worker.event JammerPrevention.draws JammerPrevention.command)) :
  In (JammerPrevention.fc
        (Worker.shared (Threads.prevention_run es Threads.prevention_init)))
     spread_frequencies.
Proof.
  unfold Threads.prevention_run.
  apply run_invariant
    with (Inv := fun s => In (JammerPrevention.fc s) spread_frequencies).
  - intros d s s' F E. rewrite (run_simulation_tick_carrier _ _ E). exact F.
  - intros c s F.
    destruct c as [v | jt m | t | r | ]; cbn [JammerPrevention.execute];
      try exact F.
    + unfold JammerPrevention.start_simulation.
      destruct (JammerPrevention.running s); exact F.
    + destruct (JammerPrevention.apply_prevention r s) as [s' | e] eqn:E;
        [ | exact F ].
      destruct (apply_prevention_frequency _ _ E) as [K | K];
        [ rewrite K; exact F | exact K ].
  - simpl. tauto.
Qed.

Lemma choice_small (A : Type) (n : nat) (l : list A) (d : A) :
  (n < length l)%nat -> Py.choice n l = Ok (nth n l d).
Proof.
  intros L. destruct l as [ | a l]; [ simpl in L; lia | ].
  unfold Py.choice. rewrite Nat.mod_small by exact L.
  f_equal. apply nth_indep. exact L.
Qed.

(** X10.  Unlike a channel hop, a spread-spectrum action can leave things as
    they are: in every state jammer+prevention.py reaches with "Spread
    Spectrum" selected, the current centre frequency is itself one of the
    candidates, and some outcome of the generator re-selects it. *)
Theorem X10_spread_spectrum_may_keep_frequency
    (es : list (Worker.event JammerPrevention.draws JammerPrevention.command))
    (H : JammerPrevention.prev_method_var
           (Worker.shared
              (Threads.prevention_run es Threads.prevention_init))
         = "Spread Spectrum"%string) :
  let s := Worker.shared
             (Threads.prevention_run es Threads.prevention_init) in
  In (JammerPrevention.fc s) spread_frequencies
  /\ exists r s',
       JammerPrevention.apply_prevention r s = Ok s'
       /\ JammerPrevention.fc s' = JammerPrevention.fc s.
Proof.
  cbv zeta.
  set (s := Worker.shared
              (Threads.prevention_run es Threads.prevention_init)) in *.
  pose proof (prevention_run_frequency es) as F. fold s in F.
  split; [ exact F | ].
  destruct (In_nth _ _ 40%Z F) as [n [L E]].
  exists n.
  destruct (spread_spectrum_step n s H) as [f [C [_ A]]].
  eexists. split; [ exact A | ]. prevention_fields.
  rewrite (choice_small spread_frequencies 40%Z L) in C.
  congruence.
Qed.

Lemma X10_spread_spectrum_may_keep_frequency_witness :
  exists r s',
    JammerPrevention.apply_prevention r
      (Worker.shared
         (Threads.prevention_run
            [Worker.Gui JammerPrevention.draws
               (JammerPrevention.Select "Noise" "Spread Spectrum")]
            Threads.prevention_init)) = Ok s'
    /\ JammerPrevention.fc s' = 50%Z.
Proof.
  apply (@X10_spread_spectrum_may_keep_frequency
           [Worker.Gui JammerPrevention.draws
              (JammerPrevention.Select "Noise" "Spread Spectrum")] eq_refl).
Defined.

(** ** jammer+prevention.py: the loop body and the threads *)

Lemma pop0_after_append (A : Type) (l : list A) (x : A) :
  Py.pop0 (l ++ [x]) = Ok (tl (l ++ [x])).
Proof.
  destruct l; reflexivity.
Qed.

Lemma tl_after_append_length (A : Type) (l : list A) (x : A) :
  length (tl (l ++ [x])) = length l.
Proof.
  destruct l as [ | a l]; [ reflexivity | ].
  cbn [app tl]. rewrite length_app. simpl. lia.
Qed.

(** What [record_sample] returns, in any state: neither [pop(0)] raises,
    because each follows an append to the same list, and the two lists keep
    the difference of their lengths. *)
Lemma record_sample_total (t x : R) (s : JammerPrevention.state) :
  exists s1,
    JammerPrevention.record_sample t x s = Ok s1
    /\ (length (JammerPrevention.success_rates s1)
        = length (JammerPrevention.success_times s1)
        <-> length (JammerPrevention.success_rates s)
            = length (JammerPrevention.success_times s)).
Proof.
  unfold JammerPrevention.record_sample. cbv zeta.
  destruct (_ <? _)%nat.
  - rewrite !pop0_after_append. cbn [bind].
    eexists. split; [ reflexivity | ]. prevention_fields.
    rewrite !tl_after_append_length. tauto.
  - eexists. split; [ reflexivity | ]. prevention_fields.
    rewrite !length_app. simpl. lia.
Qed.

Lemma run_simulation_tick_in_step
    (d : JammerPrevention.draws) (s : JammerPrevention.state) :
  length (JammerPrevention.success_rates s)
  = length (JammerPrevention.success_times s) ->
  exists s',
    JammerPrevention.run_simulation_tick d s = Ok s'
    /\ length (JammerPrevention.success_rates s')
       = length (JammerPrevention.success_times s').
Proof.
  intros L.
  unfold JammerPrevention.run_simulation_tick,
    JammerPrevention.run_simulation_body.
  destruct (JammerPrevention.generate_signal s (JammerPrevention.randn d)
              JammerPrevention.time_grid) as [signal jammer].
  cbv zeta.
  match goal with |- context [JammerPrevention.record_sample ?t ?x s] =>
    destruct (record_sample_total t x s) as [s1 [E K]] end.
  rewrite E. cbn [bind].
  rewrite (update_plots_in_step s1 (proj2 K L)). cbn [bind].
  eexists. split; [ reflexivity | ]. prevention_fields. exact (proj2 K L).
Qed.

Lemma run_simulation_tick_out_of_step
    (d : JammerPrevention.draws) (s : JammerPrevention.state) :
  length (JammerPrevention.success_rates s)
  <> length (JammerPrevention.success_times s) ->
  JammerPrevention.run_simulation_tick d s = Raise ValueError.
Proof.
  intros N.
  unfold JammerPrevention.run_simulation_tick,
    JammerPrevention.run_simulation_body.
  destruct (JammerPrevention.generate_signal s (JammerPrevention.randn d)
              JammerPrevention.time_grid) as [signal jammer].
  cbv zeta.
  match goal with |- context [JammerPrevention.record_sample ?t ?x s] =>
    destruct (record_sample_total t x s) as [s1 [E K]] end.
  rewrite E. cbn [bind]. unfold JammerPrevention.update_plots.
  destruct (Nat.eqb_spec (length (JammerPrevention.success_times s1))
              (length (JammerPrevention.success_rates s1))) as [Q | _];
    [ | reflexivity ].
  exfalso. apply N. apply K. symmetry. exact Q.
Qed.



Section Growing.

Variables (S D C : Type).
Variable running : S -> bool.
Variable body : D -> S -> result S.
Variable execute : C -> S -> S.
Variable starts_thread : C -> S -> bool.

(** Threads are only ever added. *)
Lemma run_threads_grow (es : list (Worker.event D C))
    (sys : Worker.system S) :
  (length (Worker.threads sys)
   <= length (Worker.threads
                (Worker.run running body execute starts_thread es sys)))%nat.
Proof.
  revert sys. induction es as [ | e es IH]; intros sys; simpl; [ lia | ].
  eapply Nat.le_trans; [ | apply IH ].
  destruct e as [i d | c]; simpl.
  - destruct (nth_error (Worker.threads sys) i) as [p | ]; [ | lia ].
    destruct (Worker.work running body d p (Worker.shared sys)).
    simpl. rewrite set_pc_length. lia.
  - destruct (starts_thread c (Worker.shared sys)); [ | lia ].
    rewrite length_app. simpl. lia.
Qed.

End Growing.

Lemma execute_prevention_running
    (c : JammerPrevention.command) (s : JammerPrevention.state) :
  JammerPrevention.running s = true -> not_stop c ->
  JammerPrevention.running (JammerPrevention.execute c s) = true.
Proof.
  intros R N.
  destruct c as [v | jt m | t | r | ]; cbn [JammerPrevention.execute];
    try exact R.
  - unfold JammerPrevention.start_simulation. rewrite R. exact R.
  - destruct (JammerPrevention.apply_prevention r s) as [s' | e] eqn:E;
      [ | exact R ].
    destruct (apply_prevention_history _ _ E) as [_ [_ R']].
    rewrite R'. exact R.
  - exfalso. apply N. reflexivity.
Qed.



(** ** jammer+prevention.py: the waveforms *)

Lemma total_square_scaled (c : R) (f : R -> R) (l : list R) :
  JammerPrevention.total
    (JammerPrevention.square (map (fun x => (c * f x)%R) l))
  = (c * c * JammerPrevention.total (JammerPrevention.square (map f l)))%R.
Proof.
  induction l as [ | a l IH]; cbn [map].
  - unfold JammerPrevention.total, JammerPrevention.square. simpl. lra.
  - rewrite !total_square_cons, IH. ring.
Qed.

Lemma mean_square_nonneg (l : list R) :
  (0 < length l)%nat ->
  (0 <= JammerPrevention.mean (JammerPrevention.square l))%R.
Proof.
  intros P. unfold JammerPrevention.mean. rewrite square_length.
  unfold Rdiv. apply Rmult_le_pos; [ apply total_square_nonneg | ].
  left. apply Rinv_0_lt_compat. apply lt_0_INR. exact P.
Qed.

(** X13.  Under "Tone" jamming the interference is the clean signal scaled by
    the jammer strength, so whatever the carrier the signal-to-noise ratio is
    below 1/strength^2 and the success rate below 10/strength^2 percent: at
    the initial strength 5, below 0.4 percent. *)
Theorem X13_tone_jamming_bound
    (s : JammerPrevention.state) (randn : nat -> R)
    (Ht : JammerPrevention.jammer_type_var s = "Tone"%string)
    (Hs : JammerPrevention.jammer_strength s <> 0%R) :
  let c := JammerPrevention.jammer_strength s in
  let signal := fst (JammerPrevention.generate_signal s randn
                       JammerPrevention.time_grid) in
  let jammer := snd (JammerPrevention.generate_signal s randn
                       JammerPrevention.time_grid) in
  jammer = map (fun x => (c * x)%R) signal
  /\ (0 <= JammerPrevention.snr_of signal jammer < 1 / (c * c))%R
  /\ (JammerPrevention.success_rate_of (JammerPrevention.snr_of signal jammer)
      < 10 / (c * c))%R.
Proof.
  cbv zeta. unfold JammerPrevention.generate_signal. cbv zeta.
  rewrite Ht.
  change (String.eqb "Tone" "Noise") with false.
  change (String.eqb "Tone" "Tone") with true.
  cbv iota. cbn [fst snd].
  set (c := JammerPrevention.jammer_strength s) in *.
  set (f := fun x : R => sin (2 * PI * IZR (JammerPrevention.fc s) * x)).
  split; [ rewrite map_map; reflexivity | ].
  assert (Sn : (0 <= JammerPrevention.snr_of
                        (map f JammerPrevention.time_grid)
                        (map (fun x => (c * f x)%R) JammerPrevention.time_grid)
                < 1 / (c * c))%R).
  { unfold JammerPrevention.snr_of.
    assert (M : (0 <= JammerPrevention.mean
                        (JammerPrevention.square
                           (map f JammerPrevention.time_grid)))%R).
    { apply mean_square_nonneg. rewrite length_map, time_grid_length.
      unfold JammerPrevention.n_samples. lia. }
    assert (J : JammerPrevention.mean
                  (JammerPrevention.square
                     (map (fun x => (c * f x)%R) JammerPrevention.time_grid))
                = (c * c * JammerPrevention.mean
                             (JammerPrevention.square
                                (map f JammerPrevention.time_grid)))%R).
    { unfold JammerPrevention.mean.
      rewrite total_square_scaled, !square_length, !length_map.
      unfold Rdiv. ring. }
    rewrite J.
    set (m := JammerPrevention.mean _) in *.
    assert (C2 : (0 < c * c)%R) by nra.
    assert (D : (0 < c * c * m + 1 / 1000000)%R) by nra.
    split.
    - unfold Rdiv at 1. apply Rmult_le_pos; [ exact M | ].
      left. apply Rinv_0_lt_compat. exact D.
    - assert (E : (m / (c * c * m + 1 / 1000000)
                   = 1 / (c * c)
                     - (1 / 1000000)
                       / ((c * c * m + 1 / 1000000) * (c * c)))%R)
        by (field; split; lra).
      rewrite E.
      assert (P : (0 < (1 / 1000000)
                       / ((c * c * m + 1 / 1000000) * (c * c)))%R).
      { apply Rdiv_lt_0_compat; [ lra | ].
        apply Rmult_lt_0_compat; assumption. }
      lra. }
  split; [ exact Sn | ].
  set (x := JammerPrevention.snr_of _ _) in *.
  unfold JammerPrevention.success_rate_of, JammerPrevention.clip.
  rewrite (Rmax_left (x / 10) 0) by lra.
  pose proof (Rmin_l (x / 10) 1) as L.
  unfold Rdiv in *. lra.
Qed.

Lemma X13_tone_jamming_bound_witness :
  (JammerPrevention.success_rate_of
     (JammerPrevention.snr_of
        (fst (JammerPrevention.generate_signal
                (JammerPrevention.set_selection "Tone" "Adaptive Filter"
                   JammerPrevention.init)
                (fun _ => 0%R) JammerPrevention.time_grid))
        (snd (JammerPrevention.generate_signal
                (JammerPrevention.set_selection "Tone" "Adaptive Filter"
                   JammerPrevention.init)
                (fun _ => 0%R) JammerPrevention.time_grid)))
   < 10 / (5 * 5))%R.
Proof.
  assert (Hs : JammerPrevention.jammer_strength
                 (JammerPrevention.set_selection "Tone" "Adaptive Filter"
                    JammerPrevention.init) <> 0%R)
    by (simpl; lra).
  apply (@X13_tone_jamming_bound
           (JammerPrevention.set_selection "Tone" "Adaptive Filter"
              JammerPrevention.init) (fun _ => 0%R) eq_refl Hs).
Defined.

(** The interference is the jammer strength times a waveform that does not
    depend on the strength. *)
Lemma jammer_scales (s : JammerPrevention.state) (c : R) (randn : nat -> R) :
  snd (JammerPrevention.generate_signal (JammerPrevention.set_strength c s)
         randn JammerPrevention.time_grid)
  = map (fun w => (c * w)%R)
        (snd (JammerPrevention.generate_signal
                (JammerPrevention.set_strength 1 s) randn
                JammerPrevention.time_grid)).
Proof.
  unfold JammerPrevention.generate_signal. cbv zeta. cbn [snd].
  prevention_fields.
  repeat match goal with
         | |- context [if String.eqb ?a ?b then _ else _] =>
             destruct (String.eqb a b)
         end;
    rewrite map_map; apply map_ext; intros a; try ring.
  destruct (_ =? _)%nat; ring.
Qed.

Lemma signal_ignores_strength (s : JammerPrevention.state) (c : R)
    (randn : nat -> R) :
  fst (JammerPrevention.generate_signal (JammerPrevention.set_strength c s)
         randn JammerPrevention.time_grid)
  = fst (JammerPrevention.generate_signal s randn JammerPrevention.time_grid).
Proof. reflexivity. Qed.

Lemma generate_signal_lengths (s : JammerPrevention.state)
    (randn : nat -> R) :
  length (fst (JammerPrevention.generate_signal s randn
                 JammerPrevention.time_grid)) = JammerPrevention.n_samples
  /\ length (snd (JammerPrevention.generate_signal s randn
                    JammerPrevention.time_grid))
     = JammerPrevention.n_samples.
Proof.
  unfold JammerPrevention.generate_signal. cbv zeta. cbn [fst snd].
  split; [ rewrite length_map; apply time_grid_length | ].
  repeat match goal with
         | |- context [if String.eqb ?a ?b then _ else _] =>
             destruct (String.eqb a b)
         end;
    rewrite length_map, ?length_seq; apply time_grid_length.
Qed.

Lemma success_rate_of_monotone (x y : R) :
  (x <= y)%R ->
  (JammerPrevention.success_rate_of x
   <= JammerPrevention.success_rate_of y)%R.
Proof.
  intros H. unfold JammerPrevention.success_rate_of, JammerPrevention.clip.
  assert (M : (Rmin (Rmax (x / 10) 0) 1 <= Rmin (Rmax (y / 10) 0) 1)%R).
  { apply Rle_min_compat_r. apply Rle_max_compat_r. lra. }
  lra.
Qed.

Lemma tick_success_rate_scaled (s : JammerPrevention.state) (c : R)
    (randn : nat -> R) :
  let m := JammerPrevention.mean
             (JammerPrevention.square
                (fst (JammerPrevention.generate_signal s randn
                        JammerPrevention.time_grid))) in
  let q := JammerPrevention.mean
             (JammerPrevention.square
                (snd (JammerPrevention.generate_signal
                        (JammerPrevention.set_strength 1 s) randn
                        JammerPrevention.time_grid))) in
  (0 <= m)%R /\ (0 <= q)%R
  /\ tick_success_rate (JammerPrevention.set_strength c s) randn
     = JammerPrevention.success_rate_of (m / (c * c * q + 1 / 1000000)).
Proof.
  cbv zeta.
  destruct (generate_signal_lengths s randn) as [L1 _].
  destruct (generate_signal_lengths (JammerPrevention.set_strength 1 s) randn)
    as [_ L2].
  split; [ apply mean_square_nonneg; rewrite L1;
           unfold JammerPrevention.n_samples; lia | ].
  split; [ apply mean_square_nonneg; rewrite L2;
           unfold JammerPrevention.n_samples; lia | ].
  unfold tick_success_rate, JammerPrevention.snr_of.
  rewrite signal_ignores_strength, jammer_scales.
  f_equal. f_equal. f_equal.
  unfold JammerPrevention.mean.
  rewrite (total_square_scaled c (fun w => w)), map_id.
  rewrite !square_length, length_map. unfold Rdiv. ring.
Qed.

(** X15.  In every jamming mode, with the same carrier and the same noise
    samples, a stronger jammer never gives a higher success rate; so an
    adaptive-filter action, which lowers a non-negative strength to 0.7 times
    its value, never lowers the success rate of the next pass. *)
Theorem X15_stronger_jammer_lower_rate
    (s : JammerPrevention.state) (c1 c2 : R) (randn : nat -> R) (r : nat)
    (H : (0 <= c1 <= c2)%R) :
  (tick_success_rate (JammerPrevention.set_strength c2 s) randn
   <= tick_success_rate (JammerPrevention.set_strength c1 s) randn)%R
  /\ (JammerPrevention.prev_method_var s = "Adaptive Filter"%string ->
      exists s',
        JammerPrevention.apply_prevention r
          (JammerPrevention.set_strength c2 s) = Ok s'
        /\ (tick_success_rate (JammerPrevention.set_strength c2 s) randn
            <= tick_success_rate s' randn)%R).
Proof.
  assert (Mono : forall a b, (0 <= a <= b)%R ->
                 (tick_success_rate (JammerPrevention.set_strength b s) randn
                  <= tick_success_rate (JammerPrevention.set_strength a s)
                       randn)%R).
  { intros a b Hab.
    destruct (tick_success_rate_scaled s a randn) as [M [Q Ea]].
    destruct (tick_success_rate_scaled s b randn) as [_ [_ Eb]].
    cbv zeta in *. rewrite Ea, Eb.
    set (m := JammerPrevention.mean
                (JammerPrevention.square
                   (fst (JammerPrevention.generate_signal s randn
                           JammerPrevention.time_grid)))) in *.
    set (q := JammerPrevention.mean
                (JammerPrevention.square
                   (snd (JammerPrevention.generate_signal
                           (JammerPrevention.set_strength 1 s) randn
                           JammerPrevention.time_grid)))) in *.
    apply success_rate_of_monotone.
    assert (A2 : (0 <= a * a <= b * b)%R) by nra.
    assert (Aq : (0 <= a * a * q)%R)
      by (apply Rmult_le_pos; [ apply A2 | exact Q ]).
    assert (Bq : (a * a * q <= b * b * q)%R)
      by (apply Rmult_le_compat_r; [ exact Q | apply A2 ]).
    assert (Da : (0 < a * a * q + 1 / 1000000)%R) by lra.
    assert (Db : (a * a * q + 1 / 1000000 <= b * b * q + 1 / 1000000)%R)
      by lra.
    unfold Rdiv at 1 3. apply Rmult_le_compat_l; [ exact M | ].
    apply Rinv_le_contravar; assumption. }
  split; [ apply Mono; exact H | ].
  intros Hm.
  rewrite (adaptive_filter_step r (JammerPrevention.set_strength c2 s) Hm).
  eexists. split; [ reflexivity | ].
  prevention_fields.
  change (tick_success_rate
            (JammerPrevention.log
               (JammerPrevention.AdaptiveFilter (c2 * (7 / 10)))
               (JammerPrevention.set_strength (c2 * (7 / 10))
                  (JammerPrevention.set_strength c2 s))) randn)
    with (tick_success_rate
            (JammerPrevention.set_strength (c2 * (7 / 10)) s) randn).
  apply Mono. lra.
Qed.

Lemma X15_stronger_jammer_lower_rate_witness :
  (tick_success_rate (JammerPrevention.set_strength 5 JammerPrevention.init)
     (fun _ => 1%R)
   <= tick_success_rate (JammerPrevention.set_strength 2 JammerPrevention.init)
        (fun _ => 1%R))%R.
Proof.
  assert (H : (0 <= 2 <= 5)%R) by lra.
  apply (@X15_stronger_jammer_lower_rate JammerPrevention.init 2 5
           (fun _ => 1%R) 0 H).
Defined.

(** ** jammer.py: the newest sample *)

Lemma simulate_tick_newest (d : Jammer.draws) (s s' : Jammer.state) :
  jammer_invariant s -> Jammer.simulate_tick d s = Ok s' ->
  jammer_newest s'.
Proof.
  intros [Hs Hb _] B.
  pose proof B as B0.
  unfold Jammer.simulate_tick, Jammer.simulate_body in B0.
  apply bind_ok in B0. destruct B0 as [p [G _]].
  rewrite (simulate_tick_exact d s G Hs Hb) in B. cbv zeta in B.
  injection B as <-. right. jammer_fields.
  split; [ destruct (Jammer.decide_blocked (Jammer.uniform d) p); lia | ].
  apply last_last.
Qed.

(** X16.  What jammer.py plots is the success rate over all packets since
    the start: in every state it reaches, either nothing has been counted and
    the graph is empty, or the newest sample is 100 * sent / (sent + blocked)
    of the present counters. *)
Theorem X16_graph_shows_cumulative_rate
    (es : list (Worker.event Jammer.draws Jammer.command)) :
  let s := Worker.shared (Threads.jammer_run es Threads.jammer_init) in
  (Jammer.success_data s = []
   /\ (Jammer.sent s + Jammer.blocked s = 0)%Z)
  \/ ((0 < Jammer.sent s + Jammer.blocked s)%Z
      /\ last (Jammer.success_data s) 0%Q
         = (inject_Z (100 * Jammer.sent s)
            / inject_Z (Jammer.sent s + Jammer.blocked s))%Q).
Proof.
  cbv zeta.
  assert (K : jammer_invariant
                (Worker.shared (Threads.jammer_run es Threads.jammer_init))
              /\ jammer_newest
                   (Worker.shared
                      (Threads.jammer_run es Threads.jammer_init))).
  { unfold Threads.jammer_run.
    apply run_invariant
      with (Inv := fun s => jammer_invariant s /\ jammer_newest s).
    - intros d s s' [I _] B.
      split; [ exact (simulate_tick_invariant d I B)
             | exact (simulate_tick_newest d I B) ].
    - intros c s [[Hs Hb Hg] N].
      split; [ destruct c; constructor; jammer_fields; assumption | ].
      destruct c; exact N.
    - split; [ constructor; simpl; try lia; constructor | ].
      left. split; reflexivity. }
  exact (proj2 K).
Qed.

(** ** jammer+prevention.py: pulsed interference *)

Lemma total_square_app (l1 l2 : list R) :
  JammerPrevention.total (JammerPrevention.square (l1 ++ l2))
  = (JammerPrevention.total (JammerPrevention.square l1)
     + JammerPrevention.total (JammerPrevention.square l2))%R.
Proof.
  induction l1 as [ | a l1 IH]; cbn [app].
  - unfold JammerPrevention.total at 2, JammerPrevention.square at 2.
    simpl. lra.
  - rewrite !total_square_cons, IH. ring.
Qed.

(** Fifty consecutive samples starting at a multiple of 50 hold one pulse. *)
Lemma pulse_block (a : R) (b : nat) :
  JammerPrevention.total
    (JammerPrevention.square
       (map (fun k => if (k mod 50 =? 0)%nat then a else 0%R)
            (seq (50 * b) 50)))
  = (a * a)%R.
Proof.
  rewrite <- (cons_seq 49 (50 * b)). cbn [map].
  rewrite total_square_cons.
  replace ((50 * b) mod 50)%nat with 0%nat
    by (rewrite Nat.mul_comm, Nat.Div0.mod_mul; reflexivity).
  cbn [Nat.eqb].
  rewrite (map_ext_in _ (fun _ => 0%R)).
  - rewrite map_all_zero by reflexivity. rewrite total_square_zero. lra.
  - intros k I. apply in_seq in I.
    replace k with ((k - 50 * b) + b * 50)%nat by lia.
    rewrite Nat.Div0.mod_add, Nat.mod_small by lia.
    destruct (Nat.eqb_spec (k - 50 * b) 0); [ lia | reflexivity ].
Qed.

Lemma pulse_train (a : R) (b : nat) :
  JammerPrevention.total
    (JammerPrevention.square
       (map (fun k => if (k mod 50 =? 0)%nat then a else 0%R)
            (seq 0 (50 * b))))
  = (INR b * (a * a))%R.
Proof.
  induction b as [ | b IH].
  - rewrite Nat.mul_0_r. simpl. unfold JammerPrevention.total. simpl. lra.
  - rewrite Nat.mul_succ_r, seq_app, map_app, total_square_app, IH.
    rewrite Nat.add_0_l, pulse_block, S_INR. ring.
Qed.

Lemma clean_signal_power_at_most_one (s : JammerPrevention.state)
    (randn : nat -> R) :
  (0 <= JammerPrevention.mean
          (JammerPrevention.square
             (fst (JammerPrevention.generate_signal s randn
                     JammerPrevention.time_grid)))
   <= 1)%R.
Proof.
  destruct (generate_signal_lengths s randn) as [L _].
  split.
  { apply mean_square_nonneg. rewrite L.
    unfold JammerPrevention.n_samples. lia. }
  unfold JammerPrevention.mean. rewrite square_length, L.
  assert (B : forall l : list R,
             (JammerPrevention.total
                (JammerPrevention.square
                   (map (fun x => sin (2 * PI * IZR (JammerPrevention.fc s)
                                       * x)) l))
              <= INR (length l))%R).
  { induction l as [ | a l IH]; cbn [map length].
    - unfold JammerPrevention.total. simpl. lra.
    - rewrite total_square_cons, S_INR.
      pose proof (SIN_bound (2 * PI * IZR (JammerPrevention.fc s) * a)) as Sb.
      nra. }
  specialize (B JammerPrevention.time_grid). rewrite time_grid_length in B.
  unfold JammerPrevention.generate_signal. cbv zeta. cbn [fst].
  assert (P : (0 < INR JammerPrevention.n_samples)%R)
    by (apply lt_0_INR; unfold JammerPrevention.n_samples; lia).
  apply (Rmult_le_reg_r (INR JammerPrevention.n_samples)); [ exact P | ].
  unfold Rdiv. rewrite Rmult_assoc, Rinv_l by lra. lra.
Qed.

(** X17.  Under "Pulsed" jamming 20 of the 1000 samples carry twice the
    jammer strength and the others are zero, so the mean power of the
    interference is exactly 0.08 * strength^2; as the clean signal's mean
    power is at most 1, the success rate is at most 125/strength^2 percent
    (5 percent at the initial strength 5). *)
Theorem X17_pulsed_interference_power
    (s : JammerPrevention.state) (randn : nat -> R)
    (Ht : JammerPrevention.jammer_type_var s = "Pulsed"%string)
    (Hs : JammerPrevention.jammer_strength s <> 0%R) :
  let c := JammerPrevention.jammer_strength s in
  let jammer := snd (JammerPrevention.generate_signal s randn
                       JammerPrevention.time_grid) in
  JammerPrevention.mean (JammerPrevention.square jammer)
  = (8 / 100 * (c * c))%R
  /\ (tick_success_rate s randn <= 125 / (c * c))%R.
Proof.
  cbv zeta.
  assert (J : JammerPrevention.mean
                (JammerPrevention.square
                   (snd (JammerPrevention.generate_signal s randn
                           JammerPrevention.time_grid)))
              = (8 / 100 * (JammerPrevention.jammer_strength s
                            * JammerPrevention.jammer_strength s))%R).
  { unfold JammerPrevention.generate_signal. cbv zeta. cbn [snd].
    rewrite Ht.
    change (String.eqb "Pulsed" "Noise") with false.
    change (String.eqb "Pulsed" "Tone") with false.
    change (String.eqb "Pulsed" "Pulsed") with true.
    cbv iota. rewrite time_grid_length.
    unfold JammerPrevention.mean.
    rewrite square_length, length_map, length_seq.
    change JammerPrevention.n_samples with (50 * 20)%nat at 1.
    rewrite pulse_train.
    replace (INR 20) with 20%R by (rewrite INR_IZR_INZ; reflexivity).
    replace (INR JammerPrevention.n_samples) with 1000%R
      by (unfold JammerPrevention.n_samples; rewrite INR_IZR_INZ;
          reflexivity).
    field. }
  split; [ exact J | ].
  unfold tick_success_rate, JammerPrevention.snr_of. rewrite J.
  pose proof (clean_signal_power_at_most_one s randn) as [M0 M1].
  set (m := JammerPrevention.mean
              (JammerPrevention.square
                 (fst (JammerPrevention.generate_signal s randn
                         JammerPrevention.time_grid)))) in *.
  set (c := JammerPrevention.jammer_strength s) in *.
  assert (C2 : (0 < c * c)%R) by nra.
  set (x := (m / (8 / 100 * (c * c) + 1 / 1000000))%R).
  assert (X0 : (0 <= x)%R).
  { unfold x, Rdiv at 1. apply Rmult_le_pos; [ exact M0 | ].
    left. apply Rinv_0_lt_compat. lra. }
  assert (X1 : (x <= (100 / 8) / (c * c))%R).
  { unfold x.
    apply (Rle_trans _ (1 / (8 / 100 * (c * c)))).
    - apply (Rle_trans _ (1 / (8 / 100 * (c * c) + 1 / 1000000))).
      + unfold Rdiv. apply Rmult_le_compat_r; [ | exact M1 ].
        left. apply Rinv_0_lt_compat. lra.
      + unfold Rdiv. apply Rmult_le_compat_l; [ lra | ].
        apply Rinv_le_contravar; lra.
    - right. field. lra. }
  unfold JammerPrevention.success_rate_of, JammerPrevention.clip.
  rewrite (Rmax_left (x / 10) 0) by lra.
  pose proof (Rmin_l (x / 10) 1) as L.
  unfold Rdiv in *. lra.
Qed.

Lemma X17_pulsed_interference_power_witness :
  JammerPrevention.mean
    (JammerPrevention.square
       (snd (JammerPrevention.generate_signal
               (JammerPrevention.set_selection "Pulsed" "Channel Hopping"
                  JammerPrevention.init)
               (fun _ => 0%R) JammerPrevention.time_grid)))
  = (8 / 100 * (5 * 5))%R.
Proof.
  assert (Hs : JammerPrevention.jammer_strength
                 (JammerPrevention.set_selection "Pulsed" "Channel Hopping"
                    JammerPrevention.init) <> 0%R)
    by (simpl; lra).
  apply (@X17_pulsed_interference_power
           (JammerPrevention.set_selection "Pulsed" "Channel Hopping"
              JammerPrevention.init) (fun _ => 0%R) eq_refl Hs).
Defined.

(** ** Stop followed by Start *)

Lemma prevention_step_in_body
    (s : JammerPrevention.state) (l : list Worker.pc) (i : nat)
    (d : JammerPrevention.draws) :
  nth_error l i = Some Worker.InBody ->
  length (JammerPrevention.success_rates s)
  = length (JammerPrevention.success_times s) ->
  exists s',
    JammerPrevention.running s' = JammerPrevention.running s
    /\ length (JammerPrevention.success_rates s')
       = length (JammerPrevention.success_times s')
    /\ Worker.step JammerPrevention.running
         JammerPrevention.run_simulation_tick JammerPrevention.execute
         JammerPrevention.starts_thread
         (Worker.Work JammerPrevention.command i d) (Worker.mkSystem s l)
       = Worker.mkSystem s' (Worker.set_pc i Worker.AtLoopTest l).
Proof.
  intros P L.
  destruct (run_simulation_tick_in_step d s L) as [s' [E L']].
  exists s'. split; [ exact (run_simulation_tick_running _ _ E) | ].
  split; [ exact L' | ].
  simpl. rewrite P. simpl. rewrite E. reflexivity.
Qed.

Lemma prevention_step_at_test
    (s : JammerPrevention.state) (l : list Worker.pc) (i : nat)
    (d : JammerPrevention.draws) :
  nth_error l i = Some Worker.AtLoopTest ->
  JammerPrevention.running s = true ->
  Worker.step JammerPrevention.running
    JammerPrevention.run_simulation_tick JammerPrevention.execute
    JammerPrevention.starts_thread
    (Worker.Work JammerPrevention.command i d) (Worker.mkSystem s l)
  = Worker.mkSystem s (Worker.set_pc i Worker.InBody l).
Proof.
  intros P R. simpl. rewrite P. simpl. rewrite R. reflexivity.
Qed.

